(** * acdcontrol: brightness control of USB HID displays

    A shallow embedding of [acdcontrol.cpp] and the properties of its
    natural-language specification.

    Layout of the development:
    - machine integers and C strings ([int], [number], [atoi]);
    - the device registry ([DeviceId], [init_device_database],
      [is_supported], ...);
    - the hiddev driver interface, as a type class over an abstract kernel
      state, and a recording wrapper around every call;
    - [main]: options, positional parameters, the loop over device files;
    - a scripted driver used to run the model on concrete inputs;
    - the theorems. *)

From Stdlib Require Import ZArith List String Ascii Bool Lia Sorted.
Import ListNotations.

Local Open Scope string_scope.
Local Open Scope Z_scope.

(* ===================================================================== *)
(** ** Machine integers *)

Definition INT_MIN : Z := - 2 ^ 31.
Definition INT_MAX : Z := 2 ^ 31 - 1.
Definition LONG_MIN : Z := - 2 ^ 63.
Definition LONG_MAX : Z := 2 ^ 63 - 1.

(** The value of a 32-bit [int] that holds the low 32 bits of [z]: what an
    [int] addition yields on the two's complement machines the program runs
    on (ISO C leaves signed overflow undefined). *)
Definition to_int (z : Z) : Z := (z + 2 ^ 31) mod 2 ^ 32 - 2 ^ 31.

(** [max] and [min] of <algorithm>, at type [int]. *)
Definition max (a b : Z) : Z := if a <? b then b else a.
Definition min (a b : Z) : Z := if b <? a then b else a.

(** The mathematical clamp the specification speaks of. *)
Definition clamp (x lo hi : Z) : Z := Z.min hi (Z.max lo x).

(* ===================================================================== *)
(** ** Constants of the program (lines 42-63) *)

Definition GET : Z := 0.
Definition SET : Z := 1.
Definition DETECT : Z := 2.
Definition SETREL : Z := 3.

Definition APPLE : Z := 0x05ac.
Definition SAMSUNG : Z := 0x0419.

Definition BRIGHTNESS_CONTROL : Z := 16.
Definition USAGE_CODE : Z := 0x820010.

Definition STUDIO_DISPLAY_15 : Z := 0x9215.
Definition STUDIO_DISPLAY_17 : Z := 0x9217.
Definition CINEMA_DISPLAY_23_OLD : Z := 0x9218.
Definition CINEMA_DISPLAY_23_NEW : Z := 0x9218.
Definition CINEMA_DISPLAY_20_OLD : Z := 0x9219.
Definition CINEMA_DISPLAY_20_NEW : Z := 0x9219.
Definition CINEMA_DISPLAY_24 : Z := 0x921e.
Definition CINEMA_DISPLAY_30 : Z := 0x9232.

Definition S1 : Z := 0x8002.

(** From <linux/hiddev.h>. *)
Definition HID_REPORT_TYPE_FEATURE : Z := 3.

(* ===================================================================== *)
(** ** C strings: [number] and [atoi] *)

Definition char_code (c : ascii) : Z := Z.of_nat (nat_of_ascii c).

(** [bool number(const char* str)], lines 99-103.  A null pointer is [None];
    the empty string has the terminating NUL as its first character, which is
    none of the accepted ones. *)
Definition number (str : option string) : bool :=
  match str with
  | None => false
  | Some EmptyString => false
  | Some (String c _) =>
      ((char_code "0" <=? char_code c) && (char_code c <=? char_code "9"))
      || Ascii.eqb c "+" || Ascii.eqb c "-"
  end.

Definition isspace (c : ascii) : bool :=
  (char_code c =? 32) || ((9 <=? char_code c) && (char_code c <=? 13)).

Definition isdigit (c : ascii) : bool :=
  (48 <=? char_code c) && (char_code c <=? 57).

Fixpoint skip_spaces (s : string) : string :=
  match s with
  | String c s' => if isspace c then skip_spaces s' else s
  | EmptyString => s
  end.

Fixpoint digits (acc : Z) (s : string) : Z :=
  match s with
  | String c s' =>
      if isdigit c then digits (10 * acc + (char_code c - 48)) s' else acc
  | EmptyString => acc
  end.

(** [strtol(s, NULL, 10)]: blanks, an optional sign, then the longest run of
    decimal digits; the result saturates at the bounds of [long]. *)
Definition strtol (s : string) : Z :=
  let v :=
    match skip_spaces s with
    | String "-" s' => - digits 0 s'
    | String "+" s' => digits 0 s'
    | s' => digits 0 s'
    end in
  Z.max LONG_MIN (Z.min LONG_MAX v).

(** [atoi] of the C library, as glibc defines it: [(int) strtol(s, NULL, 10)].
    For a value that fits an [int] this is the standard's result. *)
Definition atoi (s : string) : Z := to_int (strtol s).

(** The first character of a C string ([s[0]]); NUL for the empty string. *)
Definition first_char (s : string) : ascii :=
  match s with
  | String c _ => c
  | EmptyString => zero
  end.

(* ===================================================================== *)
(** ** The device registry *)

(** [struct DeviceId], lines 73-87. *)
Module DeviceId.
Record t : Type := mk { product : Z; vendor : Z; description : string }.

(** [operator <]: by vendor, then by product. *)
Definition lt (a b : t) : bool :=
  (vendor a <? vendor b)
  || ((vendor a =? vendor b) && (product a <? product b)).

(** Equivalence of keys as [std::set] sees it: neither is less. *)
Definition equiv (a b : t) : bool := negb (lt a b) && negb (lt b a).
End DeviceId.

(** The constructor [DeviceId(vendor_, product_, description_)]. *)
Definition DeviceId_ (vendor_ product_ : Z) (description_ : string) : DeviceId.t :=
  DeviceId.mk product_ vendor_ description_.

(** [std::set<DeviceId>]: its elements in iteration order. *)
Definition SupportedDevices : Type := list DeviceId.t.

(** [std::set::insert]: the element goes to its place in the order, and
    nothing happens when an equivalent element is present. *)
Fixpoint set_insert (x : DeviceId.t) (s : SupportedDevices) : SupportedDevices :=
  match s with
  | [] => [x]
  | y :: s' =>
      if DeviceId.lt x y then x :: s
      else if DeviceId.lt y x then y :: set_insert x s'
      else s
  end.

(** [std::set::find]: the element equivalent to [x], if any. *)
Definition set_find (x : DeviceId.t) (s : SupportedDevices) : option DeviceId.t :=
  find (DeviceId.equiv x) s.

(** [std::map<Vendor, string>]: its pairs in iteration order. *)
Definition SupportedVendors : Type := list (Z * string).

(** [std::map::insert]: no effect when the key is present. *)
Fixpoint map_insert (x : Z * string) (m : SupportedVendors) : SupportedVendors :=
  match m with
  | [] => [x]
  | y :: m' =>
      if fst x <? fst y then x :: m
      else if fst y <? fst x then y :: map_insert x m'
      else m
  end.

Definition map_find (v : Z) (m : SupportedVendors) : option string :=
  option_map snd (find (fun y => fst y =? v) m).

(** The two globals [supportedDevices] and [supportedVendors] (lines 89-93). *)
Record Database : Type := mkDatabase {
  supportedDevices : SupportedDevices;
  supportedVendors : SupportedVendors
}.

(** Both containers are empty before [main] runs. *)
Definition empty_database : Database := mkDatabase [] [].

Definition insert_vendor (x : Z * string) (db : Database) : Database :=
  mkDatabase (supportedDevices db) (map_insert x (supportedVendors db)).

Definition insert_device (x : DeviceId.t) (db : Database) : Database :=
  mkDatabase (set_insert x (supportedDevices db)) (supportedVendors db).

(** The character [34] is the double quote of the source's inch marks. *)
Definition inch (s : string) : string :=
  String.append s (String (ascii_of_nat 34) EmptyString).

(** The records [init_device_database] inserts, in source order
    (lines 527-545; the two "(new)" insertions are commented out there). *)
Definition device_table : list DeviceId.t :=
  [ DeviceId_ APPLE STUDIO_DISPLAY_15 (inch "Apple Studio Display 15");
    DeviceId_ APPLE STUDIO_DISPLAY_17 (inch "Apple Studio Display 17");
    DeviceId_ APPLE CINEMA_DISPLAY_20_OLD (String.append (inch "Apple Cinema Display 20") " (old)");
    DeviceId_ APPLE CINEMA_DISPLAY_23_OLD (String.append (inch "Apple Cinema Display 23") " (old)");
    DeviceId_ APPLE CINEMA_DISPLAY_24 (inch "Apple Cinema Display 24");
    DeviceId_ APPLE CINEMA_DISPLAY_30 (inch "Apple Cinema HD Display 30");
    DeviceId_ SAMSUNG S1 "Samsung SyncMaster 757NF" ].

Definition vendor_table : list (Z * string) :=
  [ (SAMSUNG, "Samsung Electronics"); (APPLE, "Apple") ].

(** [void init_device_database()], lines 523-547. *)
Definition init_device_database (db : Database) : Database :=
  fold_left (fun d x => insert_device x d) device_table
    (fold_left (fun d x => insert_vendor x d) vendor_table db).

(** [struct hiddev_devinfo] of <linux/hiddev.h>.  [vendor], [product] and
    [version] are signed 16-bit fields there, [num_applications] is an
    unsigned 32-bit one. *)
Module hiddev_devinfo.
Record t : Type := mk {
  bustype : Z;
  busnum : Z;
  devnum : Z;
  ifnum : Z;
  vendor : Z;
  product : Z;
  version : Z;
  num_applications : Z
}.
End hiddev_devinfo.

(** The identity of a device: both raw fields masked with [0xFFFF]
    (lines 107-108 and 162-163). *)
Definition masked_vendor (device_info : hiddev_devinfo.t) : Z :=
  Z.land (hiddev_devinfo.vendor device_info) 0xFFFF.
Definition masked_product (device_info : hiddev_devinfo.t) : Z :=
  Z.land (hiddev_devinfo.product device_info) 0xFFFF.

(** [bool is_supported(const hiddev_devinfo&)], lines 106-112. *)
Definition is_supported (db : Database) (device_info : hiddev_devinfo.t) : bool :=
  let product := masked_product device_info in
  let vendor := masked_vendor device_info in
  match set_find (DeviceId_ vendor product "") (supportedDevices db) with
  | Some _ => true
  | None => false
  end.

(** [string description(Vendor v, Product p)], lines 119-127. *)
Definition description (db : Database) (v p : Z) : string :=
  match set_find (DeviceId_ v p "") (supportedDevices db) with
  | Some it => DeviceId.description it
  | None => ""
  end.

(** [bool known_vendor(Vendor v)], lines 132-135. *)
Definition known_vendor (db : Database) (v : Z) : bool :=
  let v := Z.land v 0xFFFF in
  match map_find v (supportedVendors db) with
  | Some _ => true
  | None => false
  end.

(** What [format_device] (lines 161-174) writes: the masked vendor, the
    vendor's name when the vendor is known, the masked product, and the
    description when the device is supported. *)
Record DeviceLine : Type := mkDeviceLine {
  line_vendor : Z;
  line_vendor_name : option string;
  line_product : Z;
  line_description : option string
}.

Definition format_device (db : Database) (device_info : hiddev_devinfo.t) : DeviceLine :=
  let v := masked_vendor device_info in
  let p := masked_product device_info in
  mkDeviceLine v
    (if known_vendor db v then map_find v (supportedVendors db) else None)
    p
    (if is_supported db device_info then Some (description db v p) else None).

(** [void dump_supported()], lines 549-556: one line per registered device, in
    the order of the set; [supportedVendors[v]] is the empty string for a
    vendor that is not in the map. *)
Definition dump_supported (db : Database) : list (Z * string * Z * string) :=
  map (fun it =>
         (DeviceId.vendor it,
          match map_find (DeviceId.vendor it) (supportedVendors db) with
          | Some n => n
          | None => ""
          end,
          DeviceId.product it,
          DeviceId.description it))
      (supportedDevices db).

(* ===================================================================== *)
(** ** The hiddev driver *)

(** [struct hiddev_usage_ref] and [struct hiddev_report_info] of
    <linux/hiddev.h>, with the fields the program assigns. *)
Module hiddev_usage_ref.
Record t : Type := mk {
  report_type : Z;
  report_id : Z;
  field_index : Z;
  usage_index : Z;
  usage_code : Z;
  value : Z
}.

(** The assignment [usage_ref.value = v]. *)
Definition set_value (u : t) (v : Z) : t :=
  mk (report_type u) (report_id u) (field_index u) (usage_index u) (usage_code u) v.
End hiddev_usage_ref.

Module hiddev_report_info.
Record t : Type := mk { report_type : Z; report_id : Z; num_fields : Z }.
End hiddev_report_info.

Inductive OpenMode : Type := O_RDONLY | O_RDWR.

(** The system calls the program makes, over an abstract state [K] of the
    kernel and the devices behind it.  A call takes the state and yields its
    result and the next state.  Where the program hands the kernel a pointer
    the kernel writes through ([HIDIOCGVERSION], [HIDIOCGDEVINFO],
    [HIDIOCGUSAGE]), the call takes the old contents and yields the new
    ones, so a call that fails may leave them as they were.  The program
    discards the return value of [HIDIOCGVERSION], [HIDIOCGDEVINFO] and
    [close]; every other call yields its [int] return value, negative on
    failure ([-1] for a failed [ioctl]). *)
Class Hiddev (K : Type) : Type := {
  sys_open : string -> OpenMode -> K -> Z * K;
  sys_close : Z -> K -> K;
  sys_HIDIOCGVERSION : Z -> Z -> K -> Z * K;
  sys_HIDIOCGDEVINFO : Z -> hiddev_devinfo.t -> K -> hiddev_devinfo.t * K;
  sys_HIDIOCAPPLICATION : Z -> Z -> K -> Z * K;
  sys_HIDIOCINITREPORT : Z -> K -> Z * K;
  sys_HIDIOCSUSAGE : Z -> hiddev_usage_ref.t -> K -> Z * K;
  sys_HIDIOCSREPORT : Z -> hiddev_report_info.t -> K -> Z * K;
  sys_HIDIOCGUSAGE :
    Z -> hiddev_usage_ref.t -> K -> (Z * hiddev_usage_ref.t) * K;
  sys_HIDIOCGREPORT : Z -> hiddev_report_info.t -> K -> Z * K
}.

(** One entry of the record of calls: the call, its arguments, and what came
    back. *)
Inductive Call : Type :=
| call_open (path : string) (flags : OpenMode) (ret : Z)
| call_close (fd : Z)
| call_HIDIOCGVERSION (fd : Z) (version : Z)
| call_HIDIOCGDEVINFO (fd : Z) (device_info : hiddev_devinfo.t)
| call_HIDIOCAPPLICATION (fd : Z) (appl_num : Z) (ret : Z)
| call_HIDIOCINITREPORT (fd : Z) (ret : Z)
| call_HIDIOCSUSAGE (fd : Z) (usage_ref : hiddev_usage_ref.t) (ret : Z)
| call_HIDIOCSREPORT (fd : Z) (rep_info : hiddev_report_info.t) (ret : Z)
| call_HIDIOCGUSAGE (fd : Z) (usage_ref : hiddev_usage_ref.t) (ret : Z)
    (usage_ref' : hiddev_usage_ref.t)
| call_HIDIOCGREPORT (fd : Z) (rep_info : hiddev_report_info.t) (ret : Z).

(** What the program writes to standard output and standard error. *)
Inductive Out : Type :=
| out_about
| out_help
| out_dump_supported (lines : list (Z * string * Z * string))
| out_unknown_option (c : ascii)
| out_notice
| out_perror (s : string)
| out_version (major minor patch : Z)
| out_usb_monitor (path : string) (supported : bool) (line : DeviceLine)
| out_unsupported (line : DeviceLine)
| out_not_usb_monitor (path : string)
| out_fatal
| out_brightness (prefix : option string) (value : Z).

(** The state a run threads: the kernel, the calls made so far and the
    output written so far, both with the most recent entry first. *)
Record World (K : Type) : Type := mkWorld {
  kernel : K;
  calls : list Call;
  output : list Out
}.
Arguments mkWorld {K} _ _ _.
Arguments kernel {K} _.
Arguments calls {K} _.
Arguments output {K} _.

(** The calls and the output in the order they happened. *)
Definition history {K : Type} (w : World K) : list Call := rev (calls w).
Definition printed {K : Type} (w : World K) : list Out := rev (output w).

(** A computation either goes on with a value or has called [exit]. *)
Inductive Res (A : Type) : Type :=
| Normal (a : A)
| Exit (code : Z).
Arguments Normal {A} _.
Arguments Exit {A} _.

Definition M (K A : Type) : Type := World K -> Res A * World K.

Definition ret {K A : Type} (a : A) : M K A := fun w => (Normal a, w).

Definition bind {K A B : Type} (m : M K A) (f : A -> M K B) : M K B :=
  fun w =>
    match m w with
    | (Normal a, w') => f a w'
    | (Exit code, w') => (Exit code, w')
    end.

(** [exit(code)]. *)
Definition exit {K A : Type} (code : Z) : M K A := fun w => (Exit code, w).

Definition print {K : Type} (o : Out) : M K unit :=
  fun w => (Normal tt, mkWorld (kernel w) (calls w) (o :: output w)).

Definition when {K : Type} (b : bool) (m : M K unit) : M K unit :=
  if b then m else ret tt.

Declare Scope prog_scope.
Delimit Scope prog_scope with prog.
Notation "x <- m ;; k" := (bind m (fun x => k))
  (at level 61, m at next level, right associativity) : prog_scope.
Notation "m ;; k" := (bind m (fun _ => k))
  (at level 61, right associativity) : prog_scope.
Local Open Scope prog_scope.

(** The exit status of the process: [main] has no [return] statement, and
    falling off its end is [return 0]. *)
Definition exit_status {A : Type} (r : Res A) : Z :=
  match r with
  | Normal _ => 0
  | Exit code => code
  end.

Section Syscalls.
Context {K : Type} `{Hiddev K}.

Definition record (c : Call) (k : K) (w : World K) : World K :=
  mkWorld k (c :: calls w) (output w).

Definition open (path : string) (flags : OpenMode) : M K Z := fun w =>
  let (fd, k) := sys_open path flags (kernel w) in
  (Normal fd, record (call_open path flags fd) k w).

Definition close (fd : Z) : M K unit := fun w =>
  (Normal tt, record (call_close fd) (sys_close fd (kernel w)) w).

Definition ioctl_HIDIOCGVERSION (fd : Z) (version : Z) : M K Z := fun w =>
  let (version', k) := sys_HIDIOCGVERSION fd version (kernel w) in
  (Normal version', record (call_HIDIOCGVERSION fd version') k w).

Definition ioctl_HIDIOCGDEVINFO (fd : Z) (device_info : hiddev_devinfo.t)
  : M K hiddev_devinfo.t := fun w =>
  let (device_info', k) := sys_HIDIOCGDEVINFO fd device_info (kernel w) in
  (Normal device_info', record (call_HIDIOCGDEVINFO fd device_info') k w).

Definition ioctl_HIDIOCAPPLICATION (fd : Z) (appl_num : Z) : M K Z := fun w =>
  let (r, k) := sys_HIDIOCAPPLICATION fd appl_num (kernel w) in
  (Normal r, record (call_HIDIOCAPPLICATION fd appl_num r) k w).

Definition ioctl_HIDIOCINITREPORT (fd : Z) : M K Z := fun w =>
  let (r, k) := sys_HIDIOCINITREPORT fd (kernel w) in
  (Normal r, record (call_HIDIOCINITREPORT fd r) k w).

Definition ioctl_HIDIOCSUSAGE (fd : Z) (usage_ref : hiddev_usage_ref.t)
  : M K Z := fun w =>
  let (r, k) := sys_HIDIOCSUSAGE fd usage_ref (kernel w) in
  (Normal r, record (call_HIDIOCSUSAGE fd usage_ref r) k w).

Definition ioctl_HIDIOCSREPORT (fd : Z) (rep_info : hiddev_report_info.t)
  : M K Z := fun w =>
  let (r, k) := sys_HIDIOCSREPORT fd rep_info (kernel w) in
  (Normal r, record (call_HIDIOCSREPORT fd rep_info r) k w).

Definition ioctl_HIDIOCGUSAGE (fd : Z) (usage_ref : hiddev_usage_ref.t)
  : M K (Z * hiddev_usage_ref.t) := fun w =>
  let (res, k) := sys_HIDIOCGUSAGE fd usage_ref (kernel w) in
  (Normal res, record (call_HIDIOCGUSAGE fd usage_ref (fst res) (snd res)) k w).

Definition ioctl_HIDIOCGREPORT (fd : Z) (rep_info : hiddev_report_info.t)
  : M K Z := fun w =>
  let (r, k) := sys_HIDIOCGREPORT fd rep_info (kernel w) in
  (Normal r, record (call_HIDIOCGREPORT fd rep_info r) k w).

End Syscalls.

(* ===================================================================== *)
(** ** The program *)

(** The locals of [main] the two argument loops set (lines 305-315 and
    378-379), with their initial values. *)
Module Settings.
Record t : Type := mk {
  brief : bool;
  silent : bool;
  force : bool;
  mode : Z;
  amount : Z;
  brightness : Z;
  files : list string
}.

Definition initial : t := mk false false false GET 0 0 [].

Definition set_brief (s : t) : t :=
  mk true (silent s) (force s) (mode s) (amount s) (brightness s) (files s).
Definition set_silent (s : t) : t :=
  mk (brief s) true (force s) (mode s) (amount s) (brightness s) (files s).
Definition set_force (s : t) : t :=
  mk (brief s) (silent s) true (mode s) (amount s) (brightness s) (files s).
Definition set_mode (s : t) (m : Z) : t :=
  mk (brief s) (silent s) (force s) m (amount s) (brightness s) (files s).
Definition set_relative (s : t) (a : Z) : t :=
  mk (brief s) (silent s) (force s) SETREL a (brightness s) (files s).
Definition set_absolute (s : t) (b : Z) : t :=
  mk (brief s) (silent s) (force s) SET (amount s) b (files s).
Definition push_back (s : t) (f : string) : t :=
  mk (brief s) (silent s) (force s) (mode s) (amount s) (brightness s)
     (files s ++ [f]).
End Settings.

(** The locals of [main] the loop over the device files reads and writes
    from one file to the next.  [usage_ref] and [rep_info] are assigned in
    full (lines 456-466) before each use, and [fd] at line 410, so they are
    local to one round of the loop here. *)
Module Loop.
Record t : Type := mk {
  version : Z;
  device_info : hiddev_devinfo.t;
  brightness : Z;
  first_device : bool
}.
End Loop.

(** The positional parameters, lines 381-394: the state after the loop has
    gone through [argv[optind]], ..., [argv[argc-1]]. *)
Fixpoint parse_params (params : list string) (s : Settings.t) : Settings.t :=
  match params with
  | [] => s
  | p :: rest =>
      if negb (Settings.mode s =? DETECT) && number (Some p) then
        if Ascii.eqb (first_char p) "+" || Ascii.eqb (first_char p) "-" then
          parse_params rest (Settings.set_relative s (atoi p))
        else
          parse_params rest (Settings.set_absolute s (atoi p))
      else
        parse_params rest (Settings.push_back s p)
  end.

Section Program.
Context {K : Type} `{Hiddev K}.

(** The option loop, lines 322-376.  [cs] are the values [getopt_long]
    returns, one per call, before it returns [-1]. *)
Fixpoint parse_options (db : Database) (cs : list ascii) (s : Settings.t)
  : M K Settings.t :=
  match cs with
  | [] => ret s
  | c :: cs' =>
      if Ascii.eqb c "a" then print out_about ;; exit 0
      else if Ascii.eqb c "b" then parse_options db cs' (Settings.set_brief s)
      else if Ascii.eqb c "h" then print out_help ;; exit 0
      else if Ascii.eqb c "s" then parse_options db cs' (Settings.set_silent s)
      else if Ascii.eqb c "f" then parse_options db cs' (Settings.set_force s)
      else if Ascii.eqb c "d" then parse_options db cs' (Settings.set_mode s DETECT)
      else if Ascii.eqb c "l" then
        print (out_dump_supported (dump_supported db)) ;; exit 0
      else
        print (out_unknown_option c) ;; print out_help ;; exit 2
  end.

(** The loop of [is_usb_monitor], with [remaining] rounds to go.  The
    counter is an [int] compared with the unsigned [num_applications], so
    the loop makes exactly [num_applications] rounds. *)
Fixpoint is_usb_monitor_from (remaining : nat) (appl_num : Z) (fd : Z)
  : M K bool :=
  match remaining with
  | O => ret false
  | S remaining' =>
      application <- ioctl_HIDIOCAPPLICATION fd appl_num ;;
      if Z.land (Z.shiftr application 16) 0xFF =? 0x80 then ret true
      else is_usb_monitor_from remaining' (to_int (appl_num + 1)) fd
  end.

(** [bool is_usb_monitor(const hiddev_devinfo&, int fd)], lines 141-155. *)
Definition is_usb_monitor (device_info : hiddev_devinfo.t) (fd : Z) : M K bool :=
  is_usb_monitor_from
    (Z.to_nat (hiddev_devinfo.num_applications device_info)) 0 fd.

(** Lines 456-514 of [main]: the exchange with the display for one open
    device.  The result is the value of [brightness] afterwards. *)
Definition transaction (s : Settings.t) (it : string) (fd : Z) (brightness : Z)
  : M K Z :=
  let usage_ref :=
    hiddev_usage_ref.mk HID_REPORT_TYPE_FEATURE BRIGHTNESS_CONTROL 0 0
      USAGE_CODE brightness in
  let rep_info :=
    hiddev_report_info.mk HID_REPORT_TYPE_FEATURE BRIGHTNESS_CONTROL 1 in
  if Settings.mode s =? SET then
    r <- ioctl_HIDIOCSUSAGE fd usage_ref ;;
    if r <? 0 then print (out_perror "Usage failed!") ;; exit 2 else
    r <- ioctl_HIDIOCSREPORT fd rep_info ;;
    if r <? 0 then print (out_perror "Report failed!") ;; exit 3 else
    ret brightness
  else
    g <- ioctl_HIDIOCGUSAGE fd usage_ref ;;
    let usage_ref := snd g in
    if fst g <? 0 then print (out_perror "Usage failed!") ;; exit 2 else
    r <- ioctl_HIDIOCGREPORT fd rep_info ;;
    if r <? 0 then print (out_perror "Report failed!") ;; exit 3 else
    if Settings.mode s =? SETREL then
      let brightness :=
        to_int (hiddev_usage_ref.value usage_ref + Settings.amount s) in
      let brightness := max 0 brightness in
      let brightness := min 255 brightness in
      let usage_ref := hiddev_usage_ref.set_value usage_ref brightness in
      r <- ioctl_HIDIOCSUSAGE fd usage_ref ;;
      if r <? 0 then print (out_perror "Usage failed!") ;; exit 2 else
      r <- ioctl_HIDIOCSREPORT fd rep_info ;;
      if r <? 0 then print (out_perror "Report failed!") ;; exit 3 else
      g <- ioctl_HIDIOCGUSAGE fd usage_ref ;;
      let usage_ref := snd g in
      if fst g <? 0 then print (out_perror "Usage failed!") ;; exit 2 else
      r <- ioctl_HIDIOCGREPORT fd rep_info ;;
      if r <? 0 then print (out_perror "Report failed!") ;; exit 3 else
      print (out_brightness (if Settings.brief s then None else Some it)
               (hiddev_usage_ref.value usage_ref)) ;;
      ret brightness
    else
      print (out_brightness (if Settings.brief s then None else Some it)
               (hiddev_usage_ref.value usage_ref)) ;;
      ret brightness.

(** Lines 436-441 of [main]: the registry check on the identity just read. *)
Definition registry_check (db : Database) (s : Settings.t)
    (device_info : hiddev_devinfo.t) : M K unit :=
  if negb (is_supported db device_info) then
    print (out_unsupported (format_device db device_info)) ;;
    if negb (Settings.force s) then exit 2 else ret tt
  else ret tt.

(** Lines 444-517 of [main]: the monitor check, the initialisation of the
    report structures, the exchange, and the end of the round. *)
Definition monitor_stage (s : Settings.t) (it : string) (fd : Z) (l : Loop.t)
  : M K Loop.t :=
  monitor <- is_usb_monitor (Loop.device_info l) fd ;;
  if negb monitor then
    print (out_not_usb_monitor it) ;; ret l
  else
    r <- ioctl_HIDIOCINITREPORT fd ;;
    if r <? 0 then print out_fatal ;; exit 1 else
    brightness <- transaction s it fd (Loop.brightness l) ;;
    close fd ;;
    ret (Loop.mk (Loop.version l) (Loop.device_info l) brightness false).

(** Lines 436-517: what [main] does with an open device outside detection. *)
Definition control (db : Database) (s : Settings.t) (it : string) (fd : Z)
    (l : Loop.t) : M K Loop.t :=
  registry_check db s (Loop.device_info l) ;;
  monitor_stage s it fd l.

(** One round of the loop over the device files, lines 410-517. *)
Definition process_device (db : Database) (s : Settings.t)
    (open_mode : OpenMode) (it : string) (l : Loop.t) : M K Loop.t :=
  fd <- open it open_mode ;;
  if fd <? 0 then print (out_perror it) ;; ret l else
  version <- ioctl_HIDIOCGVERSION fd (Loop.version l) ;;
  when (negb (Settings.silent s) && Loop.first_device l)
    (print (out_version (Z.shiftr version 16)
                        (Z.land (Z.shiftr version 8) 0xff)
                        (Z.land version 0xff))) ;;
  device_info <- ioctl_HIDIOCGDEVINFO fd (Loop.device_info l) ;;
  let l := Loop.mk version device_info (Loop.brightness l) (Loop.first_device l) in
  if Settings.mode s =? DETECT then
    monitor <- is_usb_monitor device_info fd ;;
    when monitor
      (print (out_usb_monitor it (is_supported db device_info)
                (format_device db device_info))) ;;
    ret l
  else
    control db s it fd l.

(** The loop over the device files, lines 408-518. *)
Fixpoint device_loop (db : Database) (s : Settings.t) (open_mode : OpenMode)
    (files : list string) (l : Loop.t) : M K Loop.t :=
  match files with
  | [] => ret l
  | it :: rest =>
      l' <- process_device db s open_mode it l ;;
      device_loop db s open_mode rest l'
  end.

(** Line 401-403. *)
Definition open_mode_of (mode : Z) : OpenMode :=
  if (mode =? SET) || (mode =? SETREL) then O_RDWR else O_RDONLY.

(** Lines 396-519 of [main]: from the parsed arguments to the end.
    [version] and [device_info] are what the two uninitialised locals
    happen to hold. *)
Definition session (db : Database) (s : Settings.t) (version : Z)
    (device_info : hiddev_devinfo.t) : M K unit :=
  match Settings.files s with
  | [] => print out_help ;; exit 1
  | _ :: _ =>
      when (negb (Settings.silent s)) (print out_notice) ;;
      device_loop db s (open_mode_of (Settings.mode s)) (Settings.files s)
        (Loop.mk version device_info (Settings.brightness s) true) ;;
      ret tt
  end.

(** [int main(int argc, char **argv)], lines 292-519.  [getopt] lists what
    [getopt_long] returns, call by call, and [params] are [argv[optind]] to
    [argv[argc-1]] once it has returned [-1]. *)
Definition main (getopt : list ascii) (params : list string) (version : Z)
    (device_info : hiddev_devinfo.t) : M K unit :=
  let db := init_device_database empty_database in
  s <- parse_options db getopt Settings.initial ;;
  session db (parse_params params s) version device_info.

End Program.

(** The world a process starts in. *)
Definition start {K : Type} (k : K) : World K := mkWorld k [] [].

(* ===================================================================== *)
(** ** A scripted driver

    A small implementation of the driver interface, to run the program on
    concrete inputs: a list of device nodes, each with its identity, its
    application collections, the brightness it holds, the granularity of
    its backlight and the requests it refuses.  The node at position [n] of
    the list is opened as file descriptor [3 + n]. *)
Module Mock.

Inductive Request : Type :=
| INITREPORT | SUSAGE | SREPORT | GUSAGE | GREPORT.

Definition Request_eqb (a b : Request) : bool :=
  match a, b with
  | INITREPORT, INITREPORT | SUSAGE, SUSAGE | SREPORT, SREPORT
  | GUSAGE, GUSAGE | GREPORT, GREPORT => true
  | _, _ => false
  end.

Record device : Type := mkDevice {
  path : string;
  info : hiddev_devinfo.t;
  driver_version : Z;
  applications : list Z;
  level : Z;
  granularity : Z;
  refused : list Request
}.

Definition t : Type := list device.

Definition refuses (d : device) (r : Request) : bool :=
  existsb (Request_eqb r) (refused d).

Fixpoint index_of (p : string) (ds : t) (n : Z) : Z :=
  match ds with
  | [] => -1
  | d :: ds' => if String.eqb (path d) p then n else index_of p ds' (n + 1)
  end.

Definition lookup (fd : Z) (ds : t) : option device :=
  if fd <? 3 then None else nth_error ds (Z.to_nat (fd - 3)).

Fixpoint update (n : nat) (f : device -> device) (ds : t) : t :=
  match ds, n with
  | [], _ => []
  | d :: ds', O => f d :: ds'
  | d :: ds', S n' => d :: update n' f ds'
  end.

(** The backlight keeps multiples of its granularity. *)
Definition snap (d : device) (v : Z) : Z :=
  if granularity d <=? 1 then v else v / granularity d * granularity d.

Definition set_level (v : Z) (d : device) : device :=
  mkDevice (path d) (info d) (driver_version d) (applications d) (snap d v)
    (granularity d) (refused d).

Definition status (fd : Z) (r : Request) (ds : t) : Z :=
  match lookup fd ds with
  | Some d => if refuses d r then -1 else 0
  | None => -1
  end.

#[global] Instance driver : Hiddev t := {
  sys_open p _ ds := (index_of p ds 3, ds);
  sys_close _ ds := ds;
  sys_HIDIOCGVERSION fd version ds :=
    (match lookup fd ds with Some d => driver_version d | None => version end, ds);
  sys_HIDIOCGDEVINFO fd device_info ds :=
    (match lookup fd ds with Some d => info d | None => device_info end, ds);
  sys_HIDIOCAPPLICATION fd appl_num ds :=
    (match lookup fd ds with
     | Some d => if appl_num <? 0 then -1
                 else nth (Z.to_nat appl_num) (applications d) (-1)
     | None => -1
     end, ds);
  sys_HIDIOCINITREPORT fd ds := (status fd INITREPORT ds, ds);
  sys_HIDIOCSUSAGE fd usage_ref ds :=
    (status fd SUSAGE ds,
     if status fd SUSAGE ds <? 0 then ds
     else update (Z.to_nat (fd - 3))
            (set_level (hiddev_usage_ref.value usage_ref)) ds);
  sys_HIDIOCSREPORT fd _ ds := (status fd SREPORT ds, ds);
  sys_HIDIOCGUSAGE fd usage_ref ds :=
    ((status fd GUSAGE ds,
      match lookup fd ds with
      | Some d => if refuses d GUSAGE then usage_ref
                  else hiddev_usage_ref.set_value usage_ref (level d)
      | None => usage_ref
      end), ds);
  sys_HIDIOCGREPORT fd _ ds := (status fd GREPORT ds, ds)
}.

(** A display: a device node with one application, on the monitor usage
    page. *)
Definition display (p : string) (vendor product : Z) (level : Z) : device :=
  mkDevice p (hiddev_devinfo.mk 3 1 2 0 vendor product 0x0100 1) 0x010004
    [0x00800001] level 1 [].

(** A HID device that is no monitor: a keyboard. *)
Definition keyboard (p : string) : device :=
  mkDevice p (hiddev_devinfo.mk 3 1 3 0 0x046d 0xc31c 0x0100 1) 0x010004
    [0x00010006] 0 1 [].

Definition with_granularity (g : Z) (d : device) : device :=
  mkDevice (path d) (info d) (driver_version d) (applications d) (level d)
    g (refused d).

Definition refusing (r : Request) (d : device) : device :=
  mkDevice (path d) (info d) (driver_version d) (applications d) (level d)
    (granularity d) (r :: refused d).

(** The contents of the uninitialised locals in the runs below. *)
Definition junk_version : Z := 0.
Definition junk_info : hiddev_devinfo.t := hiddev_devinfo.mk 0 0 0 0 0 0 0 0.

Definition run (ds : t) (getopt : list ascii) (params : list string)
  : Res unit * World t :=
  main getopt params junk_version junk_info (start ds).

End Mock.


(* ===================================================================== *)
(** * Vocabulary of the properties *)

Arguments number : simpl never.
Arguments atoi : simpl never.
Arguments first_char : simpl never.
Arguments to_int : simpl never.
Arguments is_supported : simpl never.
Arguments format_device : simpl never.

(** The registry [main] builds before it does anything else (line 320). *)
Definition registry : Database := init_device_database empty_database.

(** The key of a record: what [operator <] compares. *)
Definition key (d : DeviceId.t) : Z * Z := (DeviceId.vendor d, DeviceId.product d).

Definition precedes (a b : DeviceId.t) : Prop := DeviceId.lt a b = true.

(** A parameter the loop takes for a relative change: its first character
    is a sign (line 383). *)
Definition relative (p : string) : bool :=
  Ascii.eqb (first_char p) "+" || Ascii.eqb (first_char p) "-".

(** The test of line 150 on one value. *)
Definition on_monitor_page (application : Z) : bool :=
  Z.land (Z.shiftr application 16) 0xFF =? 0x80.

Definition is_application_call (c : Call) : Prop :=
  match c with
  | call_HIDIOCAPPLICATION _ _ _ => True
  | _ => False
  end.

(** What the driver answers when it is asked for [n] applications in turn,
    starting at index [appl_num], whatever the answers are. *)
Fixpoint application_replies {K : Type} `{Hiddev K}
    (n : nat) (appl_num fd : Z) (k : K) : list Z :=
  match n with
  | O => []
  | S n' =>
      let (r, k') := sys_HIDIOCAPPLICATION fd appl_num k in
      r :: application_replies n' (to_int (appl_num + 1)) fd k'
  end.

(** The calls after which the program ends the process. *)
Definition init_failed (c : Call) : bool :=
  match c with
  | call_HIDIOCINITREPORT _ r => r <? 0
  | _ => false
  end.

Definition usage_failed (c : Call) : bool :=
  match c with
  | call_HIDIOCSUSAGE _ _ r => r <? 0
  | call_HIDIOCGUSAGE _ _ r _ => r <? 0
  | _ => false
  end.

Definition report_failed (c : Call) : bool :=
  match c with
  | call_HIDIOCSREPORT _ _ r => r <? 0
  | call_HIDIOCGREPORT _ _ r => r <? 0
  | _ => false
  end.

(** The device information just read names a device that is not in the
    registry, outside detection and without the force option. *)
Definition refused_unsupported (db : Database) (s : Settings.t) (c : Call) : bool :=
  match c with
  | call_HIDIOCGDEVINFO _ device_info =>
      negb (Settings.mode s =? DETECT) && negb (is_supported db device_info)
      && negb (Settings.force s)
  | _ => false
  end.

(** The exit code a call leads to, if it ends the process. *)
Definition fatal (db : Database) (s : Settings.t) (c : Call) : option Z :=
  if init_failed c then Some 1
  else if usage_failed c || refused_unsupported db s c then Some 2
  else if report_failed c then Some 3
  else None.

Definition harmless (db : Database) (s : Settings.t) (c : Call) : Prop :=
  fatal db s c = None.

(** The value a set-usage call hands to the driver lies in 0..255. *)
Definition sent_in_range (c : Call) : Prop :=
  match c with
  | call_HIDIOCSUSAGE _ usage_ref _ => 0 <= hiddev_usage_ref.value usage_ref <= 255
  | _ => True
  end.

(** What holds of the values the program sends: in SET mode the caller's
    number as it is, in SETREL mode a value in 0..255, and in every other
    mode there is no set-usage call at all. *)
Definition sent_as_designed (s : Settings.t) (c : Call) : Prop :=
  match c with
  | call_HIDIOCSUSAGE _ usage_ref _ =>
      if Settings.mode s =? SET
      then hiddev_usage_ref.value usage_ref = Settings.brightness s
      else if Settings.mode s =? SETREL
      then 0 <= hiddev_usage_ref.value usage_ref <= 255
      else False
  | _ => True
  end.

(** The calls of detection: a read-only open and the three queries. *)
Definition probe_call (c : Call) : Prop :=
  match c with
  | call_open _ O_RDONLY _ => True
  | call_HIDIOCGVERSION _ _ => True
  | call_HIDIOCGDEVINFO _ _ => True
  | call_HIDIOCAPPLICATION _ _ _ => True
  | _ => False
  end.

(** The write-class directives of the specification. *)
Definition write_call (c : Call) : Prop :=
  match c with
  | call_HIDIOCINITREPORT _ _ => True
  | call_HIDIOCSUSAGE _ _ _ => True
  | call_HIDIOCSREPORT _ _ _ => True
  | _ => False
  end.

(** The calls of the brightness exchange and its initialisation. *)
Definition engine_call (c : Call) : Prop :=
  match c with
  | call_HIDIOCINITREPORT _ _ => True
  | call_HIDIOCSUSAGE _ _ _ => True
  | call_HIDIOCSREPORT _ _ _ => True
  | call_HIDIOCGUSAGE _ _ _ _ => True
  | call_HIDIOCGREPORT _ _ _ => True
  | _ => False
  end.

(** The paths of the [open] calls in a list of calls. *)
Fixpoint opened (cs : list Call) : list string :=
  match cs with
  | [] => []
  | call_open p _ _ :: cs' => p :: opened cs'
  | _ :: cs' => opened cs'
  end.

(** The number of driver version lines in an output. *)
Fixpoint version_lines (os : list Out) : nat :=
  match os with
  | [] => O
  | out_version _ _ _ :: os' => S (version_lines os')
  | _ :: os' => version_lines os'
  end.

(** The settings the option loop leaves when no option ends the run. *)
Definition apply_option (s : Settings.t) (c : ascii) : Settings.t :=
  if Ascii.eqb c "b" then Settings.set_brief s
  else if Ascii.eqb c "s" then Settings.set_silent s
  else if Ascii.eqb c "f" then Settings.set_force s
  else if Ascii.eqb c "d" then Settings.set_mode s DETECT
  else s.

(** The options that end the run: about, help, list-all, and whatever
    [getopt_long] does not know. *)
Definition ends_run (c : ascii) : bool :=
  negb (Ascii.eqb c "b" || Ascii.eqb c "s" || Ascii.eqb c "f" || Ascii.eqb c "d").

(** What the driver answers to the three calls every round of the loop
    starts with: the descriptor, the driver version, the device
    information, and the kernel state after them. *)
Definition probe {K : Type} `{Hiddev K} (open_mode : OpenMode) (it : string)
    (l : Loop.t) (k : K) : Z * Z * hiddev_devinfo.t * K :=
  let (fd, k1) := sys_open it open_mode k in
  let (version, k2) := sys_HIDIOCGVERSION fd (Loop.version l) k1 in
  let (device_info, k3) := sys_HIDIOCGDEVINFO fd (Loop.device_info l) k2 in
  (fd, version, device_info, k3).

(** The world after these three calls, and the locals of the loop. *)
Definition probed {K : Type} (s : Settings.t) (open_mode : OpenMode)
    (it : string) (l : Loop.t) (w : World K)
    (fd version : Z) (device_info : hiddev_devinfo.t) (k3 : K) : World K :=
  mkWorld k3
    (call_HIDIOCGDEVINFO fd device_info
     :: call_HIDIOCGVERSION fd version
     :: call_open it open_mode fd :: calls w)
    (if negb (Settings.silent s) && Loop.first_device l
     then out_version (Z.shiftr version 16) (Z.land (Z.shiftr version 8) 0xff)
            (Z.land version 0xff) :: output w
     else output w).

Definition probed_locals (l : Loop.t) (version : Z)
    (device_info : hiddev_devinfo.t) : Loop.t :=
  Loop.mk version device_info (Loop.brightness l) (Loop.first_device l).

(** Whether some application of the device is on the monitor page, by the
    driver's answers from the kernel state [k]. *)
Definition classified_monitor {K : Type} `{Hiddev K}
    (device_info : hiddev_devinfo.t) (fd : Z) (k : K) : bool :=
  existsb on_monitor_page
    (application_replies
       (Z.to_nat (hiddev_devinfo.num_applications device_info)) 0 fd k).

(** Writing one more line. *)
Definition printing {K : Type} (o : Out) (w : World K) : World K :=
  mkWorld (kernel w) (calls w) (o :: output w).

(** The values handed to set-usage, and the values get-usage returned, in a
    list of calls. *)
Fixpoint sent_values (cs : list Call) : list Z :=
  match cs with
  | [] => []
  | call_HIDIOCSUSAGE _ usage_ref _ :: cs' =>
      hiddev_usage_ref.value usage_ref :: sent_values cs'
  | _ :: cs' => sent_values cs'
  end.

Fixpoint read_values (cs : list Call) : list Z :=
  match cs with
  | [] => []
  | call_HIDIOCGUSAGE _ _ _ usage_ref' :: cs' =>
      hiddev_usage_ref.value usage_ref' :: read_values cs'
  | _ :: cs' => read_values cs'
  end.

(** The devices of the concrete runs. *)
Module Runs.

(** Scenario A of the specification: a 20 inch Cinema Display at 160. *)
Definition cinema (level : Z) : Mock.device :=
  Mock.display "/dev/hiddev0" APPLE CINEMA_DISPLAY_20_OLD level.

(** A second display, a Studio Display 17, on the next node. *)
Definition studio (level : Z) : Mock.device :=
  Mock.display "/dev/hiddev1" APPLE STUDIO_DISPLAY_17 level.

(** Scenario D: a monitor that is not in the registry. *)
Definition stranger : Mock.device :=
  Mock.display "/dev/hiddev0" 0x1234 0x0001 100.

Definition locals : Loop.t := Loop.mk Mock.junk_version Mock.junk_info 0 true.

End Runs.

(* ===================================================================== *)
(** * Running the program symbolically *)

(** The innermost scrutinee of a nest of [match]es: the next thing the
    program branches on. *)
Ltac scrutinee t :=
  lazymatch t with
  | match ?x with _ => _ end => scrutinee x
  | ?f ?a =>
      lazymatch f with
      | match ?x with _ => _ end => scrutinee x
      | _ => t
      end
  | _ => t
  end.

Ltac reduce :=
  cbv beta iota zeta delta
    [bind ret exit print when record
     open close ioctl_HIDIOCGVERSION ioctl_HIDIOCGDEVINFO
     ioctl_HIDIOCINITREPORT ioctl_HIDIOCSUSAGE ioctl_HIDIOCSREPORT
     ioctl_HIDIOCGUSAGE ioctl_HIDIOCGREPORT
     process_device control registry_check monitor_stage transaction
     is_usb_monitor];
  cbn [kernel calls output fst snd
       Loop.version Loop.device_info Loop.brightness Loop.first_device].

Ltac use_eqns :=
  repeat match goal with
         | E : ?x = _ |- context [?x] => rewrite E
         end.

(* ===================================================================== *)
(** * Further vocabulary *)

(** The keys of the vendor map. *)
Definition vendor_keys (m : SupportedVendors) : list Z := map fst m.

(** The (vendor, product) pair of a line of [dump_supported]. *)
Definition dump_key (line : Z * string * Z * string) : Z * Z :=
  match line with
  | (v, _, p, _) => (v, p)
  end.

(** The order of [operator <] on keys. *)
Definition key_lt (a b : Z * Z) : Prop :=
  fst a < fst b \/ (fst a = fst b /\ snd a < snd b).

(** An application query on the descriptor [fd]. *)
Definition application_call_on (fd : Z) (c : Call) : Prop :=
  match c with
  | call_HIDIOCAPPLICATION fd' _ _ => fd' = fd
  | _ => False
  end.

(** How many of the replies the scan of [is_usb_monitor] gets to see: up to
    and including the first one on the monitor page. *)
Fixpoint scan_length (replies : list Z) : nat :=
  match replies with
  | [] => O
  | r :: replies' => if on_monitor_page r then 1%nat else S (scan_length replies')
  end.

(** The calls that change the brightness. *)
Definition set_call (c : Call) : Prop :=
  match c with
  | call_HIDIOCSUSAGE _ _ _ => True
  | call_HIDIOCSREPORT _ _ _ => True
  | _ => False
  end.

(** What holds of every call of a run with the settings [s]: a file is
    opened in the mode of line 401-403, and the brightness is set in SET
    and SETREL mode only. *)
Definition access_as_designed (s : Settings.t) (c : Call) : Prop :=
  match c with
  | call_open _ flags _ => flags = open_mode_of (Settings.mode s)
  | call_HIDIOCSUSAGE _ _ _ =>
      Settings.mode s = SET \/ Settings.mode s = SETREL
  | call_HIDIOCSREPORT _ _ _ =>
      Settings.mode s = SET \/ Settings.mode s = SETREL
  | _ => True
  end.

(** The two lines the silent option suppresses. *)
Definition chatter (o : Out) : Prop :=
  match o with
  | out_notice => True
  | out_version _ _ _ => True
  | _ => False
  end.

(** What holds of every brightness line of a run over [files]. *)
Definition brightness_line_as_designed (s : Settings.t) (files : list string)
    (o : Out) : Prop :=
  match o with
  | out_brightness prefix _ =>
      Settings.mode s <> SET
      /\ (if Settings.brief s then prefix = None
          else exists it, In it files /\ prefix = Some it)
  | _ => True
  end.

(** A report call on [fd] that succeeded. *)
Definition report_done_on (fd : Z) (c : Call) : Prop :=
  match c with
  | call_HIDIOCSREPORT fd' _ r => fd' = fd /\ 0 <= r
  | call_HIDIOCGREPORT fd' _ r => fd' = fd /\ 0 <= r
  | _ => False
  end.

(** In a list of calls, most recent first: every [close] comes right after
    a report call on the same descriptor that succeeded. *)
Fixpoint closes_after_reports (cs : list Call) : Prop :=
  match cs with
  | [] => True
  | c :: cs' =>
      match c with
      | call_close fd =>
          match cs' with
          | c' :: _ => report_done_on fd c'
          | [] => False
          end
      | _ => True
      end
      /\ closes_after_reports cs'
  end.

(** The descriptor a call works on; [None] for [open]. *)
Definition descriptor_of (c : Call) : option Z :=
  match c with
  | call_open _ _ _ => None
  | call_close fd => Some fd
  | call_HIDIOCGVERSION fd _ => Some fd
  | call_HIDIOCGDEVINFO fd _ => Some fd
  | call_HIDIOCAPPLICATION fd _ _ => Some fd
  | call_HIDIOCINITREPORT fd _ => Some fd
  | call_HIDIOCSUSAGE fd _ _ => Some fd
  | call_HIDIOCSREPORT fd _ _ => Some fd
  | call_HIDIOCGUSAGE fd _ _ _ => Some fd
  | call_HIDIOCGREPORT fd _ _ => Some fd
  end.

(** The descriptor that is open after a list of calls, most recent first:
    the one the last [open] returned, unless that failed or the descriptor
    was closed since. *)
Fixpoint current_fd (cs : list Call) : option Z :=
  match cs with
  | [] => None
  | call_open _ _ r :: _ => if r <? 0 then None else Some r
  | call_close _ :: _ => None
  | _ :: cs' => current_fd cs'
  end.

(** Every call but [open] works on the descriptor that is open. *)
Fixpoint scoped (cs : list Call) : Prop :=
  match cs with
  | [] => True
  | c :: cs' =>
      match descriptor_of c with
      | Some fd => current_fd cs' = Some fd
      | None => True
      end
      /\ scoped cs'
  end.

(** The first option of the command line that ends the run. *)
Definition first_ending (getopt : list ascii) : option ascii :=
  find ends_run getopt.

(** The exit code of an option that ends the run (lines 342-374). *)
Definition ending_code (c : ascii) : Z :=
  if Ascii.eqb c "a" || Ascii.eqb c "h" || Ascii.eqb c "l" then 0 else 2.

(** In a list of calls, most recent first: the most recent call is an
    application query whose reply is on the monitor page. *)
Definition monitor_found (cs : list Call) : bool :=
  match cs with
  | call_HIDIOCAPPLICATION _ _ application :: _ => on_monitor_page application
  | _ => false
  end.

(** The exchange may go on: the calls since the query that found the
    monitor are an init-report and usage and report calls, none of which
    failed. *)
Fixpoint ready (cs : list Call) : bool :=
  match cs with
  | call_HIDIOCINITREPORT _ r :: cs' => negb (r <? 0) && monitor_found cs'
  | call_HIDIOCSUSAGE _ _ r :: cs' => negb (r <? 0) && ready cs'
  | call_HIDIOCSREPORT _ _ r :: cs' => negb (r <? 0) && ready cs'
  | call_HIDIOCGUSAGE _ _ r _ :: cs' => negb (r <? 0) && ready cs'
  | call_HIDIOCGREPORT _ _ r :: cs' => negb (r <? 0) && ready cs'
  | _ => false
  end.

(** Every init-report comes right after the query that found the monitor,
    and every usage or report call comes when the exchange may go on. *)
Fixpoint guarded (cs : list Call) : Prop :=
  match cs with
  | [] => True
  | c :: cs' =>
      match c with
      | call_HIDIOCINITREPORT _ _ => monitor_found cs' = true
      | call_HIDIOCSUSAGE _ _ _ => ready cs' = true
      | call_HIDIOCSREPORT _ _ _ => ready cs' = true
      | call_HIDIOCGUSAGE _ _ _ _ => ready cs' = true
      | call_HIDIOCGREPORT _ _ _ => ready cs' = true
      | _ => True
      end
      /\ guarded cs'
  end.

(** The most recent call is a [close]. *)
Definition closed_last (cs : list Call) : bool :=
  match cs with
  | call_close _ :: _ => true
  | _ => false
  end.

(* ===================================================================== *)
(** * Properties *)

(** ** The registry *)


Lemma lt_spec a b :
  DeviceId.lt a b = true <->
  DeviceId.vendor a < DeviceId.vendor b
  \/ (DeviceId.vendor a = DeviceId.vendor b /\ DeviceId.product a < DeviceId.product b).
Proof.
  unfold DeviceId.lt.
  rewrite orb_true_iff, andb_true_iff, !Z.ltb_lt, Z.eqb_eq. tauto.
Qed.

Lemma lt_false_spec a b :
  DeviceId.lt a b = false <->
  DeviceId.vendor b < DeviceId.vendor a
  \/ (DeviceId.vendor a = DeviceId.vendor b /\ DeviceId.product b <= DeviceId.product a).
Proof.
  rewrite <- not_true_iff_false, lt_spec. lia.
Qed.

Lemma equiv_spec a b : DeviceId.equiv a b = true <-> key a = key b.
Proof.
  unfold DeviceId.equiv, key.
  rewrite andb_true_iff, !negb_true_iff, !lt_false_spec.
  split.
  - intros [H1 H2]. f_equal; lia.
  - intros E. injection E as Ev Ep. lia.
Qed.

Lemma precedes_trans a b c : precedes a b -> precedes b c -> precedes a c.
Proof. unfold precedes. rewrite !lt_spec. lia. Qed.

Lemma precedes_key a b : precedes a b -> key a <> key b.
Proof.
  unfold precedes, key. rewrite lt_spec. intros H E. injection E as Ev Ep. lia.
Qed.

(** Insertion keeps the set in strictly increasing order. *)
Lemma set_insert_sorted x s :
  StronglySorted precedes s -> StronglySorted precedes (set_insert x s).
Proof.
  induction s as [|y s IH]; intros Hs; cbn.
  - repeat constructor.
  - inversion Hs as [|? ? Hs' Hy]; subst.
    destruct (DeviceId.lt x y) eqn:Exy.
    + constructor; [exact Hs|].
      constructor; [exact Exy|].
      eapply Forall_impl; [|exact Hy].
      intros z Hz. eapply precedes_trans; [exact Exy|exact Hz].
    + destruct (DeviceId.lt y x) eqn:Eyx; [|exact Hs].
      constructor; [apply IH; exact Hs'|].
      clear IH Hs Hs'. induction s as [|z s IHs]; cbn.
      * repeat constructor. exact Eyx.
      * inversion Hy; subst.
        destruct (DeviceId.lt x z); [|destruct (DeviceId.lt z x)];
          repeat constructor; auto.
Qed.

Lemma set_insert_all_sorted (table : list DeviceId.t) s :
  StronglySorted precedes s ->
  StronglySorted precedes
    (supportedDevices
       (fold_left (fun d x => insert_device x d) table (mkDatabase s []))).
Proof.
  assert (G : forall table db, StronglySorted precedes (supportedDevices db) ->
    StronglySorted precedes
      (supportedDevices (fold_left (fun d x => insert_device x d) table db))).
  { clear. induction table as [|x table IH]; intros db Hs; cbn; [exact Hs|].
    apply IH. cbn. apply set_insert_sorted, Hs. }
  intros Hs. apply G. exact Hs.
Qed.

Lemma sorted_NoDup_keys s : StronglySorted precedes s -> NoDup (map key s).
Proof.
  induction 1 as [|x s Hs IH Hx]; cbn; constructor; [|exact IH].
  rewrite in_map_iff. intros (y & Ey & Hy).
  rewrite Forall_forall in Hx. apply (precedes_key x y (Hx y Hy)). congruence.
Qed.

(** [find] of the set answers by key, whatever the set holds. *)
Lemma set_find_spec x s :
  (exists y, set_find x s = Some y) <-> In (key x) (map key s).
Proof.
  unfold set_find. induction s as [|y s IH]; cbn.
  - split; [intros [? ?]; discriminate | tauto].
  - destruct (DeviceId.equiv x y) eqn:E.
    + apply equiv_spec in E. split; [auto | eauto].
    + split.
      * intros H. right. apply IH, H.
      * intros [H|H]; [|apply IH, H].
        symmetry in H. apply equiv_spec in H. congruence.
Qed.

Lemma is_supported_spec db device_info :
  is_supported db device_info = true <->
  In (masked_vendor device_info, masked_product device_info)
     (map key (supportedDevices db)).
Proof.
  unfold is_supported.
  change (masked_vendor device_info, masked_product device_info)
    with (key (DeviceId_ (masked_vendor device_info) (masked_product device_info) "")).
  rewrite <- set_find_spec.
  destruct (set_find _ _); split; eauto; try discriminate.
  intros [? ?]; discriminate.
Qed.

Lemma mask_range z : 0 <= Z.land z 0xFFFF <= 0xFFFF.
Proof.
  change (Z.land z 0xFFFF) with (Z.land z (Z.ones 16)).
  rewrite Z.land_ones by lia.
  change (2 ^ 16) with 65536.
  pose proof (Z.mod_pos_bound z 65536). lia.
Qed.

(** C9.  The identity of a device is its raw vendor and product fields
    masked with 0xFFFF (so both lie in 0..65535 whatever the driver
    reports); the registry built at startup holds the seven records of the
    source, none dropped, with no key twice; [is_supported] answers true
    exactly when the masked (vendor, product) pair is the key of a record;
    and it depends on nothing but that pair. *)
Theorem registry_lookup_is_exact_and_pure :
  (forall device_info,
      masked_vendor device_info = Z.land (hiddev_devinfo.vendor device_info) 0xFFFF
      /\ masked_product device_info = Z.land (hiddev_devinfo.product device_info) 0xFFFF
      /\ 0 <= masked_vendor device_info <= 0xFFFF
      /\ 0 <= masked_product device_info <= 0xFFFF)
  /\ NoDup (map key (supportedDevices registry))
  /\ List.length (supportedDevices registry) = List.length device_table
  /\ (forall d, In d (supportedDevices registry) <-> In d device_table)
  /\ (forall device_info,
        is_supported registry device_info = true <->
        exists d, In d (supportedDevices registry)
                  /\ DeviceId.vendor d = masked_vendor device_info
                  /\ DeviceId.product d = masked_product device_info)
  /\ (forall a b,
        masked_vendor a = masked_vendor b ->
        masked_product a = masked_product b ->
        is_supported registry a = is_supported registry b).
Proof.
  split; [|split; [|split; [|split; [|split]]]].
  - intros device_info. unfold masked_vendor, masked_product.
    repeat split; apply mask_range.
  - apply sorted_NoDup_keys.
    apply (set_insert_all_sorted device_table []). constructor.
  - reflexivity.
  - intros d. vm_compute. tauto.
  - intros device_info. rewrite is_supported_spec, in_map_iff.
    split.
    + intros (d & E & Hd). exists d. injection E as Ev Ep. auto.
    + intros (d & Hd & Ev & Ep). exists d. unfold key. split; [congruence|exact Hd].
  - intros a b Ev Ep. unfold is_supported. rewrite Ev, Ep. reflexivity.
Qed.

(* ===================================================================== *)
(** ** The positional parameters *)

Lemma parse_params_step p rest s :
  parse_params (p :: rest) s =
  parse_params rest
    (if negb (Settings.mode s =? DETECT) && number (Some p)
     then if relative p then Settings.set_relative s (atoi p)
          else Settings.set_absolute s (atoi p)
     else Settings.push_back s p).
Proof.
  cbn. fold (relative p).
  destruct (negb (Settings.mode s =? DETECT) && number (Some p));
    [destruct (relative p)|]; reflexivity.
Qed.

Lemma parse_params_app a b s :
  parse_params (a ++ b) s = parse_params b (parse_params a s).
Proof.
  revert s. induction a as [|p a IH]; intros s; [reflexivity|].
  cbn [app]. rewrite !parse_params_step. apply IH.
Qed.

Lemma parse_params_not_detect params s :
  Settings.mode s <> DETECT -> Settings.mode (parse_params params s) <> DETECT.
Proof.
  revert s. induction params as [|p params IH]; intros s Hs; [exact Hs|].
  rewrite parse_params_step.
  destruct (negb (Settings.mode s =? DETECT) && number (Some p));
    [destruct (relative p)|]; apply IH; cbn; try exact Hs; discriminate.
Qed.

Lemma parse_params_files params s :
  Settings.mode s <> DETECT ->
  Settings.files (parse_params params s) =
  (Settings.files s ++ filter (fun p => negb (number (Some p))) params)%list.
Proof.
  revert s. induction params as [|p params IH]; intros s Hs.
  - symmetry. apply app_nil_r.
  - apply Z.eqb_neq in Hs as Hm. rewrite parse_params_step, Hm. cbn.
    destruct (number (Some p)); cbn.
    + destruct (relative p); rewrite IH; cbn; try reflexivity; discriminate.
    + rewrite IH by exact Hs. cbn. rewrite <- app_assoc. reflexivity.
Qed.

Lemma parse_params_plain params s :
  Forall (fun q => number (Some q) = false) params ->
  Settings.mode (parse_params params s) = Settings.mode s
  /\ Settings.amount (parse_params params s) = Settings.amount s
  /\ Settings.brightness (parse_params params s) = Settings.brightness s.
Proof.
  intros Hp. revert s.
  induction Hp as [|p params Hq _ IH]; intros s; [cbn; auto|].
  rewrite parse_params_step, Hq, andb_false_r.
  destruct (IH (Settings.push_back s p)) as (Em & Ea & Eb).
  rewrite Em, Ea, Eb. cbn. auto.
Qed.

(** C10.  Outside detection, the loop over the positional parameters keeps
    as device paths exactly the parameters that [number] rejects, in order:
    a parameter whose first character is a digit, '+' or '-' is never a
    device path.  [number] looks at the first character only, so "-x" is
    taken for a relative change, of [atoi "-x" = 0].  When several such
    parameters are given, the last one decides: a signed one sets the mode
    to SETREL and [amount] to its value, an unsigned one sets the mode to
    SET and [brightness] to its value. *)
Theorem specifiers_are_consumed_and_the_last_decides :
  forall (params : list string) (s : Settings.t),
    Settings.mode s <> DETECT ->
    let s' := parse_params params s in
    Settings.files s' =
      (Settings.files s ++ filter (fun p => negb (number (Some p))) params)%list
    /\ (forall p, In p params -> number (Some p) = true ->
                  ~ In p (filter (fun p => negb (number (Some p))) params))
    /\ (forall c r,
          number (Some (String c r)) = true <->
          (isdigit c = true \/ c = "+"%char \/ c = "-"%char))
    /\ (number (Some "-x") = true
        /\ Settings.mode (parse_params ["-x"] s) = SETREL
        /\ Settings.amount (parse_params ["-x"] s) = 0
        /\ Settings.files (parse_params ["-x"] s) = Settings.files s)
    /\ (forall pre p post,
          params = (pre ++ p :: post)%list ->
          number (Some p) = true ->
          Forall (fun q => number (Some q) = false) post ->
          if relative p
          then Settings.mode s' = SETREL /\ Settings.amount s' = atoi p
          else Settings.mode s' = SET /\ Settings.brightness s' = atoi p).
Proof.
  intros params s Hs s'. apply Z.eqb_neq in Hs as Hm.
  split; [|split; [|split; [|split]]].
  - apply parse_params_files, Hs.
  - intros p _ Hp Hin. apply filter_In in Hin as [_ Hn].
    rewrite Hp in Hn. discriminate.
  - intros c r. unfold number, isdigit.
    rewrite !orb_true_iff, !Ascii.eqb_eq.
    change (char_code "0") with 48. change (char_code "9") with 57. tauto.
  - rewrite parse_params_step, Hm. cbn. auto.
  - intros pre p post -> Hp Hpost. subst s'.
    rewrite parse_params_app, parse_params_step.
    pose proof (parse_params_not_detect pre s Hs) as Hpre.
    apply Z.eqb_neq in Hpre. rewrite Hpre, Hp. cbn [negb andb].
    destruct (relative p);
      match goal with
      | |- context [parse_params post ?t] =>
          destruct (parse_params_plain post t Hpost) as (Em & Ea & Eb)
      end; rewrite ?Em, ?Ea, ?Eb; cbn; auto.
Qed.

(** The theorem at [acdcontrol /dev/hiddev0 100 -- -x]. *)
Lemma specifiers_are_consumed_and_the_last_decides_witness :
  Settings.files (parse_params ["/dev/hiddev0"; "100"; "-x"] Settings.initial)
    = ["/dev/hiddev0"]
  /\ Settings.mode (parse_params ["/dev/hiddev0"; "100"; "-x"] Settings.initial)
    = SETREL
  /\ Settings.amount (parse_params ["/dev/hiddev0"; "100"; "-x"] Settings.initial)
    = 0.
Proof.
  assert (Hs : Settings.mode Settings.initial <> DETECT) by (vm_compute; discriminate).
  destruct (specifiers_are_consumed_and_the_last_decides
              ["/dev/hiddev0"; "100"; "-x"] Settings.initial Hs)
    as (Hfiles & _ & _ & _ & Hlast).
  split; [exact Hfiles|].
  exact (Hlast ["/dev/hiddev0"; "100"] "-x" [] eq_refl eq_refl (Forall_nil _)).
Defined.

(* ===================================================================== *)
(** ** Monitor classification *)

Section Monitor.
Context {K : Type} `{Hiddev K}.

Lemma application_replies_length n appl_num fd k :
  List.length (application_replies n appl_num fd k) = n.
Proof.
  revert appl_num k. induction n as [|n IH]; intros appl_num k; cbn; [reflexivity|].
  destruct (sys_HIDIOCAPPLICATION fd appl_num k). cbn. rewrite IH. reflexivity.
Qed.

(** The loop never exits the process, makes only application queries, writes
    nothing, and answers whether some reply is on the monitor page. *)
Lemma is_usb_monitor_from_run n appl_num fd (w : World K) :
  exists k' new,
    is_usb_monitor_from n appl_num fd w =
      (Normal (existsb on_monitor_page (application_replies n appl_num fd (kernel w))),
       mkWorld k' (new ++ calls w) (output w))
    /\ Forall is_application_call new.
Proof.
  revert appl_num w. induction n as [|n IH]; intros appl_num w.
  - exists (kernel w), []. destruct w; cbn. auto.
  - cbn [is_usb_monitor_from application_replies].
    unfold bind, ioctl_HIDIOCAPPLICATION.
    destruct (sys_HIDIOCAPPLICATION fd appl_num (kernel w)) as [r k1].
    cbn [existsb]. unfold on_monitor_page at 1.
    destruct (Z.land (Z.shiftr r 16) 255 =? 128); cbn [orb].
    + exists k1, [call_HIDIOCAPPLICATION fd appl_num r]. split; [reflexivity|].
      repeat constructor.
    + destruct (IH (to_int (appl_num + 1))
                  (record (call_HIDIOCAPPLICATION fd appl_num r) k1 w))
        as (k' & new & E & Hnew).
      rewrite E. cbn [record kernel calls output].
      exists k', (new ++ [call_HIDIOCAPPLICATION fd appl_num r])%list.
      rewrite <- app_assoc. split; [reflexivity|].
      apply Forall_app. split; [exact Hnew|repeat constructor].
Qed.

(** C6.  [is_usb_monitor] always returns (it never ends the process), and
    it returns true if and only if, for some index [i] below
    [num_applications], the driver's reply to the query for application [i]
    has 0x80 in bits 16 to 23.  A query that fails returns -1, which has
    0xFF there, so that index does not match and the scan goes on. *)
Theorem monitor_classification :
  forall (device_info : hiddev_devinfo.t) (fd : Z) (w : World K),
    let n := hiddev_devinfo.num_applications device_info in
    let replies := application_replies (Z.to_nat n) 0 fd (kernel w) in
    (exists b,
        fst (is_usb_monitor device_info fd w) = Normal b
        /\ (b = true <->
            exists i application,
              0 <= Z.of_nat i < n
              /\ nth_error replies i = Some application
              /\ Z.land (Z.shiftr application 16) 0xFF = 0x80))
    /\ on_monitor_page (-1) = false.
Proof.
  intros device_info fd w n replies. split; [|reflexivity].
  destruct (is_usb_monitor_from_run (Z.to_nat n) 0 fd w) as (k' & new & E & _).
  unfold is_usb_monitor. fold n. rewrite E. cbn. fold replies.
  exists (existsb on_monitor_page replies). split; [reflexivity|].
  rewrite existsb_exists. split.
  - intros (application & Hin & Hm).
    apply In_nth_error in Hin as [i Hi]. exists i, application.
    assert (Hlen : (i < List.length replies)%nat)
      by (apply nth_error_Some; congruence).
    unfold replies in Hlen. rewrite application_replies_length in Hlen.
    apply Z.eqb_eq in Hm. repeat split; auto; lia.
  - intros (i & application & _ & Hi & Hm). exists application.
    split; [eapply nth_error_In; exact Hi|].
    unfold on_monitor_page. apply Z.eqb_eq, Hm.
Qed.

End Monitor.

(* ===================================================================== *)
(** ** How a run ends *)

Lemma application_calls_harmless db s new :
  Forall is_application_call new -> Forall (harmless db s) new.
Proof.
  apply Forall_impl. intros [] Hc; try contradiction. reflexivity.
Qed.

Ltac compute_fatal :=
  unfold harmless, fatal;
  cbn [init_failed usage_failed report_failed refused_unsupported];
  use_eqns; cbn [negb andb orb]; try reflexivity.

Ltac calls_harmless :=
  repeat first
    [ assumption
    | apply Forall_nil
    | apply Forall_cons
    | apply Forall_app; split
    | apply application_calls_harmless; assumption
    | progress compute_fatal ].

Section Runs.
Context {K : Type} `{Hiddev K}.

(** One run of a step of the program from the world [w]. *)
Ltac run_step :=
  lazymatch goal with
  | |- match ?t with _ => _ end =>
      let x := scrutinee t in
      lazymatch x with
      | is_usb_monitor_from ?n ?i ?fd ?w =>
          let k := fresh "k" in
          let new := fresh "new" in
          let E := fresh "E" in
          let Hnew := fresh "Hnew" in
          destruct (is_usb_monitor_from_run n i fd w) as (k & new & E & Hnew);
          rewrite E; clear E;
          generalize (existsb on_monitor_page
                        (application_replies n i fd (kernel w)));
          intros
      | _ => destruct x eqn:?
      end; reduce
  end.

(** The loop over the files keeps what every round keeps. *)
Lemma device_loop_invariant db s open_mode
    (I : Loop.t -> World K -> Prop) (E : Z -> World K -> Prop) :
  (forall it l w, I l w ->
     match process_device db s open_mode it l w with
     | (Normal l', w') => I l' w'
     | (Exit code, w') => E code w'
     end) ->
  forall files l w, I l w ->
    match device_loop db s open_mode files l w with
    | (Normal l', w') => I l' w'
    | (Exit code, w') => E code w'
    end.
Proof.
  intros Hstep files. induction files as [|it rest IH]; intros l w Hw; cbn.
  - exact Hw.
  - unfold bind. specialize (Hstep it l w Hw).
    destruct (process_device db s open_mode it l w) as [[l'|code] w'].
    + apply IH, Hstep.
    + exact Hstep.
Qed.

(** A round of the loop makes at least one call.  It goes on to the next
    file having made harmless calls only, and it ends the process right
    after a call that is fatal, with that call's exit code. *)
Lemma process_device_ends db s open_mode it l (w : World K) :
  Forall (harmless db s) (calls w) ->
  match process_device db s open_mode it l w with
  | (Normal _, w') => Forall (harmless db s) (calls w') /\ calls w' <> []
  | (Exit code, w') =>
      exists c rest, calls w' = c :: rest /\ fatal db s c = Some code
                     /\ Forall (harmless db s) rest
  end.
Proof.
  intros Hw. reduce. repeat run_step.
  all: try (split; [calls_harmless | try discriminate;
                                     destruct new; discriminate]).
  all: eexists; eexists; split; [reflexivity | split; [compute_fatal | calls_harmless]].
Qed.

Lemma device_loop_ends db s open_mode files l (w : World K) :
  Forall (harmless db s) (calls w) ->
  match device_loop db s open_mode files l w with
  | (Normal _, w') =>
      Forall (harmless db s) (calls w') /\ (files <> [] -> calls w' <> [])
  | (Exit code, w') =>
      exists c rest, calls w' = c :: rest /\ fatal db s c = Some code
                     /\ Forall (harmless db s) rest
  end.
Proof.
  intros Hw. destruct files as [|it rest].
  - cbn. split; [exact Hw | congruence].
  - cbn [device_loop]. unfold bind.
    pose proof (process_device_ends db s open_mode it l w Hw) as Hstep.
    destruct (process_device db s open_mode it l w) as [[l'|code] w']; [|exact Hstep].
    pose proof (device_loop_invariant db s open_mode
                  (fun _ w => Forall (harmless db s) (calls w) /\ calls w <> [])
                  (fun code w =>
                     exists c rest, calls w = c :: rest /\ fatal db s c = Some code
                                    /\ Forall (harmless db s) rest)) as Hloop.
    specialize (Hloop (fun it l w Hw => process_device_ends db s open_mode it l w (proj1 Hw))
                  rest l' w' Hstep).
    destruct (device_loop db s open_mode rest l' w') as [[l''|code] w''].
    + destruct Hloop as [Ha Hb]. auto.
    + exact Hloop.
Qed.

(** With files to go through, the part of [main] after the arguments is
    the notice and the loop. *)
Lemma session_run db s version device_info (w : World K) :
  Settings.files s <> [] ->
  session db s version device_info w =
  match device_loop db s (open_mode_of (Settings.mode s)) (Settings.files s)
          (Loop.mk version device_info (Settings.brightness s) true)
          (mkWorld (kernel w) (calls w)
             (if Settings.silent s then output w else out_notice :: output w))
  with
  | (Normal _, w') => (Normal tt, w')
  | (Exit code, w') => (Exit code, w')
  end.
Proof.
  intros Hne. unfold session.
  destruct (Settings.files s) as [|it rest] eqn:Ef; [congruence|].
  unfold bind, when, print, ret.
  destruct (Settings.silent s); destruct w; reflexivity.
Qed.

(** The part of [main] after the arguments, from the start of the process:
    without files it exits with 1 before any call; otherwise the calls
    before the last were harmless, and the last call decides how it ends. *)
Lemma session_ends db s version device_info (k : K) :
  let r := fst (session db s version device_info (start k)) in
  let w := snd (session db s version device_info (start k)) in
  match Settings.files s with
  | [] => r = Exit 1 /\ calls w = []
  | _ :: _ =>
      exists c rest,
        calls w = c :: rest
        /\ Forall (harmless db s) rest
        /\ r = match fatal db s c with
               | Some code => Exit code
               | None => Normal tt
               end
  end.
Proof.
  intros r w. subst r w.
  destruct (Settings.files s) as [|it rest] eqn:Ef.
  - unfold session. rewrite Ef. cbn. auto.
  - assert (Hne : Settings.files s <> []) by congruence.
    rewrite session_run by exact Hne.
    match goal with
    | |- context [device_loop ?a ?b ?c ?d ?e ?f] =>
        pose proof (device_loop_ends a b c d e f (Forall_nil _)) as Hloop;
        destruct (device_loop a b c d e f) as [[l'|code] w']
    end; cbn [fst snd].
    + destruct Hloop as [Hall Hnonempty].
      destruct (calls w') as [|c rest'] eqn:Ec; [elim (Hnonempty Hne); reflexivity|].
      exists c, rest'. inversion Hall as [|? ? Hc Hrest]; subst.
      unfold harmless in Hc. rewrite Hc. auto.
    + destruct Hloop as (c & rest' & Ec & Hc & Hrest).
      exists c, rest'. rewrite Hc. auto.
Qed.

(** Options that do not end the run only set flags. *)
Lemma parse_options_run db getopt s (w : World K) :
  Forall (fun c => ends_run c = false) getopt ->
  parse_options db getopt s w = (Normal (fold_left apply_option getopt s), w).
Proof.
  intros Hg. revert s. induction Hg as [|c getopt Hc _ IH]; intros s; cbn.
  - reflexivity.
  - unfold ends_run in Hc. apply negb_false_iff in Hc.
    unfold apply_option.
    destruct (Ascii.eqb_spec c "a") as [->|_]; [discriminate|].
    destruct (Ascii.eqb c "b"); [apply IH|].
    destruct (Ascii.eqb_spec c "h") as [->|_]; [discriminate|].
    destruct (Ascii.eqb c "s"); [apply IH|].
    destruct (Ascii.eqb c "f"); [apply IH|].
    destruct (Ascii.eqb c "d"); [apply IH|].
    discriminate.
Qed.

Lemma main_run getopt params version device_info (w : World K) :
  Forall (fun c => ends_run c = false) getopt ->
  main getopt params version device_info w =
  session registry (parse_params params (fold_left apply_option getopt Settings.initial))
    version device_info w.
Proof.
  intros Hg. unfold main, bind. rewrite parse_options_run by exact Hg.
  reflexivity.
Qed.

Lemma fatal_cases db s c :
  (fatal db s c = None <->
     init_failed c = false /\ usage_failed c = false
     /\ refused_unsupported db s c = false /\ report_failed c = false)
  /\ (fatal db s c = Some 1 <-> init_failed c = true)
  /\ (fatal db s c = Some 2 <->
        usage_failed c = true \/ refused_unsupported db s c = true)
  /\ (fatal db s c = Some 3 <-> report_failed c = true)
  /\ (forall code, fatal db s c = Some code -> 1 <= code <= 3).
Proof.
  unfold fatal.
  destruct c; cbn [init_failed usage_failed report_failed refused_unsupported orb];
    rewrite ?orb_false_r;
    repeat match goal with
           | |- context [if ?b then _ else _] => destruct b
           end;
    cbn [orb];
    (repeat split; intros; try discriminate; try reflexivity; try tauto;
     try match goal with
         | E : Some _ = Some _ |- _ => injection E as <-; lia
         | E : _ \/ _ |- _ => destruct E; discriminate
         | E : _ /\ _ |- _ => destruct E as (? & ? & ? & ?); discriminate
         end).
Qed.

(** C3.  When no option ends the run, the exit status of the process is:
    1 when no device path is given (and then no call is made); otherwise
    it is decided by the last call the process made: 1 when that is a
    failed init-report, 2 when it is a failed get-usage or set-usage, or
    the device information of a device that is not in the registry while
    the force option is off (outside detection), 3 when it is a failed
    get-report or set-report, and 0, with [main] running to its end, in
    every other case, whatever happened at the devices before. *)
Theorem exit_code_scheme :
  forall (getopt : list ascii) (params : list string) (version : Z)
         (device_info : hiddev_devinfo.t) (k : K),
    Forall (fun c => ends_run c = false) getopt ->
    let s := parse_params params (fold_left apply_option getopt Settings.initial) in
    let r := fst (main getopt params version device_info (start k)) in
    let w := snd (main getopt params version device_info (start k)) in
    (Settings.files s = [] -> exit_status r = 1 /\ calls w = [])
    /\ (Settings.files s <> [] ->
        exists c rest,
          calls w = c :: rest
          /\ Forall (harmless registry s) rest
          /\ (exit_status r = 0 <-> r = Normal tt)
          /\ (exit_status r = 0 <->
                init_failed c = false /\ usage_failed c = false
                /\ refused_unsupported registry s c = false
                /\ report_failed c = false)
          /\ (exit_status r = 1 <-> init_failed c = true)
          /\ (exit_status r = 2 <->
                usage_failed c = true \/ refused_unsupported registry s c = true)
          /\ (exit_status r = 3 <-> report_failed c = true)).
Proof.
  intros getopt params version device_info k Hg s r w. subst r w.
  rewrite main_run by exact Hg. fold s.
  pose proof (session_ends registry s version device_info k) as Hend.
  cbv zeta in Hend.
  destruct (Settings.files s) as [|it files].
  - destruct Hend as [Er Ec]. rewrite Er. split; [auto|congruence].
  - split; [discriminate|]. intros _.
    destruct Hend as (c & rest & Ec & Hrest & Er).
    exists c, rest. rewrite Er.
    destruct (fatal_cases registry s c) as (H0 & H1 & H2 & H3 & Hrange).
    split; [exact Ec|]. split; [exact Hrest|].
    destruct (fatal registry s c) as [code|]; cbn [exit_status].
    + specialize (Hrange code eq_refl).
      split; [split; [lia|discriminate]|].
      split; [split; [lia|intros Hx; apply H0 in Hx; discriminate]|].
      repeat split;
        try (intros ->; first [apply H1|apply H2|apply H3]; reflexivity);
        intros Hx;
        first [apply H1 in Hx|apply H2 in Hx|apply H3 in Hx];
        injection Hx; auto.
    + split; [split; reflexivity|].
      split; [split; [intros _; apply H0|]; reflexivity|].
      repeat split; try discriminate;
        intros Hx;
        first [apply H1 in Hx|apply H2 in Hx|apply H3 in Hx];
        discriminate.
Qed.

(* --------------------------------------------------------------------- *)
(** *** One round of the loop, by the driver's answers *)

(** A round whose [open] fails prints the error and leaves the locals. *)
Lemma process_device_open_failed db s open_mode it l (w : World K) fd k1 :
  sys_open it open_mode (kernel w) = (fd, k1) ->
  fd < 0 ->
  process_device db s open_mode it l w =
  (Normal l, mkWorld k1 (call_open it open_mode fd :: calls w)
               (out_perror it :: output w)).
Proof.
  intros Eo Hfd. apply Z.ltb_lt in Hfd.
  unfold process_device, bind, open. rewrite Eo, Hfd. reflexivity.
Qed.

(** A round whose [open] succeeds reads the driver version and the device
    information, prints the version line when it is the turn of it, and
    then goes one of two ways. *)
Lemma process_device_probed db s open_mode it l (w : World K)
    fd version device_info k3 :
  probe open_mode it l (kernel w) = (fd, version, device_info, k3) ->
  0 <= fd ->
  process_device db s open_mode it l w =
  (if Settings.mode s =? DETECT
   then (monitor <- is_usb_monitor device_info fd ;;
         when monitor
           (print (out_usb_monitor it (is_supported db device_info)
                     (format_device db device_info))) ;;
         ret (probed_locals l version device_info))%prog
   else control db s it fd (probed_locals l version device_info))
    (probed s open_mode it l w fd version device_info k3).
Proof.
  unfold probe. intros Ep Hfd. apply Z.ltb_ge in Hfd.
  destruct (sys_open it open_mode (kernel w)) as [fd' k1] eqn:Eo.
  destruct (sys_HIDIOCGVERSION fd' (Loop.version l) k1) as [version' k2] eqn:Ev.
  destruct (sys_HIDIOCGDEVINFO fd' (Loop.device_info l) k2) as [device_info' k3'] eqn:Ei.
  injection Ep as -> -> -> ->.
  unfold process_device, probed, probed_locals.
  unfold bind at 1. unfold open. rewrite Eo, Hfd.
  unfold bind at 1. unfold ioctl_HIDIOCGVERSION. cbn [kernel record]. rewrite Ev.
  unfold bind at 1. unfold when, print, ret.
  destruct (negb (Settings.silent s) && Loop.first_device l);
    unfold bind at 1; unfold ioctl_HIDIOCGDEVINFO; cbn [kernel record calls output];
    rewrite Ei; reflexivity.
Qed.

(** The monitor check, by the driver's answers. *)
Lemma is_usb_monitor_classified device_info fd (w : World K) :
  exists k' new,
    is_usb_monitor device_info fd w =
      (Normal (classified_monitor device_info fd (kernel w)),
       mkWorld k' (new ++ calls w) (output w))
    /\ Forall is_application_call new.
Proof. apply is_usb_monitor_from_run. Qed.

(** What the rest of a round adds, once the report structures are
    initialised: the exchange and the [close] only add calls and lines. *)
Lemma suffix_cons {A : Type} (c : A) (l t : list A) :
  (exists more, l = (more ++ t)%list) -> exists more, c :: l = (more ++ t)%list.
Proof. intros [more ->]. exists (c :: more). reflexivity. Qed.

Ltac find_suffix :=
  first [ exists []; reflexivity | apply suffix_cons; find_suffix ].

Lemma exchange_extends s it fd l (w : World K) :
  match (brightness <- transaction s it fd (Loop.brightness l) ;;
         close fd ;;
         ret (Loop.mk (Loop.version l) (Loop.device_info l) brightness false))%prog
          w with
  | (_, w') =>
      (exists more, calls w' = (more ++ calls w)%list)
      /\ (exists lines, output w' = (lines ++ output w)%list)
  end.
Proof. reduce. repeat run_step. all: split; find_suffix. Qed.

(** C5.  Outside detection, when the device information read from an open
    device names a device that is not in the registry and the force option
    is not given, the round prints the warning and ends the process with
    exit code 2, the three calls that opened and identified the device
    being the only calls of the round (so no call of the brightness
    exchange, not even the monitor check), and the loop over the files ends
    there, whatever files remain.  With the force option the round prints
    the warning and then does what it does, without the warning, for a
    device in the registry: it makes the monitor check, that is, the
    application queries of [is_usb_monitor], which are the next calls of
    the round and decide how it goes on.  When no application is on the
    monitor page the round prints that the device is no USB monitor and the
    loop goes on with the files that remain; when one is, the very next
    call initialises the report structures, the process exits with code 1
    if that fails, and whatever else the round calls or prints comes after
    it. *)
Theorem unsupported_device_policy :
  forall (db : Database) (s : Settings.t) (open_mode : OpenMode)
         (it : string) (rest : list string) (l : Loop.t) (w : World K)
         (fd version : Z) (device_info : hiddev_devinfo.t) (k3 : K),
    probe open_mode it l (kernel w) = (fd, version, device_info, k3) ->
    0 <= fd ->
    Settings.mode s <> DETECT ->
    let w3 := probed s open_mode it l w fd version device_info k3 in
    let l3 := probed_locals l version device_info in
    let warned := printing (out_unsupported (format_device db device_info)) w3 in
    (is_supported db device_info = false -> Settings.force s = false ->
       process_device db s open_mode it l w = (Exit 2, warned)
       /\ device_loop db s open_mode (it :: rest) l w = (Exit 2, warned)
       /\ calls warned =
            call_HIDIOCGDEVINFO fd device_info
            :: call_HIDIOCGVERSION fd version
            :: call_open it open_mode fd :: calls w
       /\ ~ engine_call (call_HIDIOCGDEVINFO fd device_info)
       /\ ~ engine_call (call_HIDIOCGVERSION fd version)
       /\ ~ engine_call (call_open it open_mode fd))
    /\ (is_supported db device_info = true \/ Settings.force s = true ->
        let w0 := if is_supported db device_info then w3 else warned in
        let monitor := classified_monitor device_info fd k3 in
        let w4 := snd (is_usb_monitor device_info fd w0) in
        let r := fst (sys_HIDIOCINITREPORT fd (kernel w4)) in
        fst (is_usb_monitor device_info fd w0) = Normal monitor
        /\ (exists new,
              calls w4 = (new ++ calls w0)%list
              /\ Forall is_application_call new)
        /\ output w4 = output w0
        /\ (monitor = false ->
              process_device db s open_mode it l w =
                (Normal l3, printing (out_not_usb_monitor it) w4)
              /\ device_loop db s open_mode (it :: rest) l w =
                 device_loop db s open_mode rest l3
                   (printing (out_not_usb_monitor it) w4))
        /\ (monitor = true ->
              (exists more,
                 calls (snd (process_device db s open_mode it l w)) =
                   (more ++ call_HIDIOCINITREPORT fd r :: calls w4)%list)
              /\ (exists lines,
                    output (snd (process_device db s open_mode it l w)) =
                      (lines ++ output w0)%list)
              /\ (r < 0 ->
                    process_device db s open_mode it l w =
                      (Exit 1,
                       mkWorld (snd (sys_HIDIOCINITREPORT fd (kernel w4)))
                         (call_HIDIOCINITREPORT fd r :: calls w4)
                         (out_fatal :: output w0))))).
Proof.
  intros db s open_mode it rest l w fd version device_info k3 Ep Hfd Hmode
         w3 l3 warned.
  apply Z.eqb_neq in Hmode.
  pose proof (process_device_probed db s open_mode it l w fd version
                device_info k3 Ep Hfd) as Eround.
  rewrite Hmode in Eround. fold w3 l3 in Eround.
  unfold control, registry_check in Eround. cbn [Loop.device_info l3] in Eround.
  change (Loop.device_info l3) with device_info in Eround.
  split.
  - intros Hs Hf.
    assert (E : process_device db s open_mode it l w = (Exit 2, warned)).
    { rewrite Eround. unfold bind. rewrite Hs, Hf. reflexivity. }
    split; [exact E|].
    split; [cbn [device_loop]; unfold bind at 1; rewrite E; reflexivity|].
    split; [reflexivity|]. cbn. tauto.
  - intros Hs w0 monitor w4 r.
    assert (Estage : process_device db s open_mode it l w =
                     monitor_stage s it fd l3 w0).
    { subst w0. destruct (is_supported db device_info) eqn:Es.
      - rewrite Eround. unfold bind at 1. reflexivity.
      - destruct Hs as [Hs|Hf]; [discriminate|].
        rewrite Eround. unfold bind at 1. cbn [negb].
        unfold bind at 1. unfold print. rewrite Hf. reflexivity. }
    assert (Ek : kernel w0 = k3)
      by (subst w0; destruct (is_supported db device_info); reflexivity).
    destruct (is_usb_monitor_classified device_info fd w0)
      as (k4 & new & Em & Hnew).
    rewrite Ek in Em. fold monitor in Em.
    set (w4' := mkWorld k4 (new ++ calls w0) (output w0)) in *.
    assert (Eproc : process_device db s open_mode it l w =
                    (if negb monitor
                     then (print (out_not_usb_monitor it) ;; ret l3)%prog
                     else (r <- ioctl_HIDIOCINITREPORT fd ;;
                           if r <? 0 then print out_fatal ;; exit 1 else
                           brightness <- transaction s it fd (Loop.brightness l3) ;;
                           close fd ;;
                           ret (Loop.mk (Loop.version l3) (Loop.device_info l3)
                                  brightness false))%prog) w4').
    { rewrite Estage. unfold monitor_stage.
      change (Loop.device_info l3) with device_info at 1.
      unfold bind at 1. rewrite Em. reflexivity. }
    assert (E4 : w4 = w4') by (subst w4; rewrite Em; reflexivity).
    subst r. clearbody w4. subst w4. clear Estage Eround.
    split; [rewrite Em; reflexivity|].
    split; [exists new; split; [reflexivity|exact Hnew]|].
    split; [reflexivity|].
    split.
    + intros Hm. rewrite Hm in Eproc. cbn [negb] in Eproc.
      assert (E : process_device db s open_mode it l w =
                  (Normal l3, printing (out_not_usb_monitor it) w4'))
        by (rewrite Eproc; reflexivity).
      split; [exact E|].
      cbn [device_loop]. unfold bind at 1. rewrite E. reflexivity.
    + intros Hm. rewrite Hm in Eproc. cbn [negb] in Eproc.
      unfold bind at 1 in Eproc. unfold ioctl_HIDIOCINITREPORT in Eproc.
      subst w4'. cbn [kernel calls output] in Eproc |- *.
      destruct (sys_HIDIOCINITREPORT fd k4) as [r k5].
      unfold record in Eproc.
      cbn [fst snd kernel calls output] in Eproc |- *.
      destruct (r <? 0) eqn:Er.
      * assert (E : process_device db s open_mode it l w =
                    (Exit 1,
                     mkWorld k5 (call_HIDIOCINITREPORT fd r :: new ++ calls w0)
                       (out_fatal :: output w0)))
          by (rewrite Eproc; reflexivity).
        rewrite E. cbn [snd calls output].
        split; [exists []; reflexivity|].
        split; [exists [out_fatal]; reflexivity|].
        intros _. reflexivity.
      * pose proof (exchange_extends s it fd l3
                      (mkWorld k5 (call_HIDIOCINITREPORT fd r :: new ++ calls w0)
                         (output w0))) as Hx.
        rewrite <- Eproc in Hx.
        destruct (process_device db s open_mode it l w) as [res w'].
        cbn [snd calls output] in Hx |- *.
        destruct Hx as [Hcalls Hlines].
        split; [exact Hcalls|]. split; [exact Hlines|].
        apply Z.ltb_ge in Er. intros Hr. lia.
Qed.

(** C8.  A file that cannot be opened costs one error line: the round ends
    there and the loop goes on with the files that remain.  Outside
    detection, so does a device (in the registry, or forced) none of whose
    applications is on the monitor page: the round prints that the device
    is no USB monitor, makes no call besides the application queries, and
    the loop goes on.  But a get-usage, set-usage, get-report or set-report
    that fails is the last call of the whole process, which exits with code
    2 (usage) or 3 (report): no later file is touched. *)
Theorem recoverable_and_fatal_failures :
  (forall (db : Database) (s : Settings.t) (open_mode : OpenMode)
          (it : string) (rest : list string) (l : Loop.t) (w : World K)
          (fd : Z) (k1 : K),
      sys_open it open_mode (kernel w) = (fd, k1) ->
      fd < 0 ->
      let w' := mkWorld k1 (call_open it open_mode fd :: calls w)
                  (out_perror it :: output w) in
      process_device db s open_mode it l w = (Normal l, w')
      /\ device_loop db s open_mode (it :: rest) l w =
         device_loop db s open_mode rest l w')
  /\ (forall (db : Database) (s : Settings.t) (open_mode : OpenMode)
             (it : string) (rest : list string) (l : Loop.t) (w : World K)
             (fd version : Z) (device_info : hiddev_devinfo.t) (k3 : K),
        probe open_mode it l (kernel w) = (fd, version, device_info, k3) ->
        0 <= fd ->
        Settings.mode s <> DETECT ->
        is_supported db device_info = true \/ Settings.force s = true ->
        classified_monitor device_info fd k3 = false ->
        let w3 := probed s open_mode it l w fd version device_info k3 in
        let l3 := probed_locals l version device_info in
        exists k' new,
          let w' :=
            mkWorld k' (new ++ calls w3)
              (out_not_usb_monitor it
               :: (if is_supported db device_info then output w3
                   else out_unsupported (format_device db device_info)
                        :: output w3)) in
          process_device db s open_mode it l w = (Normal l3, w')
          /\ Forall is_application_call new
          /\ device_loop db s open_mode (it :: rest) l w =
             device_loop db s open_mode rest l3 w')
  /\ (forall (db : Database) (s : Settings.t) (version : Z)
             (device_info : hiddev_devinfo.t) (k : K) (c : Call),
        let r := fst (session db s version device_info (start k)) in
        let w := snd (session db s version device_info (start k)) in
        In c (calls w) ->
        usage_failed c = true \/ report_failed c = true ->
        exists rest,
          calls w = c :: rest
          /\ Forall (harmless db s) rest
          /\ r = Exit (if usage_failed c then 2 else 3)).
Proof.
  split; [|split].
  - intros db s open_mode it rest l w fd k1 Eo Hfd w'.
    pose proof (process_device_open_failed db s open_mode it l w fd k1 Eo Hfd) as E.
    split; [exact E|]. cbn [device_loop]. unfold bind at 1. rewrite E. reflexivity.
  - intros db s open_mode it rest l w fd version device_info k3 Ep Hfd Hmode
           Hs Hc w3 l3.
    apply Z.eqb_neq in Hmode.
    pose proof (process_device_probed db s open_mode it l w fd version
                  device_info k3 Ep Hfd) as Eround.
    rewrite Hmode in Eround. fold w3 l3 in Eround.
    unfold control, registry_check in Eround.
    change (Loop.device_info l3) with device_info in Eround.
    assert (Ew : exists w4,
               kernel w4 = k3 /\ calls w4 = calls w3
               /\ output w4 = (if is_supported db device_info then output w3
                               else out_unsupported (format_device db device_info)
                                    :: output w3)
               /\ process_device db s open_mode it l w = monitor_stage s it fd l3 w4).
    { destruct (is_supported db device_info) eqn:Es.
      - exists w3. rewrite Eround. unfold bind at 1. cbn. auto.
      - destruct Hs as [Hs|Hf]; [discriminate|].
        exists (printing (out_unsupported (format_device db device_info)) w3).
        rewrite Eround. unfold bind at 1. cbn [negb].
        unfold bind at 1. unfold print. rewrite Hf. cbn. auto. }
    destruct Ew as (w4 & Ek & Ecalls & Eout & Estage).
    destruct (is_usb_monitor_classified device_info fd w4) as (k' & new & Em & Hnew).
    rewrite Ek, Hc in Em.
    exists k', new. cbv zeta.
    assert (E : process_device db s open_mode it l w =
                (Normal l3,
                 mkWorld k' (new ++ calls w3)
                   (out_not_usb_monitor it
                    :: (if is_supported db device_info then output w3
                        else out_unsupported (format_device db device_info)
                             :: output w3)))).
    { rewrite Estage. unfold monitor_stage. unfold bind at 1.
      change (Loop.device_info l3) with device_info.
      rewrite Em. cbn [negb]. unfold bind, print, ret. cbn [kernel calls output].
      rewrite Ecalls, Eout. reflexivity. }
    split; [exact E|]. split; [exact Hnew|].
    cbn [device_loop]. unfold bind at 1. rewrite E. reflexivity.
  - intros db s version device_info k c r w Hin Hfail.
    pose proof (session_ends db s version device_info k) as Hend.
    cbv zeta in Hend. fold r w in Hend.
    destruct (Settings.files s) as [|it files].
    + destruct Hend as [_ Ec]. rewrite Ec in Hin. contradiction.
    + destruct Hend as (c0 & rest & Ec & Hrest & Er).
      assert (Hfatal : fatal db s c = Some (if usage_failed c then 2 else 3)).
      { unfold fatal.
        destruct c; cbn [init_failed usage_failed report_failed orb] in *;
          destruct Hfail as [Hf|Hf]; try discriminate; rewrite Hf; reflexivity. }
      rewrite Ec in Hin. destruct Hin as [<-|Hin].
      * exists rest. rewrite Hfatal in Er. auto.
      * rewrite Forall_forall in Hrest. specialize (Hrest c Hin).
        unfold harmless in Hrest. congruence.
Qed.

(* --------------------------------------------------------------------- *)
(** *** Detection *)

Lemma opened_app a b : opened (a ++ b) = (opened a ++ opened b)%list.
Proof.
  induction a as [|c a IH]; cbn; [reflexivity|].
  destruct c; cbn; rewrite IH; reflexivity.
Qed.

Lemma opened_applications new :
  Forall is_application_call new -> opened new = [].
Proof.
  induction 1 as [|c new Hc _ IH]; cbn; [reflexivity|].
  destruct c; try contradiction. exact IH.
Qed.

Lemma opened_rev cs : opened (rev cs) = rev (opened cs).
Proof.
  induction cs as [|c cs IH]; cbn; [reflexivity|].
  rewrite opened_app, IH. destruct c; cbn; rewrite ?app_nil_r; reflexivity.
Qed.

Lemma application_calls_probe new :
  Forall is_application_call new -> Forall probe_call new.
Proof.
  apply Forall_impl. intros [] Hc; try contradiction. exact I.
Qed.

(** A round of detection never ends the process, makes probing calls only,
    and opens its file. *)
Lemma process_device_detect db s it l (w : World K) :
  Settings.mode s = DETECT ->
  Forall probe_call (calls w) ->
  match process_device db s O_RDONLY it l w with
  | (Normal _, w') =>
      Forall probe_call (calls w') /\ opened (calls w') = it :: opened (calls w)
  | (Exit _, _) => False
  end.
Proof.
  intros Hmode Hw. apply Z.eqb_eq in Hmode.
  reduce. rewrite Hmode. repeat run_step.
  all: split;
    [ repeat first [ assumption | apply Forall_cons | apply Forall_app; split
                   | apply application_calls_probe; assumption | exact I ]
    | rewrite ?opened_app; cbn [opened];
      rewrite ?(opened_applications new) by assumption; reflexivity ].
Qed.

Lemma device_loop_detect db s files l (w : World K) :
  Settings.mode s = DETECT ->
  Forall probe_call (calls w) ->
  match device_loop db s O_RDONLY files l w with
  | (Normal _, w') =>
      Forall probe_call (calls w')
      /\ opened (calls w') = (rev files ++ opened (calls w))%list
  | (Exit _, _) => False
  end.
Proof.
  intros Hmode. revert l w.
  induction files as [|it rest IH]; intros l w Hw; cbn.
  - auto.
  - unfold bind.
    pose proof (process_device_detect db s it l w Hmode Hw) as Hstep.
    destruct (process_device db s O_RDONLY it l w) as [[l'|code] w']; [|exact Hstep].
    destruct Hstep as [Hw' Eo].
    specialize (IH l' w' Hw').
    destruct (device_loop db s O_RDONLY rest l' w') as [[l''|code] w'']; [|exact IH].
    destruct IH as [Hw'' Eo']. split; [exact Hw''|].
    rewrite Eo', Eo, <- app_assoc. reflexivity.
Qed.

(** The option loop makes no call; once an option has asked for detection,
    the mode stays DETECT. *)
Lemma parse_options_detect db getopt s (w : World K) :
  Settings.mode s = DETECT \/ In "d"%char getopt ->
  match parse_options db getopt s w with
  | (Normal s', w') => Settings.mode s' = DETECT /\ calls w' = calls w
  | (Exit _, w') => calls w' = calls w
  end.
Proof.
  revert s w. induction getopt as [|c getopt IH]; intros s w Hd; cbn.
  - destruct Hd as [Hd|[]]. auto.
  - unfold bind, print, exit.
    destruct (Ascii.eqb c "a"); [reflexivity|].
    destruct (Ascii.eqb_spec c "b") as [->|_].
    { apply IH. destruct Hd as [Hd|[Hd|Hd]]; auto; discriminate. }
    destruct (Ascii.eqb c "h"); [reflexivity|].
    destruct (Ascii.eqb_spec c "s") as [->|_].
    { apply IH. destruct Hd as [Hd|[Hd|Hd]]; auto; discriminate. }
    destruct (Ascii.eqb_spec c "f") as [->|_].
    { apply IH. destruct Hd as [Hd|[Hd|Hd]]; auto; discriminate. }
    destruct (Ascii.eqb_spec c "d") as [->|Hc].
    { apply IH. left. reflexivity. }
    destruct (Ascii.eqb c "l"); reflexivity.
Qed.

(** In detection every positional parameter is a device path. *)
Lemma parse_params_detect params s :
  Settings.mode s = DETECT ->
  Settings.mode (parse_params params s) = DETECT
  /\ Settings.files (parse_params params s) = (Settings.files s ++ params)%list.
Proof.
  revert s. induction params as [|p params IH]; intros s Hs.
  - cbn. rewrite app_nil_r. auto.
  - rewrite parse_params_step, Hs. cbn [Z.eqb negb andb].
    change (DETECT =? DETECT) with true. cbn [negb andb].
    destruct (IH (Settings.push_back s p) Hs) as [Em Ef].
    rewrite Em, Ef. cbn. rewrite <- app_assoc. auto.
Qed.

Lemma parse_options_files db getopt s (w : World K) :
  match parse_options db getopt s w with
  | (Normal s', _) => Settings.files s' = Settings.files s
  | (Exit _, _) => True
  end.
Proof.
  revert s w. induction getopt as [|c getopt IH]; intros s w; cbn.
  - reflexivity.
  - unfold bind, print, exit.
    repeat match goal with
           | |- context [if ?b then _ else _] => destruct b
           end; try exact I;
      match goal with
      | |- context [parse_options db getopt ?t w] => apply (IH t w)
      end.
Qed.

Lemma probe_call_not_write c : probe_call c -> ~ write_call c.
Proof. destruct c; cbn; tauto. Qed.

Lemma main_detect getopt params version device_info (k : K) :
  In "d"%char getopt ->
  match main getopt params version device_info (start k) with
  | (Normal _, w) => Forall probe_call (calls w) /\ opened (history w) = params
  | (Exit _, w) => calls w = []
  end.
Proof.
  intros Hd. unfold main. fold registry. unfold bind at 1.
  pose proof (parse_options_detect registry getopt Settings.initial (start k)
                (or_intror Hd)) as Ho.
  pose proof (parse_options_files registry getopt Settings.initial (start k)) as Hf.
  destruct (parse_options registry getopt Settings.initial (start k))
    as [[s'|code] w']; [|exact Ho].
  destruct Ho as [Hmode Ec]. change (calls (start k)) with (@nil Call) in Ec.
  change (Settings.files Settings.initial) with (@nil string) in Hf.
  destruct (parse_params_detect params s' Hmode) as [Hmode' Hfiles].
  rewrite Hf in Hfiles. cbn [app] in Hfiles.
  destruct params as [|p params].
  - unfold session. rewrite Hfiles. unfold bind, print, exit. exact Ec.
  - rewrite session_run by (rewrite Hfiles; discriminate).
    rewrite Hmode', Hfiles.
    change (open_mode_of DETECT) with O_RDONLY.
    match goal with
    | |- context [device_loop ?a ?b ?c ?d ?e ?f] =>
        assert (Hw0 : Forall probe_call (calls f))
          by (cbn [calls]; rewrite Ec; constructor);
        pose proof (device_loop_detect a b d e f Hmode' Hw0) as Hloop;
        destruct (device_loop a b c d e f) as [[l'|code] w'']
    end; [|contradiction].
    destruct Hloop as [Hall Eo]. split; [exact Hall|].
    unfold history. rewrite opened_rev, Eo. cbn [calls]. rewrite Ec. cbn [opened].
    rewrite app_nil_r. apply rev_involutive.
Qed.

(** C4.  When an option asks for detection, every call of the run is a
    read-only [open], a driver-version query, a device-information query
    or an application query: no init-report, no set-usage and no
    set-report, whatever the devices are.  If the process exits, it does so
    before the first call (an option that ends the run, or no file);
    otherwise it runs to the end having opened every positional parameter,
    in order.  In a round of detection whose [open] succeeds, the line for
    the device is printed exactly when the monitor check says yes, and the
    round goes on to the next file either way. *)
Theorem detection_never_writes :
  forall (getopt : list ascii) (params : list string) (version : Z)
         (device_info : hiddev_devinfo.t) (k : K),
    In "d"%char getopt ->
    let r := fst (main getopt params version device_info (start k)) in
    let w := snd (main getopt params version device_info (start k)) in
    Forall probe_call (calls w)
    /\ (forall c, In c (calls w) -> ~ write_call c)
    /\ (forall code, r = Exit code -> calls w = [])
    /\ (r = Normal tt -> opened (history w) = params)
    /\ (forall (db : Database) (s : Settings.t) (it : string) (l : Loop.t)
               (w0 : World K) (fd version' : Z)
               (device_info' : hiddev_devinfo.t) (k3 : K),
          Settings.mode s = DETECT ->
          probe O_RDONLY it l (kernel w0) = (fd, version', device_info', k3) ->
          0 <= fd ->
          let w3 := probed s O_RDONLY it l w0 fd version' device_info' k3 in
          exists k' new,
            process_device db s O_RDONLY it l w0 =
              (Normal (probed_locals l version' device_info'),
               mkWorld k' (new ++ calls w3)
                 (if classified_monitor device_info' fd k3
                  then out_usb_monitor it (is_supported db device_info')
                         (format_device db device_info') :: output w3
                  else output w3))
            /\ Forall is_application_call new).
Proof.
  intros getopt params version device_info k Hd r w.
  assert (Hmain : Forall probe_call (calls w)
                  /\ (forall code, r = Exit code -> calls w = [])
                  /\ (r = Normal tt -> opened (history w) = params)).
  { subst r w.
    pose proof (main_detect getopt params version device_info k Hd) as Hm.
    destruct (main getopt params version device_info (start k))
      as [[u|code] w]; cbn [fst snd].
    - destruct Hm as [Hall Eo]. split; [exact Hall|].
      split; [discriminate|]. intros _. exact Eo.
    - rewrite Hm. split; [constructor|]. split; [reflexivity|discriminate]. }
  destruct Hmain as (Hall & Hexit & Hopen).
  split; [exact Hall|]. split.
  { intros c Hc. apply probe_call_not_write.
    rewrite Forall_forall in Hall. apply Hall, Hc. }
  split; [exact Hexit|]. split; [exact Hopen|].
  intros db s it l w0 fd version' device_info' k3 Hmode Ep Hfd w3.
  apply Z.eqb_eq in Hmode.
  rewrite (process_device_probed db s O_RDONLY it l w0 fd version' device_info'
             k3 Ep Hfd), Hmode. fold w3.
  destruct (is_usb_monitor_classified device_info' fd w3) as (k' & new & Em & Hnew).
  exists k', new. split; [|exact Hnew].
  unfold bind at 1. rewrite Em. change (kernel w3) with k3.
  destruct (classified_monitor device_info' fd k3); reflexivity.
Qed.

(* --------------------------------------------------------------------- *)
(** *** The values sent to the device *)

Lemma min_max_range x : 0 <= min 255 (max 0 x) <= 255.
Proof.
  unfold min, max.
  destruct (0 <? x) eqn:E0; [apply Z.ltb_lt in E0|apply Z.ltb_ge in E0].
  - destruct (x <? 255) eqn:E1; [apply Z.ltb_lt in E1|apply Z.ltb_ge in E1]; lia.
  - cbn. lia.
Qed.

Lemma min_max_clamp x : min 255 (max 0 x) = clamp x 0 255.
Proof.
  unfold min, max, clamp.
  destruct (0 <? x) eqn:E0; [apply Z.ltb_lt in E0|apply Z.ltb_ge in E0].
  - destruct (x <? 255) eqn:E1; [apply Z.ltb_lt in E1|apply Z.ltb_ge in E1]; lia.
  - cbn. lia.
Qed.

Lemma to_int_small z : INT_MIN <= z <= INT_MAX -> to_int z = z.
Proof.
  unfold to_int, INT_MIN, INT_MAX. intros Hz.
  rewrite Z.mod_small; lia.
Qed.

Ltac sent_ok :=
  repeat first
    [ assumption
    | apply Forall_nil
    | apply Forall_cons
    | apply Forall_app; split
    | exact I
    | match goal with
      | Hnew : Forall is_application_call ?new |- Forall _ ?new =>
          revert Hnew; apply Forall_impl;
          let c := fresh "c" in intros c; destruct c; cbn; tauto
      end
    | progress (cbn [sent_as_designed hiddev_usage_ref.value
                     hiddev_usage_ref.set_value]; use_eqns)
    | apply min_max_range ].

(** The values sent, by the mode, in a list of calls that are as designed. *)
Lemma sent_values_as_designed s cs :
  Forall (sent_as_designed s) cs ->
  (Settings.mode s = SET ->
     Forall (fun v => v = Settings.brightness s) (sent_values cs))
  /\ (Settings.mode s = SETREL ->
        Forall (fun v => 0 <= v <= 255) (sent_values cs))
  /\ (Settings.mode s <> SET -> Settings.mode s <> SETREL ->
        sent_values cs = []).
Proof.
  induction 1 as [|c cs Hc _ (IHset & IHrel & IHnone)]; cbn [sent_values].
  - repeat split; constructor.
  - destruct c; try (repeat split; assumption).
    cbn [sent_as_designed] in Hc.
    destruct (Settings.mode s =? SET) eqn:Eset;
      [apply Z.eqb_eq in Eset|apply Z.eqb_neq in Eset].
    + split; [|split].
      * intros Hm. constructor; [exact Hc|exact (IHset Hm)].
      * intros Hm. rewrite Eset in Hm. discriminate.
      * intros Hm. contradiction.
    + destruct (Settings.mode s =? SETREL) eqn:Erel;
        [apply Z.eqb_eq in Erel|contradiction].
      split; [|split].
      * intros Hm. contradiction.
      * intros Hm. constructor; [exact Hc|exact (IHrel Hm)].
      * intros _ Hm. contradiction.
Qed.

(** A round sends, in SET mode, the value of [brightness], which it leaves
    as it is, in SETREL mode values between 0 and 255 only, and in the
    other modes nothing. *)
Lemma process_device_sends db s open_mode it l (w : World K) :
  Forall (sent_as_designed s) (calls w) ->
  (Settings.mode s = SET -> Loop.brightness l = Settings.brightness s) ->
  match process_device db s open_mode it l w with
  | (Normal l', w') =>
      Forall (sent_as_designed s) (calls w')
      /\ (Settings.mode s = SET -> Loop.brightness l' = Settings.brightness s)
  | (Exit _, w') => Forall (sent_as_designed s) (calls w')
  end.
Proof.
  intros Hw Hb. reduce. repeat run_step.
  all: try match goal with
           | E : (Settings.mode _ =? SET) = true |- _ =>
               pose proof (Hb (proj1 (Z.eqb_eq _ _) E)) as Hb'
           end.
  all: try (split; [|first [exact Hb | intros _; exact Hb'
                           | intros E; apply Z.eqb_eq in E; congruence]]).
  all: sent_ok; reflexivity.
Qed.

(** C2, as the program has it.  Over a whole run of the part of [main]
    after the arguments, whatever the driver answers: in SET mode every
    value handed to set-usage is the caller's number unchanged (the program
    clamps nothing there); in SETREL mode every value handed to set-usage
    lies between 0 and 255, whatever the device reported and whatever the
    sum of it and the requested change was; and in every other mode (the
    query and detection) no set-usage call is made, so no value is sent. *)
Theorem sent_values_by_mode :
  forall (db : Database) (s : Settings.t) (version : Z)
         (device_info : hiddev_devinfo.t) (k : K),
    let cs := calls (snd (session db s version device_info (start k))) in
    Forall (sent_as_designed s) cs
    /\ (Settings.mode s = SET ->
          Forall (fun v => v = Settings.brightness s) (sent_values cs))
    /\ (Settings.mode s = SETREL ->
          Forall (fun v => 0 <= v <= 255) (sent_values cs))
    /\ (Settings.mode s <> SET -> Settings.mode s <> SETREL ->
          sent_values cs = []).
Proof.
  intros db s version device_info k cs.
  assert (Hall : Forall (sent_as_designed s) cs);
    [subst cs|split; [exact Hall|exact (sent_values_as_designed s cs Hall)]].
  destruct (Settings.files s) as [|it files] eqn:Ef.
  - unfold session. rewrite Ef. cbn. constructor.
  - rewrite session_run by congruence.
    match goal with
    | |- context [device_loop ?a ?b ?c ?d ?e ?f] =>
        pose proof (device_loop_invariant a b c
                      (fun l w => Forall (sent_as_designed s) (calls w)
                                  /\ (Settings.mode s = SET ->
                                      Loop.brightness l = Settings.brightness s))
                      (fun _ w => Forall (sent_as_designed s) (calls w))) as Hloop;
        specialize (Hloop
                      (fun it l w Hw =>
                         process_device_sends a b c it l w (proj1 Hw) (proj2 Hw))
                      d e f (conj (Forall_nil _) (fun _ => eq_refl)));
        destruct (device_loop a b c d e f) as [[l'|code] w']
    end; cbn [snd]; [apply Hloop|exact Hloop].
Qed.

(* --------------------------------------------------------------------- *)
(** *** The relative change *)

(** X21.  The exchange of SETREL mode, when no call fails: get-usage and
    get-report; set-usage and set-report with the value read plus [amount],
    brought into 0..255; get-usage and get-report again; and the value the
    second get-usage returned is the one printed.  The value sent is the
    clamp of the sum whenever the sum fits an [int].  When a call fails,
    it is the last one, and the process exits with its code. *)
Lemma relative_adjust_exchange s it fd brightness (w : World K) :
  Settings.mode s = SETREL ->
  let usage_ref :=
    hiddev_usage_ref.mk HID_REPORT_TYPE_FEATURE BRIGHTNESS_CONTROL 0 0
      USAGE_CODE brightness in
  let rep_info :=
    hiddev_report_info.mk HID_REPORT_TYPE_FEATURE BRIGHTNESS_CONTROL 1 in
  match transaction s it fd brightness w with
  | (Normal brightness', w') =>
      exists r1 read r2 r3 r4 r5 readback r6,
        let new :=
          min 255 (max 0 (to_int (hiddev_usage_ref.value read + Settings.amount s))) in
        let asked := hiddev_usage_ref.set_value read new in
        calls w' =
          call_HIDIOCGREPORT fd rep_info r6
          :: call_HIDIOCGUSAGE fd asked r5 readback
          :: call_HIDIOCSREPORT fd rep_info r4
          :: call_HIDIOCSUSAGE fd asked r3
          :: call_HIDIOCGREPORT fd rep_info r2
          :: call_HIDIOCGUSAGE fd usage_ref r1 read
          :: calls w
        /\ output w' =
             out_brightness (if Settings.brief s then None else Some it)
               (hiddev_usage_ref.value readback)
             :: output w
        /\ brightness' = new
        /\ 0 <= new <= 255
        /\ (INT_MIN <= hiddev_usage_ref.value read + Settings.amount s <= INT_MAX ->
             new = clamp (hiddev_usage_ref.value read + Settings.amount s) 0 255)
  | (Exit code, w') =>
      exists c rest,
        calls w' = c :: rest
        /\ ((usage_failed c = true /\ code = 2)
             \/ (report_failed c = true /\ code = 3))
  end.
Proof.
  intros Hmode usage_ref rep_info. reduce.
  assert (Hset : (Settings.mode s =? SET) = false) by (rewrite Hmode; reflexivity).
  assert (Hrel : (Settings.mode s =? SETREL) = true) by (rewrite Hmode; reflexivity).
  rewrite Hset. repeat (run_step; rewrite ?Hrel).
  all: try (eexists; eexists; split; [reflexivity|];
            cbn [usage_failed report_failed]; auto; fail).
  destruct p as [r1 read], p0 as [r5 readback]. cbn [fst snd] in *.
  exists r1, read, z, z0, z1, r5, readback, z2. cbv zeta.
  split; [reflexivity|]. split; [reflexivity|]. split; [reflexivity|].
  split; [apply min_max_range|].
  intros Hfit. rewrite to_int_small by exact Hfit. apply min_max_clamp.
Qed.

End Runs.

(* ===================================================================== *)
(** ** Concrete runs *)

Lemma sent_in_range_values cs :
  Forall sent_in_range cs -> Forall (fun v => 0 <= v <= 255) (sent_values cs).
Proof.
  induction 1 as [|c cs Hc _ IH]; cbn; [constructor|].
  destruct c; try exact IH. constructor; [exact Hc|exact IH].
Qed.

(** C1, at [acdcontrol /dev/hiddev0 +2147483647] with the display at 255.
    The requested change is [INT_MAX]; the clamp of the sum is 255; but the
    sum is computed in an [int], wraps to a negative number, and the
    program sends 0, reads 0 back and prints 0. *)
Theorem relative_adjust_overflows_at_int_max :
  let w := snd (Mock.run [Runs.cinema 255] [] ["/dev/hiddev0"; "+2147483647"]) in
  atoi "+2147483647" = INT_MAX
  /\ clamp (255 + INT_MAX) 0 255 = 255
  /\ read_values (history w) = [255; 0]
  /\ sent_values (history w) = [0]
  /\ printed w =
       [out_notice; out_version 1 0 4; out_brightness (Some "/dev/hiddev0") 0].
Proof. vm_compute. repeat split; reflexivity. Qed.

(** The same exchange where the sum fits: from 250, +50 sends 255, and from
    5, -10 sends 0 (scenario B); the value printed is the one read back,
    which on a backlight with steps of 16 is not the one sent. *)
Example relative_adjust_runs :
  sent_values (history (snd (Mock.run [Runs.cinema 250] [] ["/dev/hiddev0"; "+50"])))
    = [255]
  /\ sent_values (history (snd (Mock.run [Runs.cinema 5] [] ["/dev/hiddev0"; "-10"])))
    = [0]
  /\ printed (snd (Mock.run [Runs.cinema 5] [] ["/dev/hiddev0"; "-10"]))
    = [out_notice; out_version 1 0 4; out_brightness (Some "/dev/hiddev0") 0]
  /\ sent_values
       (history (snd (Mock.run [Mock.with_granularity 16 (Runs.cinema 160)] []
                        ["/dev/hiddev0"; "+10"])))
    = [170]
  /\ printed (snd (Mock.run [Mock.with_granularity 16 (Runs.cinema 160)] []
                     ["/dev/hiddev0"; "+10"]))
    = [out_notice; out_version 1 0 4; out_brightness (Some "/dev/hiddev0") 160].
Proof. vm_compute. repeat split; reflexivity. Qed.

(** C2, as stated, fails at [acdcontrol /dev/hiddev0 300]: the program
    hands 300 to set-usage. *)
Lemma absolute_set_sends_300 :
  ~ Forall sent_in_range
      (calls (snd (Mock.run [Runs.cinema 160] [] ["/dev/hiddev0"; "300"]))).
Proof.
  intros Hall. apply sent_in_range_values in Hall.
  assert (E : sent_values
                (calls (snd (Mock.run [Runs.cinema 160] [] ["/dev/hiddev0"; "300"])))
              = [300]) by (vm_compute; reflexivity).
  rewrite E in Hall. inversion Hall as [|v vs Hv _]. lia.
Qed.

(** C7, at [acdcontrol --detect /dev/hiddev0 /dev/hiddev1] with two
    displays, and at [acdcontrol /dev/hiddev0 /dev/hiddev1] with a keyboard
    on the first node and a display on the second: the driver version line
    is printed twice, once for each device opened, because a round that
    ends early leaves [first_device] set. *)
Theorem version_line_is_printed_again :
  version_lines
    (printed (snd (Mock.run [Runs.cinema 160; Runs.studio 90] ["d"%char]
                     ["/dev/hiddev0"; "/dev/hiddev1"]))) = 2%nat
  /\ printed (snd (Mock.run [Runs.cinema 160; Runs.studio 90] ["d"%char]
                     ["/dev/hiddev0"; "/dev/hiddev1"]))
     = [out_notice;
        out_version 1 0 4;
        out_usb_monitor "/dev/hiddev0" true
          (format_device registry (Mock.info (Runs.cinema 160)));
        out_version 1 0 4;
        out_usb_monitor "/dev/hiddev1" true
          (format_device registry (Mock.info (Runs.studio 90)))]
  /\ version_lines
       (printed (snd (Mock.run [Mock.keyboard "/dev/hiddev0"; Runs.studio 90]
                        ["f"%char] ["/dev/hiddev0"; "/dev/hiddev1"]))) = 2%nat
  /\ version_lines
       (printed (snd (Mock.run [Runs.cinema 160; Runs.studio 90] []
                        ["/dev/hiddev0"; "/dev/hiddev1"]))) = 1%nat.
Proof. vm_compute. repeat split; reflexivity. Qed.

(** The exit code scheme at [acdcontrol /dev/nope /dev/hiddev1], where the
    first file cannot be opened and the second is a display: the run ends
    with 0.  And at [acdcontrol -s /dev/hiddev0] with a display that
    refuses get-report: the run ends with 3. *)
Lemma exit_code_scheme_witness :
  exit_status
    (fst (Mock.run [Runs.studio 90] [] ["/dev/nope"; "/dev/hiddev1"])) = 0
  /\ exit_status
       (fst (Mock.run [Mock.refusing Mock.GREPORT (Runs.cinema 160)] ["s"%char]
               ["/dev/hiddev0"])) = 3.
Proof.
  split.
  - assert (Hg : Forall (fun c => ends_run c = false) []) by constructor.
    destruct (exit_code_scheme [] ["/dev/nope"; "/dev/hiddev1"]
                Mock.junk_version Mock.junk_info [Runs.studio 90] Hg)
      as [_ Hfiles].
    destruct Hfiles as (c & rest & _ & _ & H0 & _); [vm_compute; discriminate|].
    apply H0. vm_compute. reflexivity.
  - assert (Hg : Forall (fun c => ends_run c = false) ["s"%char])
      by (repeat constructor).
    destruct (exit_code_scheme ["s"%char] ["/dev/hiddev0"]
                Mock.junk_version Mock.junk_info
                [Mock.refusing Mock.GREPORT (Runs.cinema 160)] Hg)
      as [_ Hfiles].
    destruct Hfiles as (c & rest & Ec & _ & _ & _ & _ & _ & H3);
      [vm_compute; discriminate|].
    apply H3. vm_compute in Ec. injection Ec as <- _. reflexivity.
Defined.

(** Detection at [acdcontrol -d /dev/hiddev0 /dev/hiddev1 /dev/nope], with
    a display and a keyboard. *)
Lemma detection_never_writes_witness :
  Forall probe_call
    (calls (snd (Mock.run [Runs.cinema 160; Mock.keyboard "/dev/hiddev1"]
                   ["d"%char] ["/dev/hiddev0"; "/dev/hiddev1"; "/dev/nope"])))
  /\ opened
       (history (snd (Mock.run [Runs.cinema 160; Mock.keyboard "/dev/hiddev1"]
                        ["d"%char] ["/dev/hiddev0"; "/dev/hiddev1"; "/dev/nope"])))
     = ["/dev/hiddev0"; "/dev/hiddev1"; "/dev/nope"].
Proof.
  assert (Hd : In "d"%char ["d"%char]) by (left; reflexivity).
  destruct (detection_never_writes ["d"%char]
              ["/dev/hiddev0"; "/dev/hiddev1"; "/dev/nope"]
              Mock.junk_version Mock.junk_info
              [Runs.cinema 160; Mock.keyboard "/dev/hiddev1"] Hd)
    as (Hall & _ & _ & Hopen & _).
  split; [exact Hall|]. apply Hopen. vm_compute. reflexivity.
Defined.

(** Scenario D: [acdcontrol /dev/hiddev0 /dev/hiddev1] where the first
    device is a monitor that is not in the registry.  The loop ends with
    exit code 2 after the three calls of the first round.  With
    [acdcontrol --force /dev/hiddev0] the round on the same monitor goes on:
    after the three calls comes the application query and then the
    initialisation of the report structures, and whatever is printed comes
    after the version line and the warning.  And with
    [acdcontrol --force /dev/hiddev0] on a keyboard the round queries its
    application, prints that it is no USB monitor, and returns. *)
Lemma unsupported_device_policy_witness :
  (fst (device_loop registry Settings.initial O_RDONLY
          ["/dev/hiddev0"; "/dev/hiddev1"] Runs.locals
          (start [Runs.stranger; Runs.studio 90])) = Exit 2
   /\ List.length
        (calls (snd (device_loop registry Settings.initial O_RDONLY
                       ["/dev/hiddev0"; "/dev/hiddev1"] Runs.locals
                       (start [Runs.stranger; Runs.studio 90])))) = 3%nat)
  /\ ((exists more,
         calls (snd (process_device registry (Settings.set_force Settings.initial)
                       O_RDONLY "/dev/hiddev0" Runs.locals
                       (start [Runs.stranger])))
         = (more ++ [call_HIDIOCINITREPORT 3 0;
                     call_HIDIOCAPPLICATION 3 0 0x800001;
                     call_HIDIOCGDEVINFO 3 (Mock.info Runs.stranger);
                     call_HIDIOCGVERSION 3 (Mock.driver_version Runs.stranger);
                     call_open "/dev/hiddev0" O_RDONLY 3])%list)
      /\ (exists lines,
            output (snd (process_device registry
                           (Settings.set_force Settings.initial)
                           O_RDONLY "/dev/hiddev0" Runs.locals
                           (start [Runs.stranger])))
            = (lines ++ [out_unsupported
                           (format_device registry (Mock.info Runs.stranger));
                         out_version 1 0 4])%list))
  /\ process_device registry (Settings.set_force Settings.initial)
       O_RDONLY "/dev/hiddev0" Runs.locals
       (start [Mock.keyboard "/dev/hiddev0"])
     = (Normal (probed_locals Runs.locals
                  (Mock.driver_version (Mock.keyboard "/dev/hiddev0"))
                  (Mock.info (Mock.keyboard "/dev/hiddev0"))),
        mkWorld [Mock.keyboard "/dev/hiddev0"]
          [call_HIDIOCAPPLICATION 3 0 0x10006;
           call_HIDIOCGDEVINFO 3 (Mock.info (Mock.keyboard "/dev/hiddev0"));
           call_HIDIOCGVERSION 3
             (Mock.driver_version (Mock.keyboard "/dev/hiddev0"));
           call_open "/dev/hiddev0" O_RDONLY 3]
          [out_not_usb_monitor "/dev/hiddev0";
           out_unsupported
             (format_device registry (Mock.info (Mock.keyboard "/dev/hiddev0")));
           out_version 1 0 4]).
Proof.
  assert (Hfd : 0 <= 3) by lia.
  split; [|split].
  - assert (Ep : probe O_RDONLY "/dev/hiddev0" Runs.locals
                   (kernel (start [Runs.stranger; Runs.studio 90]))
                 = (3, Mock.driver_version Runs.stranger, Mock.info Runs.stranger,
                    [Runs.stranger; Runs.studio 90]))
      by (vm_compute; reflexivity).
    assert (Hmode : Settings.mode Settings.initial <> DETECT)
      by (vm_compute; discriminate).
    destruct (unsupported_device_policy registry Settings.initial O_RDONLY
                "/dev/hiddev0" ["/dev/hiddev1"] Runs.locals
                (start [Runs.stranger; Runs.studio 90]) 3
                (Mock.driver_version Runs.stranger) (Mock.info Runs.stranger)
                [Runs.stranger; Runs.studio 90] Ep Hfd Hmode)
      as [Hstop _].
    destruct Hstop as (_ & E & _); [vm_compute; reflexivity|reflexivity|].
    rewrite E. split; reflexivity.
  - assert (Ep : probe O_RDONLY "/dev/hiddev0" Runs.locals
                   (kernel (start [Runs.stranger]))
                 = (3, Mock.driver_version Runs.stranger, Mock.info Runs.stranger,
                    [Runs.stranger]))
      by (vm_compute; reflexivity).
    assert (Hmode : Settings.mode (Settings.set_force Settings.initial) <> DETECT)
      by (vm_compute; discriminate).
    destruct (unsupported_device_policy registry
                (Settings.set_force Settings.initial) O_RDONLY
                "/dev/hiddev0" [] Runs.locals
                (start [Runs.stranger]) 3
                (Mock.driver_version Runs.stranger) (Mock.info Runs.stranger)
                [Runs.stranger] Ep Hfd Hmode)
      as [_ Hgo].
    destruct Hgo as (_ & _ & _ & _ & Hyes); [right; reflexivity|].
    destruct Hyes as ((more & Ecalls) & (lines & Elines) & _);
      [vm_compute; reflexivity|].
    split.
    + exists more. rewrite Ecalls. f_equal.
    + exists lines. rewrite Elines. f_equal.
  - assert (Ep : probe O_RDONLY "/dev/hiddev0" Runs.locals
                   (kernel (start [Mock.keyboard "/dev/hiddev0"]))
                 = (3, Mock.driver_version (Mock.keyboard "/dev/hiddev0"),
                    Mock.info (Mock.keyboard "/dev/hiddev0"),
                    [Mock.keyboard "/dev/hiddev0"]))
      by (vm_compute; reflexivity).
    assert (Hmode : Settings.mode (Settings.set_force Settings.initial) <> DETECT)
      by (vm_compute; discriminate).
    destruct (unsupported_device_policy registry
                (Settings.set_force Settings.initial) O_RDONLY
                "/dev/hiddev0" [] Runs.locals
                (start [Mock.keyboard "/dev/hiddev0"]) 3
                (Mock.driver_version (Mock.keyboard "/dev/hiddev0"))
                (Mock.info (Mock.keyboard "/dev/hiddev0"))
                [Mock.keyboard "/dev/hiddev0"] Ep Hfd Hmode)
      as [_ Hgo].
    destruct Hgo as (_ & _ & _ & Hno & _); [right; reflexivity|].
    destruct Hno as [E _]; [vm_compute; reflexivity|].
    rewrite E. vm_compute. reflexivity.
Defined.

(** [acdcontrol /dev/nope ...]: the file that cannot be opened costs one
    error line and the loop goes on.  [acdcontrol /dev/hiddev0] with a
    display that refuses get-usage: that call is the last of the process,
    which exits with 2. *)
Lemma recoverable_and_fatal_failures_witness :
  process_device registry Settings.initial O_RDONLY "/dev/nope" Runs.locals
    (start [Runs.cinema 160])
  = (Normal Runs.locals,
     mkWorld [Runs.cinema 160] [call_open "/dev/nope" O_RDONLY (-1)]
       [out_perror "/dev/nope"])
  /\ fst (session registry
            (Settings.push_back Settings.initial "/dev/hiddev0")
            Mock.junk_version Mock.junk_info
            (start [Mock.refusing Mock.GUSAGE (Runs.cinema 160)]))
     = Exit 2.
Proof.
  destruct (@recoverable_and_fatal_failures Mock.t Mock.driver)
    as (Hopen & _ & Hfatal).
  split.
  - assert (Eo : sys_open "/dev/nope" O_RDONLY (kernel (start [Runs.cinema 160]))
                 = (-1, [Runs.cinema 160])) by (vm_compute; reflexivity).
    assert (Hfd : -1 < 0) by lia.
    exact (proj1 (Hopen registry Settings.initial O_RDONLY "/dev/nope" []
                    Runs.locals (start [Runs.cinema 160]) (-1) [Runs.cinema 160]
                    Eo Hfd)).
  - destruct (Hfatal registry (Settings.push_back Settings.initial "/dev/hiddev0")
                Mock.junk_version Mock.junk_info
                [Mock.refusing Mock.GUSAGE (Runs.cinema 160)]
                (call_HIDIOCGUSAGE 3
                   (hiddev_usage_ref.mk HID_REPORT_TYPE_FEATURE
                      BRIGHTNESS_CONTROL 0 0 USAGE_CODE 0)
                   (-1)
                   (hiddev_usage_ref.mk HID_REPORT_TYPE_FEATURE
                      BRIGHTNESS_CONTROL 0 0 USAGE_CODE 0)))
      as (rest & _ & _ & Er).
    + vm_compute. left. reflexivity.
    + left. reflexivity.
    + exact Er.
Defined.

(* ===================================================================== *)
(** * Further properties *)

(** ** The registry and its listing *)

Lemma lt_key_lt a b : DeviceId.lt a b = true <-> key_lt (key a) (key b).
Proof. rewrite lt_spec. unfold key_lt, key. cbn. tauto. Qed.

(** X1.  [operator <] of [DeviceId] is a strict weak order, as [std::set]
    needs: nothing is less than itself, it is transitive, of two records
    with different (vendor, product) pairs one is less than the other, and
    two records are equivalent (neither is less) exactly when their pairs
    are equal, whatever their descriptions. *)
Theorem DeviceId_lt_strict_weak_order :
  (forall a, DeviceId.lt a a = false)
  /\ (forall a b c,
        DeviceId.lt a b = true -> DeviceId.lt b c = true -> DeviceId.lt a c = true)
  /\ (forall a b, DeviceId.lt a b = true -> DeviceId.lt b a = false)
  /\ (forall a b,
        key a <> key b -> DeviceId.lt a b = true \/ DeviceId.lt b a = true)
  /\ (forall a b,
        (DeviceId.lt a b = false /\ DeviceId.lt b a = false) <-> key a = key b).
Proof.
  split; [|split; [|split; [|split]]].
  - intros a. apply lt_false_spec. lia.
  - intros a b c. apply precedes_trans.
  - intros a b. rewrite lt_spec, lt_false_spec. lia.
  - intros a b Hk. rewrite !lt_spec.
    destruct (Z.lt_trichotomy (DeviceId.vendor a) (DeviceId.vendor b)) as [?|[Ev|?]];
      [tauto| |tauto].
    destruct (Z.lt_trichotomy (DeviceId.product a) (DeviceId.product b)) as [?|[Ep|?]];
      [tauto| |right; right; split; [congruence|assumption]].
    elim Hk. unfold key. congruence.
  - intros a b. rewrite <- equiv_spec. unfold DeviceId.equiv.
    rewrite andb_true_iff, !negb_true_iff. tauto.
Qed.

Lemma find_same {A : Type} (f g : A -> bool) (l : list A) :
  (forall a, f a = g a) -> find f l = find g l.
Proof.
  intros E. induction l as [|a l IH]; cbn; [reflexivity|].
  rewrite E, IH. reflexivity.
Qed.

Lemma set_insert_keys x s k :
  In k (map key (set_insert x s)) <-> k = key x \/ In k (map key s).
Proof.
  induction s as [|y s IH]; cbn.
  - intuition congruence.
  - destruct (DeviceId.lt x y) eqn:Exy; cbn.
    + intuition congruence.
    + destruct (DeviceId.lt y x) eqn:Eyx; cbn.
      * rewrite IH. tauto.
      * assert (Ek : key x = key y)
          by (apply equiv_spec; unfold DeviceId.equiv; rewrite Exy, Eyx; reflexivity).
        rewrite Ek. intuition congruence.
Qed.

Lemma set_insert_present x s :
  StronglySorted precedes s -> In (key x) (map key s) -> set_insert x s = s.
Proof.
  induction 1 as [|y s Hs IH Hy]; cbn; [contradiction|].
  intros [Ek|Hin].
  - assert (E : DeviceId.equiv x y = true) by (apply equiv_spec; congruence).
    unfold DeviceId.equiv in E. apply andb_true_iff in E as [E1 E2].
    apply negb_true_iff in E1, E2. rewrite E1, E2. reflexivity.
  - apply in_map_iff in Hin as (z & Ez & Hz).
    rewrite Forall_forall in Hy. specialize (Hy z Hz).
    assert (Hyx : DeviceId.lt y x = true).
    { unfold precedes in Hy. rewrite lt_spec in *. unfold key in Ez.
      injection Ez as Ev Ep. lia. }
    assert (Hxy : DeviceId.lt x y = false).
    { rewrite lt_spec in Hyx. apply lt_false_spec. lia. }
    rewrite Hxy, Hyx. f_equal. apply IH.
    apply in_map_iff. exists z. split; [exact Ez|exact Hz].
Qed.

Lemma set_find_none x s :
  set_find x s = None <-> ~ In (key x) (map key s).
Proof.
  rewrite <- set_find_spec. destruct (set_find x s) as [d|]; split.
  - discriminate.
  - intros Hn. elim Hn. exists d. reflexivity.
  - intros _ [y Hy]. discriminate.
  - reflexivity.
Qed.

Lemma set_find_insert_new x s :
  ~ In (key x) (map key s) -> set_find x (set_insert x s) = Some x.
Proof.
  unfold set_find.
  assert (Hxx : DeviceId.equiv x x = true) by (apply equiv_spec; reflexivity).
  induction s as [|y s IH]; cbn; intros Hn.
  - rewrite Hxx. reflexivity.
  - destruct (DeviceId.lt x y) eqn:Exy; cbn.
    + rewrite Hxx. reflexivity.
    + destruct (DeviceId.lt y x) eqn:Eyx; cbn.
      * destruct (DeviceId.equiv x y) eqn:E.
        -- apply equiv_spec in E. elim Hn. left. congruence.
        -- apply IH. tauto.
      * elim Hn. left. symmetry. apply equiv_spec.
        unfold DeviceId.equiv. rewrite Exy, Eyx. reflexivity.
Qed.

Lemma set_find_insert_other x y s :
  key y <> key x -> set_find y (set_insert x s) = set_find y s.
Proof.
  unfold set_find. intros Hk.
  assert (Hyx : DeviceId.equiv y x = false).
  { destruct (DeviceId.equiv y x) eqn:E; [|reflexivity].
    apply equiv_spec in E. contradiction. }
  induction s as [|z s IH]; cbn.
  - rewrite Hyx. reflexivity.
  - destruct (DeviceId.lt x z); cbn.
    + rewrite Hyx. reflexivity.
    + destruct (DeviceId.lt z x); cbn; [|reflexivity].
      destruct (DeviceId.equiv y z); [reflexivity|exact IH].
Qed.

(** X2.  Inserting a record into a registry whose set is in order (as every
    set built by insertions is): when a record with the same (vendor,
    product) pair is there already, nothing changes, so the first
    description registered for a pair stays; otherwise the new record is
    found under its pair with its own description.  Either way the set
    stays in order, the device is supported afterwards, and the answers
    for every other pair are what they were. *)
Theorem insert_device_then_lookup :
  forall (x : DeviceId.t) (db : Database),
    StronglySorted precedes (supportedDevices db) ->
    let db' := insert_device x db in
    StronglySorted precedes (supportedDevices db')
    /\ (In (key x) (map key (supportedDevices db)) -> db' = db)
    /\ (~ In (key x) (map key (supportedDevices db)) ->
        description db' (DeviceId.vendor x) (DeviceId.product x)
        = DeviceId.description x)
    /\ In (key x) (map key (supportedDevices db'))
    /\ (forall v p,
          (v, p) <> key x ->
          description db' v p = description db v p
          /\ (In (v, p) (map key (supportedDevices db'))
              <-> In (v, p) (map key (supportedDevices db)))).
Proof.
  intros x db Hs db'. subst db'. unfold insert_device. cbn [supportedDevices].
  split; [apply set_insert_sorted, Hs|].
  split.
  { intros Hin. rewrite set_insert_present by assumption. destruct db; reflexivity. }
  split.
  { intros Hn. unfold description. cbn [supportedDevices].
    assert (E : set_find (DeviceId_ (DeviceId.vendor x) (DeviceId.product x) "")
                  (set_insert x (supportedDevices db)) = Some x).
    { rewrite <- (set_find_insert_new x (supportedDevices db) Hn).
      unfold set_find. apply find_same. intros y.
      unfold DeviceId.equiv, DeviceId.lt. reflexivity. }
    rewrite E. reflexivity. }
  split; [apply set_insert_keys; left; reflexivity|].
  intros v p Hk. split.
  - unfold description. cbn [supportedDevices].
    rewrite set_find_insert_other; [reflexivity|exact Hk].
  - rewrite set_insert_keys. intuition congruence.
Qed.

(** [acdcontrol]'s own registry, with one more display. *)
Lemma insert_device_then_lookup_witness :
  description
    (insert_device (DeviceId_ APPLE 0x9226 "A display that is not listed") registry)
    APPLE 0x9226 = "A display that is not listed"
  /\ insert_device (DeviceId_ APPLE CINEMA_DISPLAY_23_NEW "A second 23 inch entry")
       registry = registry.
Proof.
  assert (Hs : StronglySorted precedes (supportedDevices registry))
    by (apply (set_insert_all_sorted device_table []); constructor).
  split.
  - destruct (insert_device_then_lookup
                (DeviceId_ APPLE 0x9226 "A display that is not listed") registry Hs)
      as (_ & _ & Hnew & _).
    apply Hnew. vm_compute. intuition discriminate.
  - destruct (insert_device_then_lookup
                (DeviceId_ APPLE CINEMA_DISPLAY_23_NEW "A second 23 inch entry")
                registry Hs)
      as (_ & Hold & _).
    apply Hold. vm_compute. tauto.
Defined.

Lemma description_found db v p d :
  set_find (DeviceId_ v p "") (supportedDevices db) = Some d ->
  In d (supportedDevices db) /\ key d = (v, p).
Proof.
  unfold set_find. intros E. apply find_some in E as [Hin He].
  split; [exact Hin|]. apply equiv_spec in He. symmetry. exact He.
Qed.

Lemma registry_descriptions_not_empty :
  Forall (fun d => DeviceId.description d <> "") (supportedDevices registry).
Proof. vm_compute. repeat constructor; discriminate. Qed.

(** X3.  [description] answers with the description of the registered
    record that has exactly the (vendor, product) pair asked for, and with
    the empty string when there is none.  In the registry of the program
    the descriptions are not empty, so a device is supported exactly when
    its description is not empty, and each record of the source is found
    with its own description. *)
Theorem description_of_registered :
  (forall db v p,
      ~ In (v, p) (map key (supportedDevices db)) -> description db v p = "")
  /\ (forall db v p,
        In (v, p) (map key (supportedDevices db)) ->
        exists d, In d (supportedDevices db) /\ key d = (v, p)
                  /\ description db v p = DeviceId.description d)
  /\ (forall device_info,
        is_supported registry device_info = true <->
        description registry (masked_vendor device_info)
          (masked_product device_info) <> "")
  /\ (forall d, In d device_table ->
        description registry (DeviceId.vendor d) (DeviceId.product d)
        = DeviceId.description d).
Proof.
  assert (Hnone : forall db v p,
             ~ In (v, p) (map key (supportedDevices db)) -> description db v p = "").
  { intros db v p Hn. unfold description.
    change (v, p) with (key (DeviceId_ v p "")) in Hn.
    apply set_find_none in Hn. rewrite Hn. reflexivity. }
  assert (Hsome : forall db v p,
             In (v, p) (map key (supportedDevices db)) ->
             exists d, In d (supportedDevices db) /\ key d = (v, p)
                       /\ description db v p = DeviceId.description d).
  { intros db v p Hin. unfold description.
    change (v, p) with (key (DeviceId_ v p "")) in Hin.
    apply set_find_spec in Hin as [d Ed].
    destruct (description_found db v p d Ed) as [Hd Hk].
    exists d. rewrite Ed. auto. }
  split; [exact Hnone|]. split; [exact Hsome|]. split.
  - intros device_info. rewrite is_supported_spec. split.
    + intros Hin. destruct (Hsome registry _ _ Hin) as (d & Hd & _ & Ed).
      rewrite Ed. pose proof registry_descriptions_not_empty as Hall.
      rewrite Forall_forall in Hall. apply Hall, Hd.
    + intros Hne.
      destruct (in_dec (fun a b : Z * Z =>
                          ltac:(decide equality; apply Z.eq_dec) : {a = b} + {a <> b})
                  (masked_vendor device_info, masked_product device_info)
                  (map key (supportedDevices registry))) as [Hin|Hn];
        [exact Hin|]. elim Hne. apply Hnone, Hn.
  - intros d Hd. vm_compute in Hd.
    repeat (destruct Hd as [<-|Hd]; [vm_compute; reflexivity|]). contradiction.
Qed.

Lemma map_insert_keys x m k :
  In k (vendor_keys (map_insert x m)) <-> k = fst x \/ In k (vendor_keys m).
Proof.
  unfold vendor_keys. induction m as [|y m IH]; cbn.
  - intuition congruence.
  - destruct (fst x <? fst y) eqn:Exy; cbn.
    + intuition congruence.
    + destruct (fst y <? fst x) eqn:Eyx; cbn.
      * rewrite IH. tauto.
      * apply Z.ltb_ge in Exy, Eyx. assert (fst x = fst y) by lia.
        intuition congruence.
Qed.

Lemma map_find_spec v m :
  (exists n, map_find v m = Some n) <-> In v (vendor_keys m).
Proof.
  unfold map_find, vendor_keys. induction m as [|y m IH]; cbn.
  - split; [intros [? ?]; discriminate|tauto].
  - destruct (Z.eqb_spec (fst y) v) as [E|E]; cbn.
    + split; eauto.
    + rewrite IH. tauto.
Qed.

(** X4.  [known_vendor] looks at the low 16 bits of the vendor only: it is
    true exactly when those are a key of the vendor map, so a vendor and
    the same vendor with higher bits set get the same answer.  Inserting a
    vendor makes it known and changes the answer for no other vendor. *)
Theorem known_vendor_by_low_bits :
  forall (db : Database) (v : Z),
    (known_vendor db v = true <->
     In (Z.land v 0xFFFF) (vendor_keys (supportedVendors db)))
    /\ known_vendor db (Z.land v 0xFFFF) = known_vendor db v
    /\ (forall name,
          known_vendor (insert_vendor (Z.land v 0xFFFF, name) db) v = true)
    /\ (forall u name,
          Z.land u 0xFFFF <> Z.land v 0xFFFF ->
          known_vendor (insert_vendor (Z.land v 0xFFFF, name) db) u
          = known_vendor db u).
Proof.
  intros db v.
  assert (Hspec : forall db u,
             known_vendor db u = true <->
             In (Z.land u 0xFFFF) (vendor_keys (supportedVendors db))).
  { intros db0 u. unfold known_vendor. rewrite <- map_find_spec.
    destruct (map_find _ _); split; eauto; try discriminate.
    intros [? ?]; discriminate. }
  assert (Hidem : Z.land (Z.land v 0xFFFF) 0xFFFF = Z.land v 0xFFFF).
  { rewrite <- Z.land_assoc. reflexivity. }
  split; [apply Hspec|]. split.
  { unfold known_vendor. rewrite Hidem. reflexivity. }
  split.
  - intros name. apply Hspec. cbn [insert_vendor supportedVendors].
    apply map_insert_keys. left. reflexivity.
  - intros u name Hu.
    destruct (known_vendor db u) eqn:E.
    + apply Hspec. cbn [insert_vendor supportedVendors].
      apply map_insert_keys. right. apply Hspec, E.
    + destruct (known_vendor (insert_vendor _ db) u) eqn:E'; [|reflexivity].
      apply Hspec in E'. cbn [insert_vendor supportedVendors] in E'.
      apply map_insert_keys in E' as [E'|E']; [contradiction|].
      apply Hspec in E'. congruence.
Qed.

Lemma dump_supported_keys db :
  map dump_key (dump_supported db) = map key (supportedDevices db).
Proof.
  unfold dump_supported. rewrite map_map. apply map_ext. reflexivity.
Qed.

Lemma sorted_keys s :
  StronglySorted precedes s -> StronglySorted key_lt (map key s).
Proof.
  induction 1 as [|x s Hs IH Hx]; cbn; constructor; [exact IH|].
  apply Forall_map. eapply Forall_impl; [|exact Hx].
  intros y Hy. apply lt_key_lt, Hy.
Qed.

(** X5.  [dump_supported] prints one line per registered device, in the
    order of the set: strictly ascending by vendor, then by product, so no
    pair is listed twice.  For the registry of the program that is seven
    lines, and the vendor of every one of them is in the vendor map, so
    each line carries a vendor name from the map. *)
Theorem dump_supported_in_order :
  forall db : Database,
    StronglySorted precedes (supportedDevices db) ->
    List.length (dump_supported db) = List.length (supportedDevices db)
    /\ map dump_key (dump_supported db) = map key (supportedDevices db)
    /\ StronglySorted key_lt (map dump_key (dump_supported db))
    /\ NoDup (map dump_key (dump_supported db))
    /\ List.length (dump_supported registry) = 7%nat
    /\ Forall (fun line =>
                 match line with
                 | (v, name, _, _) =>
                     known_vendor registry v = true
                     /\ map_find v (supportedVendors registry) = Some name
                 end)
              (dump_supported registry).
Proof.
  intros db Hs. rewrite dump_supported_keys.
  split; [unfold dump_supported; apply length_map|].
  split; [reflexivity|]. split; [apply sorted_keys, Hs|].
  split; [apply sorted_NoDup_keys, Hs|].
  split; [reflexivity|].
  vm_compute. repeat constructor.
Qed.

Lemma dump_supported_in_order_witness :
  map dump_key (dump_supported registry)
  = [(SAMSUNG, S1); (APPLE, STUDIO_DISPLAY_15); (APPLE, STUDIO_DISPLAY_17);
     (APPLE, CINEMA_DISPLAY_23_OLD); (APPLE, CINEMA_DISPLAY_20_OLD);
     (APPLE, CINEMA_DISPLAY_24); (APPLE, CINEMA_DISPLAY_30)].
Proof.
  assert (Hs : StronglySorted precedes (supportedDevices registry))
    by (apply (set_insert_all_sorted device_table []); constructor).
  destruct (dump_supported_in_order registry Hs) as (_ & E & _).
  rewrite E. reflexivity.
Defined.

(* ===================================================================== *)
(** ** Whole runs *)

Lemma application_call_on_is fd new :
  Forall (application_call_on fd) new -> Forall is_application_call new.
Proof.
  apply Forall_impl. intros [] Hc; try contradiction. exact I.
Qed.

Section MoreRuns.
Context {K : Type} `{Hiddev K}.

(** The monitor check works on the descriptor it is given. *)
Lemma is_usb_monitor_from_on n appl_num fd (w : World K) :
  exists k' new,
    is_usb_monitor_from n appl_num fd w =
      (Normal (existsb on_monitor_page (application_replies n appl_num fd (kernel w))),
       mkWorld k' (new ++ calls w) (output w))
    /\ Forall (application_call_on fd) new.
Proof.
  revert appl_num w. induction n as [|n IH]; intros appl_num w.
  - exists (kernel w), []. destruct w; cbn. auto.
  - cbn [is_usb_monitor_from application_replies].
    unfold bind, ioctl_HIDIOCAPPLICATION.
    destruct (sys_HIDIOCAPPLICATION fd appl_num (kernel w)) as [r k1].
    cbn [existsb]. unfold on_monitor_page at 1.
    destruct (Z.land (Z.shiftr r 16) 255 =? 128); cbn [orb].
    + exists k1, [call_HIDIOCAPPLICATION fd appl_num r]. split; [reflexivity|].
      repeat constructor.
    + destruct (IH (to_int (appl_num + 1))
                  (record (call_HIDIOCAPPLICATION fd appl_num r) k1 w))
        as (k' & new & E & Hnew).
      rewrite E. cbn [record kernel calls output].
      exists k', (new ++ [call_HIDIOCAPPLICATION fd appl_num r])%list.
      rewrite <- app_assoc. split; [reflexivity|].
      apply Forall_app. split; [exact Hnew|repeat constructor].
Qed.

(** From boolean comparisons to arithmetic. *)
Ltac to_arith :=
  repeat match goal with
         | E : (_ <? _) = true |- _ => apply Z.ltb_lt in E
         | E : (_ <? _) = false |- _ => apply Z.ltb_ge in E
         end.

(** One step of the program, with the monitor check taken as a whole. *)
Ltac exec_step :=
  lazymatch goal with
  | |- context [match ?t with _ => _ end] =>
      let x := scrutinee t in
      lazymatch x with
      | is_usb_monitor_from ?n ?i ?fd ?w =>
          let k := fresh "k" in
          let new := fresh "new" in
          let E := fresh "E" in
          let Hnew := fresh "Hnew" in
          destruct (is_usb_monitor_from_on n i fd w) as (k & new & E & Hnew);
          rewrite E; clear E;
          generalize (existsb on_monitor_page
                        (application_replies n i fd (kernel w)));
          intros
      | _ => destruct x eqn:?
      end; reduce
  end.

(** What every round keeps, the loop keeps. *)
Lemma device_loop_keeps db s open_mode (P : string -> Prop)
    (I : World K -> Prop) :
  (forall it l w, P it -> I w -> I (snd (process_device db s open_mode it l w))) ->
  forall files l w,
    Forall P files -> I w -> I (snd (device_loop db s open_mode files l w)).
Proof.
  intros Hstep files. induction files as [|it rest IH]; intros l w Hf Hw.
  - exact Hw.
  - inversion Hf as [|? ? Hit Hrest]; subst.
    cbn [device_loop]. unfold bind.
    specialize (Hstep it l w Hit Hw).
    destruct (process_device db s open_mode it l w) as [[l'|code] w'];
      cbn [snd] in *; [apply IH; assumption|exact Hstep].
Qed.

(** What the start of the session establishes and every round keeps holds
    at the end of the session. *)
Lemma session_keeps db s version device_info (k : K) (I : World K -> Prop) :
  (Settings.files s = [] -> I (mkWorld k [] [out_help])) ->
  I (mkWorld k [] (if Settings.silent s then [] else [out_notice])) ->
  (forall it l w,
      In it (Settings.files s) -> I w ->
      I (snd (process_device db s (open_mode_of (Settings.mode s)) it l w))) ->
  I (snd (session db s version device_info (start k))).
Proof.
  intros Hhelp Hnotice Hstep.
  destruct (Settings.files s) as [|it files] eqn:Ef.
  - unfold session. rewrite Ef. cbn. apply Hhelp. reflexivity.
  - rewrite session_run by congruence. rewrite Ef.
    match goal with
    | |- context [device_loop ?a ?b ?c ?d ?e ?f] =>
        pose proof (device_loop_keeps a b c (fun it => In it d) I Hstep d e f) as Hloop;
        destruct (device_loop a b c d e f) as [[l'|code] w']
    end; cbn [snd] in *; apply Hloop;
      try (apply Forall_forall; auto);
      cbn [start kernel calls output]; exact Hnotice.
Qed.

(* --------------------------------------------------------------------- *)
(** *** How the files are opened, and when the brightness is set *)

Lemma process_device_access db s it l (w : World K) :
  Forall (access_as_designed s) (calls w) ->
  Forall (access_as_designed s)
    (calls (snd (process_device db s (open_mode_of (Settings.mode s)) it l w))).
Proof.
  intros Hw. reduce. repeat exec_step.
  all: cbn [snd calls].
  all: repeat first
         [ assumption
         | apply Forall_cons
         | apply Forall_app; split
         | match goal with
           | Hnew : Forall (application_call_on _) ?new |- Forall _ ?new =>
               revert Hnew; apply Forall_impl;
               let c := fresh "c" in intros c; destruct c; cbn; tauto
           end
         | exact I
         | reflexivity
         | left; apply Z.eqb_eq; assumption
         | right; apply Z.eqb_eq; assumption
         | progress cbn [access_as_designed] ].
Qed.

(** X6.  In a run of the part of [main] after the arguments, every file is
    opened read-write when the mode is SET or SETREL and read-only
    otherwise, and set-usage and set-report are issued in SET and SETREL
    mode only: a query or a detection never sets anything, and whatever is
    set is set through a descriptor opened read-write. *)
Theorem files_are_opened_for_what_is_done :
  forall (db : Database) (s : Settings.t) (version : Z)
         (device_info : hiddev_devinfo.t) (k : K),
    Forall (access_as_designed s)
      (calls (snd (session db s version device_info (start k))))
    /\ (open_mode_of (Settings.mode s) = O_RDWR <->
        Settings.mode s = SET \/ Settings.mode s = SETREL)
    /\ (forall c,
          In c (calls (snd (session db s version device_info (start k)))) ->
          set_call c ->
          open_mode_of (Settings.mode s) = O_RDWR).
Proof.
  intros db s version device_info k.
  assert (Hall : Forall (access_as_designed s)
                   (calls (snd (session db s version device_info (start k))))).
  { apply (session_keeps db s version device_info k
             (fun w => Forall (access_as_designed s) (calls w))).
    - intros _. constructor.
    - constructor.
    - intros it l w _ Hw. apply process_device_access, Hw. }
  assert (Hmode : open_mode_of (Settings.mode s) = O_RDWR <->
                  Settings.mode s = SET \/ Settings.mode s = SETREL).
  { unfold open_mode_of.
    destruct (Z.eqb_spec (Settings.mode s) SET);
      destruct (Z.eqb_spec (Settings.mode s) SETREL); cbn;
      intuition discriminate. }
  split; [exact Hall|]. split; [exact Hmode|].
  intros c Hin Hset. rewrite Forall_forall in Hall. specialize (Hall c Hin).
  apply Hmode. destruct c; try contradiction; exact Hall.
Qed.

(* --------------------------------------------------------------------- *)
(** *** What is printed *)

Lemma process_device_silent db s open_mode it l (w : World K) :
  Settings.silent s = true ->
  Forall (fun o => ~ chatter o) (output w) ->
  Forall (fun o => ~ chatter o)
    (output (snd (process_device db s open_mode it l w))).
Proof.
  intros Hs Hw. reduce. rewrite Hs. cbn [negb andb]. repeat exec_step.
  all: cbn [snd output].
  all: repeat first [ assumption | apply Forall_cons | cbn; tauto ].
Qed.

(** X7.  With the silent option, a run of the part of [main] after the
    arguments prints neither the notice nor the driver version line,
    whatever the devices do: what is left is the help text (when no file
    is given), the error lines and the brightness lines. *)
Theorem silent_suppresses_notice_and_version :
  forall (db : Database) (s : Settings.t) (version : Z)
         (device_info : hiddev_devinfo.t) (k : K),
    Settings.silent s = true ->
    Forall (fun o => ~ chatter o)
      (output (snd (session db s version device_info (start k)))).
Proof.
  intros db s version device_info k Hs.
  apply (session_keeps db s version device_info k
           (fun w => Forall (fun o => ~ chatter o) (output w))).
  - intros _. repeat constructor. cbn. tauto.
  - rewrite Hs. constructor.
  - intros it l w _ Hw. apply process_device_silent; assumption.
Qed.

Lemma process_device_brightness_lines db s open_mode files it l (w : World K) :
  In it files ->
  Forall (brightness_line_as_designed s files) (output w) ->
  Forall (brightness_line_as_designed s files)
    (output (snd (process_device db s open_mode it l w))).
Proof.
  intros Hit Hw. reduce. repeat exec_step.
  all: cbn [snd output].
  all: repeat first
         [ assumption
         | apply Forall_cons
         | exact I
         | progress (cbn [brightness_line_as_designed]; use_eqns)
         | split;
           [ apply Z.eqb_neq; assumption
           | first [reflexivity | exists it; auto] ] ].
Qed.

(** X8.  A brightness line is printed in query and relative mode only,
    never in SET mode, and it starts with the path of one of the files of
    the command line unless the brief option is given, in which case it is
    the bare value. *)
Theorem brightness_lines_by_mode :
  forall (db : Database) (s : Settings.t) (version : Z)
         (device_info : hiddev_devinfo.t) (k : K),
    Forall (brightness_line_as_designed s (Settings.files s))
      (output (snd (session db s version device_info (start k)))).
Proof.
  intros db s version device_info k.
  apply (session_keeps db s version device_info k
           (fun w => Forall (brightness_line_as_designed s (Settings.files s))
                       (output w))).
  - intros _. repeat constructor.
  - destruct (Settings.silent s); repeat constructor.
  - intros it l w Hit Hw. apply process_device_brightness_lines; assumption.
Qed.

(* --------------------------------------------------------------------- *)
(** *** Descriptors *)

Lemma closes_after_reports_app fd new cs :
  Forall (application_call_on fd) new ->
  closes_after_reports cs -> closes_after_reports (new ++ cs).
Proof.
  induction 1 as [|c new Hc _ IH]; intros Hcs; cbn; [exact Hcs|].
  destruct c; try contradiction. split; [exact I|apply IH, Hcs].
Qed.

Lemma process_device_closes db s open_mode it l (w : World K) :
  closes_after_reports (calls w) ->
  closes_after_reports (calls (snd (process_device db s open_mode it l w))).
Proof.
  intros Hw. reduce. repeat exec_step.
  all: cbn [snd calls].
  all: repeat first
         [ assumption
         | exact I
         | eapply closes_after_reports_app; [eassumption|]
         | progress cbn [closes_after_reports report_done_on]
         | split
         | reflexivity
         | apply Z.ltb_ge; assumption ].
Qed.

Lemma process_device_probes db s it l (w : World K) :
  Settings.mode s = DETECT ->
  Forall probe_call (calls w) ->
  Forall probe_call
    (calls (snd (process_device db s (open_mode_of (Settings.mode s)) it l w))).
Proof.
  intros Hmode Hw. rewrite Hmode. change (open_mode_of DETECT) with O_RDONLY.
  pose proof (process_device_detect db s it l w Hmode Hw) as Hstep.
  destruct (process_device db s O_RDONLY it l w) as [[l'|code] w'];
    [apply Hstep|contradiction].
Qed.

(** X9.  A descriptor is closed only at the end of a round that went
    through the whole exchange: every [close] comes right after a
    get-report or set-report on the same descriptor that succeeded.  A
    round that ends early (not a USB monitor, or any round of detection)
    leaves its descriptor open, so a detection closes nothing at all. *)
Theorem close_follows_a_completed_exchange :
  forall (db : Database) (s : Settings.t) (version : Z)
         (device_info : hiddev_devinfo.t) (k : K),
    closes_after_reports
      (calls (snd (session db s version device_info (start k))))
    /\ (Settings.mode s = DETECT ->
        forall fd,
          ~ In (call_close fd)
              (calls (snd (session db s version device_info (start k))))).
Proof.
  intros db s version device_info k. split.
  - apply (session_keeps db s version device_info k
             (fun w => closes_after_reports (calls w))).
    + intros _. exact I.
    + exact I.
    + intros it l w _ Hw. apply process_device_closes, Hw.
  - intros Hmode fd Hin.
    assert (Hall : Forall probe_call
                     (calls (snd (session db s version device_info (start k))))).
    { apply (session_keeps db s version device_info k
               (fun w => Forall probe_call (calls w))).
      - intros _. constructor.
      - constructor.
      - intros it l w _ Hw. apply process_device_probes; assumption. }
    rewrite Forall_forall in Hall. exact (Hall _ Hin).
Qed.

Lemma current_fd_app fd new cs :
  Forall (application_call_on fd) new -> current_fd (new ++ cs) = current_fd cs.
Proof.
  induction 1 as [|c new Hc _ IH]; cbn; [reflexivity|].
  destruct c; try contradiction. exact IH.
Qed.

Lemma scoped_app fd new cs :
  Forall (application_call_on fd) new ->
  current_fd cs = Some fd -> scoped cs -> scoped (new ++ cs).
Proof.
  intros Hnew Hfd Hcs. induction Hnew as [|c new Hc Hnew IH]; cbn; [exact Hcs|].
  destruct c; try contradiction. cbn in Hc. subst.
  split; [|exact IH]. cbn. rewrite (current_fd_app fd new cs Hnew). exact Hfd.
Qed.

Lemma current_fd_nonneg cs fd : current_fd cs = Some fd -> 0 <= fd.
Proof.
  induction cs as [|c cs IH]; cbn; [discriminate|].
  destruct c; try exact IH; try discriminate.
  destruct (ret0 <? 0) eqn:E; [discriminate|].
  intros Efd. injection Efd as <-. apply Z.ltb_ge, E.
Qed.

Lemma process_device_scoped db s open_mode it l (w : World K) :
  scoped (calls w) ->
  scoped (calls (snd (process_device db s open_mode it l w))).
Proof.
  intros Hw. reduce. repeat exec_step.
  all: cbn [snd calls].
  all: repeat first
         [ assumption
         | exact I
         | reflexivity
         | split
         | match goal with
           | Hnew : Forall (application_call_on _) ?new
             |- context [current_fd (?new ++ ?cs)] =>
               rewrite (current_fd_app _ new cs Hnew)
           | Hnew : Forall (application_call_on _) ?new
             |- scoped (?new ++ ?cs) =>
               apply (scoped_app _ new cs Hnew)
           end
         | progress (cbn [scoped descriptor_of current_fd]; use_eqns) ].
Qed.

(** X10.  Every [ioctl] and every [close] of a run works on the descriptor
    the most recent [open] returned, that [open] having succeeded and the
    descriptor not having been closed since: the program never hands the
    driver the result of a failed [open], a closed descriptor, or the
    descriptor of an earlier file.  So all these descriptors are
    non-negative. *)
Theorem calls_use_the_open_descriptor :
  forall (db : Database) (s : Settings.t) (version : Z)
         (device_info : hiddev_devinfo.t) (k : K),
    scoped (calls (snd (session db s version device_info (start k))))
    /\ Forall (fun c => forall fd, descriptor_of c = Some fd -> 0 <= fd)
         (calls (snd (session db s version device_info (start k)))).
Proof.
  intros db s version device_info k.
  assert (Hs : scoped (calls (snd (session db s version device_info (start k))))).
  { apply (session_keeps db s version device_info k (fun w => scoped (calls w))).
    - intros _. exact I.
    - exact I.
    - intros it l w _ Hw. apply process_device_scoped, Hw. }
  split; [exact Hs|].
  induction (calls (snd (session db s version device_info (start k))))
    as [|c cs IH]; [constructor|].
  destruct Hs as [Hc Hcs]. constructor; [|apply IH, Hcs].
  intros fd Efd. rewrite Efd in Hc. eapply current_fd_nonneg, Hc.
Qed.

(* --------------------------------------------------------------------- *)
(** *** The files in order *)

Lemma process_device_opens db s open_mode it l (w : World K) :
  opened (calls (snd (process_device db s open_mode it l w)))
  = it :: opened (calls w).
Proof.
  reduce. repeat exec_step.
  all: cbn [snd calls].
  all: cbn [opened]; rewrite ?opened_app;
    try match goal with
        | Hnew : Forall (application_call_on _) ?new |- _ =>
            rewrite (opened_applications new (application_call_on_is _ new Hnew))
        end; reflexivity.
Qed.

Lemma device_loop_opens db s open_mode files l (w : World K) :
  match device_loop db s open_mode files l w with
  | (Normal _, w') => opened (calls w') = (rev files ++ opened (calls w))%list
  | (Exit _, w') =>
      exists done rest,
        files = (done ++ rest)%list /\ done <> []
        /\ opened (calls w') = (rev done ++ opened (calls w))%list
  end.
Proof.
  revert l w. induction files as [|it files IH]; intros l w.
  - reflexivity.
  - cbn [device_loop]. unfold bind.
    pose proof (process_device_opens db s open_mode it l w) as Eo.
    destruct (process_device db s open_mode it l w) as [[l'|code] w']; cbn [snd] in Eo.
    + specialize (IH l' w').
      destruct (device_loop db s open_mode files l' w') as [[l''|code] w''].
      * rewrite IH, Eo. cbn [rev]. rewrite <- app_assoc. reflexivity.
      * destruct IH as (done & rest & -> & Hd & E).
        exists (it :: done), rest. split; [reflexivity|]. split; [discriminate|].
        rewrite E, Eo. cbn [rev]. rewrite <- app_assoc. reflexivity.
    + exists [it], files. split; [reflexivity|]. split; [discriminate|].
      exact Eo.
Qed.

(** X11.  The files of the command line are opened one after the other, in
    the order given, each exactly once: the paths of the [open] calls of a
    run are a prefix of the list of files, the whole list when the run
    comes to its end, and a prefix that stops at the file the process
    exited on otherwise. *)
Theorem files_are_opened_in_order :
  forall (db : Database) (s : Settings.t) (version : Z)
         (device_info : hiddev_devinfo.t) (k : K),
    let r := fst (session db s version device_info (start k)) in
    let w := snd (session db s version device_info (start k)) in
    exists done rest,
      Settings.files s = (done ++ rest)%list
      /\ opened (history w) = done
      /\ (r = Normal tt -> rest = [])
      /\ (Settings.files s <> [] -> done <> []).
Proof.
  intros db s version device_info k r w. subst r w.
  destruct (Settings.files s) as [|it files] eqn:Ef.
  - exists [], []. unfold session. rewrite Ef. cbn.
    split; [reflexivity|]. split; [reflexivity|]. split; [discriminate|congruence].
  - rewrite session_run by congruence. rewrite Ef. unfold history.
    match goal with
    | |- context [device_loop ?a ?b ?c ?d ?e ?f] =>
        pose proof (device_loop_opens a b c d e f) as Hloop;
        destruct (device_loop a b c d e f) as [[l'|code] w']
    end; cbn [fst snd]; cbn [calls opened] in Hloop.
    + exists (it :: files), []. rewrite app_nil_r in *.
      split; [reflexivity|]. rewrite opened_rev, Hloop, rev_involutive.
      split; [reflexivity|]. split; [reflexivity|discriminate].
    + destruct Hloop as (done & rest & E & Hd & Eo).
      exists done, rest. rewrite app_nil_r in Eo.
      split; [exact E|]. rewrite opened_rev, Eo, rev_involutive.
      split; [reflexivity|]. split; [discriminate|]. intros _. exact Hd.
Qed.

(* --------------------------------------------------------------------- *)
(** *** The scan of the applications *)

Lemma scan_length_bound replies : (scan_length replies <= List.length replies)%nat.
Proof.
  induction replies as [|r replies IH]; cbn; [lia|].
  destruct (on_monitor_page r); lia.
Qed.

Lemma is_usb_monitor_from_scan n appl_num fd (w : World K) :
  0 <= appl_num ->
  appl_num + Z.of_nat n <= 2 ^ 31 ->
  let replies := application_replies n appl_num fd (kernel w) in
  exists k',
    is_usb_monitor_from n appl_num fd w =
      (Normal (existsb on_monitor_page replies),
       mkWorld k'
         (rev (map (fun i => call_HIDIOCAPPLICATION fd (appl_num + Z.of_nat i)
                                (nth i replies (-1)))
                   (seq 0 (scan_length replies))) ++ calls w)
         (output w)).
Proof.
  revert appl_num w. induction n as [|n IH]; intros appl_num w Ha Hn replies.
  - exists (kernel w). destruct w; reflexivity.
  - subst replies. cbn [is_usb_monitor_from application_replies].
    unfold bind, ioctl_HIDIOCAPPLICATION.
    destruct (sys_HIDIOCAPPLICATION fd appl_num (kernel w)) as [r k1].
    cbn [existsb scan_length]. unfold on_monitor_page at 1 3.
    destruct (Z.land (Z.shiftr r 16) 255 =? 128) eqn:Er; cbn [orb].
    + exists k1. cbn. rewrite Z.add_0_r. reflexivity.
    + assert (Hstep : exists k',
                 is_usb_monitor_from n (to_int (appl_num + 1)) fd
                   (record (call_HIDIOCAPPLICATION fd appl_num r) k1 w) =
                 (Normal (existsb on_monitor_page
                            (application_replies n (to_int (appl_num + 1)) fd k1)),
                  mkWorld k'
                    (rev (map (fun i =>
                                 call_HIDIOCAPPLICATION fd
                                   (appl_num + 1 + Z.of_nat i)
                                   (nth i (application_replies n
                                             (to_int (appl_num + 1)) fd k1) (-1)))
                              (seq 0 (scan_length
                                        (application_replies n
                                           (to_int (appl_num + 1)) fd k1))))
                     ++ call_HIDIOCAPPLICATION fd appl_num r :: calls w)
                    (output w))).
      { destruct n as [|n'].
        - exists k1. reflexivity.
        - assert (E : to_int (appl_num + 1) = appl_num + 1).
          { apply to_int_small. unfold INT_MIN, INT_MAX.
            change (2 ^ 31) with 2147483648 in *. lia. }
          rewrite E.
          destruct (IH (appl_num + 1)
                      (record (call_HIDIOCAPPLICATION fd appl_num r) k1 w))
            as [k' Ek']; [lia|lia|].
          exists k'. exact Ek'. }
      destruct Hstep as [k' Ek']. rewrite Ek'. exists k'.
      apply f_equal. apply (f_equal (fun cs => mkWorld k' cs (output w))).
      rewrite <- cons_seq, <- seq_shift. cbn [map]. rewrite map_map.
      cbn [rev nth]. rewrite Z.add_0_r, <- app_assoc. cbn [app].
      apply (f_equal (fun l => (rev l ++ _)%list)).
      apply map_ext. intros i. apply (f_equal (fun z => call_HIDIOCAPPLICATION fd z _)).
      lia.
Qed.

(** X12.  For a device with at most 2^31 applications (beyond that the
    [int] counter of the loop would overflow), the monitor check asks for
    the applications 0, 1, 2, ... in this order, one call each, and stops
    right after the first one on the monitor page: with [m] the position of
    that one (or the number of applications when there is none), it makes
    exactly the [m] queries for the indices below [m], none for an index at
    or above [num_applications], and it prints nothing. *)
Theorem monitor_scan_stops_at_the_first_match :
  forall (device_info : hiddev_devinfo.t) (fd : Z) (w : World K),
    hiddev_devinfo.num_applications device_info <= 2 ^ 31 ->
    let n := Z.to_nat (hiddev_devinfo.num_applications device_info) in
    let replies := application_replies n 0 fd (kernel w) in
    (scan_length replies <= n)%nat
    /\ exists k',
         is_usb_monitor device_info fd w =
           (Normal (existsb on_monitor_page replies),
            mkWorld k'
              (rev (map (fun i => call_HIDIOCAPPLICATION fd (Z.of_nat i)
                                     (nth i replies (-1)))
                        (seq 0 (scan_length replies))) ++ calls w)
              (output w)).
Proof.
  intros device_info fd w Hn n replies. split.
  - pose proof (scan_length_bound replies) as Hb. subst replies.
    rewrite application_replies_length in Hb. exact Hb.
  - unfold is_usb_monitor. fold n.
    destruct (is_usb_monitor_from_scan n 0 fd w) as [k' Ek'];
      [lia | subst n; lia |].
    exists k'. exact Ek'.
Qed.

(* --------------------------------------------------------------------- *)
(** *** The exchange in query and in SET mode *)

(** X13.  The exchange of a query (any mode but SET and SETREL) is
    get-usage, then get-report, both for report 16 and usage 0x820010 of
    the feature report; the line printed carries the value get-usage
    returned, that is, the value the driver held before the report was
    asked for; [brightness] stays as it was.  When get-usage fails the
    process exits with 2 and get-report is not called; when get-report
    fails it exits with 3; no brightness line is printed then. *)
Theorem query_exchange :
  forall (s : Settings.t) (it : string) (fd brightness : Z) (w : World K),
    Settings.mode s <> SET ->
    Settings.mode s <> SETREL ->
    let usage_ref :=
      hiddev_usage_ref.mk HID_REPORT_TYPE_FEATURE BRIGHTNESS_CONTROL 0 0
        USAGE_CODE brightness in
    let rep_info :=
      hiddev_report_info.mk HID_REPORT_TYPE_FEATURE BRIGHTNESS_CONTROL 1 in
    match transaction s it fd brightness w with
    | (Normal brightness', w') =>
        exists r1 read r2,
          0 <= r1 /\ 0 <= r2
          /\ calls w' =
               call_HIDIOCGREPORT fd rep_info r2
               :: call_HIDIOCGUSAGE fd usage_ref r1 read :: calls w
          /\ output w' =
               out_brightness (if Settings.brief s then None else Some it)
                 (hiddev_usage_ref.value read) :: output w
          /\ brightness' = brightness
    | (Exit code, w') =>
        (exists r1 read,
            r1 < 0 /\ code = 2
            /\ calls w' = call_HIDIOCGUSAGE fd usage_ref r1 read :: calls w
            /\ output w' = out_perror "Usage failed!" :: output w)
        \/ (exists r1 read r2,
              0 <= r1 /\ r2 < 0 /\ code = 3
              /\ calls w' =
                   call_HIDIOCGREPORT fd rep_info r2
                   :: call_HIDIOCGUSAGE fd usage_ref r1 read :: calls w
              /\ output w' = out_perror "Report failed!" :: output w)
    end.
Proof.
  intros s it fd brightness w Hset Hrel usage_ref rep_info.
  subst usage_ref rep_info.
  apply Z.eqb_neq in Hset, Hrel. reduce. rewrite Hset.
  exec_step. destruct p as [r1 read]. cbn [fst snd] in *.
  exec_step; [|exec_step; exec_step; rewrite ?Hrel; reduce]; to_arith.
  - left. exists r1, read. auto.
  - right. exists r1, read, z. auto 10.
  - exists r1, read, z. auto 10.
Qed.

(** X14.  The exchange of SET mode is set-usage with the value of
    [brightness] as it is (for report 16 and usage 0x820010 of the feature
    report), then set-report; nothing is read back and nothing is printed.
    When set-usage fails the process exits with 2 and set-report is not
    called; when set-report fails it exits with 3. *)
Theorem absolute_set_exchange :
  forall (s : Settings.t) (it : string) (fd brightness : Z) (w : World K),
    Settings.mode s = SET ->
    let usage_ref :=
      hiddev_usage_ref.mk HID_REPORT_TYPE_FEATURE BRIGHTNESS_CONTROL 0 0
        USAGE_CODE brightness in
    let rep_info :=
      hiddev_report_info.mk HID_REPORT_TYPE_FEATURE BRIGHTNESS_CONTROL 1 in
    match transaction s it fd brightness w with
    | (Normal brightness', w') =>
        exists r1 r2,
          0 <= r1 /\ 0 <= r2
          /\ calls w' =
               call_HIDIOCSREPORT fd rep_info r2
               :: call_HIDIOCSUSAGE fd usage_ref r1 :: calls w
          /\ output w' = output w
          /\ brightness' = brightness
    | (Exit code, w') =>
        (exists r1,
            r1 < 0 /\ code = 2
            /\ calls w' = call_HIDIOCSUSAGE fd usage_ref r1 :: calls w
            /\ output w' = out_perror "Usage failed!" :: output w)
        \/ (exists r1 r2,
              0 <= r1 /\ r2 < 0 /\ code = 3
              /\ calls w' =
                   call_HIDIOCSREPORT fd rep_info r2
                   :: call_HIDIOCSUSAGE fd usage_ref r1 :: calls w
              /\ output w' = out_perror "Report failed!" :: output w)
    end.
Proof.
  intros s it fd brightness w Hset usage_ref rep_info.
  subst usage_ref rep_info.
  apply Z.eqb_eq in Hset. reduce. rewrite Hset.
  exec_step. exec_step; [|exec_step; exec_step]; to_arith.
  - left. exists z. auto.
  - right. exists z, z0. auto 10.
  - exists z, z0. auto 10.
Qed.

(* --------------------------------------------------------------------- *)
(** *** The options *)

Lemma parse_options_ending db getopt s (w : World K) c :
  first_ending getopt = Some c ->
  exists w',
    parse_options db getopt s w = (Exit (ending_code c), w')
    /\ calls w' = calls w /\ kernel w' = kernel w.
Proof.
  unfold first_ending. revert s.
  induction getopt as [|c0 getopt IH]; intros s Hc; cbn in Hc; [discriminate|].
  cbn [parse_options]. unfold bind, print, exit.
  destruct (ends_run c0) eqn:Ee.
  - injection Hc as <-. unfold ends_run in Ee. apply negb_true_iff in Ee.
    apply orb_false_iff in Ee as [Ee Ed].
    apply orb_false_iff in Ee as [Ee Ef].
    apply orb_false_iff in Ee as [Eb Es].
    unfold ending_code. rewrite Eb, Es, Ef, Ed.
    destruct (Ascii.eqb c0 "a"); [eexists; cbn; eauto|].
    destruct (Ascii.eqb c0 "h"); [eexists; cbn; eauto|].
    destruct (Ascii.eqb c0 "l"); eexists; cbn; eauto.
  - unfold ends_run in Ee. apply negb_false_iff in Ee.
    destruct (Ascii.eqb_spec c0 "a") as [->|_]; [discriminate|].
    destruct (Ascii.eqb c0 "b"); [apply IH, Hc|].
    destruct (Ascii.eqb_spec c0 "h") as [->|_]; [discriminate|].
    destruct (Ascii.eqb c0 "s"); [apply IH, Hc|].
    destruct (Ascii.eqb c0 "f"); [apply IH, Hc|].
    destruct (Ascii.eqb c0 "d"); [apply IH, Hc|].
    discriminate.
Qed.

(** X15.  When the command line has an option that ends the run (about,
    help, list-all, or one [getopt_long] does not know), the first such
    option decides: the process exits with 0 for about, help and list-all
    and with 2 for an unknown option, whatever options and parameters
    follow, and it makes no call to the driver at all: no file is opened. *)
Theorem ending_option_touches_no_device :
  forall (getopt : list ascii) (params : list string) (version : Z)
         (device_info : hiddev_devinfo.t) (k : K) (c : ascii),
    first_ending getopt = Some c ->
    fst (main getopt params version device_info (start k)) = Exit (ending_code c)
    /\ calls (snd (main getopt params version device_info (start k))) = []
    /\ kernel (snd (main getopt params version device_info (start k))) = k
    /\ (ending_code c = 0 <-> c = "a"%char \/ c = "h"%char \/ c = "l"%char)
    /\ (ending_code c = 2 <-> ~ (c = "a"%char \/ c = "h"%char \/ c = "l"%char)).
Proof.
  intros getopt params version device_info k c Hc.
  destruct (parse_options_ending (init_device_database empty_database) getopt
              Settings.initial (start k) c Hc) as (w' & E & Ec & Ek).
  unfold main, bind. rewrite E. cbn [fst snd].
  split; [reflexivity|]. split; [exact Ec|]. split; [exact Ek|].
  unfold ending_code.
  destruct (Ascii.eqb_spec c "a"); destruct (Ascii.eqb_spec c "h");
    destruct (Ascii.eqb_spec c "l"); cbn [orb];
    split; split; intros; try tauto; try discriminate; try lia.
Qed.

Lemma apply_options_fields getopt s :
  let s' := fold_left apply_option getopt s in
  Settings.brief s' = Settings.brief s || existsb (fun c => Ascii.eqb c "b") getopt
  /\ Settings.silent s' = Settings.silent s || existsb (fun c => Ascii.eqb c "s") getopt
  /\ Settings.force s' = Settings.force s || existsb (fun c => Ascii.eqb c "f") getopt
  /\ Settings.mode s' =
       (if existsb (fun c => Ascii.eqb c "d") getopt then DETECT else Settings.mode s)
  /\ Settings.amount s' = Settings.amount s
  /\ Settings.brightness s' = Settings.brightness s
  /\ Settings.files s' = Settings.files s.
Proof.
  revert s. induction getopt as [|c getopt IH]; intros s; cbn [fold_left existsb].
  - cbn. rewrite !orb_false_r. auto 10.
  - destruct (IH (apply_option s c)) as (Eb & Es & Ef & Em & Ea & Er & Efi).
    cbv zeta. rewrite Eb, Es, Ef, Em, Ea, Er, Efi. clear.
    unfold apply_option.
    destruct (Ascii.eqb_spec c "b") as [->|Nb]; [cbn; rewrite !orb_true_r; auto 10|].
    destruct (Ascii.eqb_spec c "s") as [->|Ns]; [cbn; rewrite !orb_true_r; auto 10|].
    destruct (Ascii.eqb_spec c "f") as [->|Nf]; [cbn; rewrite !orb_true_r; auto 10|].
    destruct (Ascii.eqb_spec c "d") as [->|Nd]; cbn;
      [destruct (existsb (fun c => Ascii.eqb c "d") getopt)|]; auto 10.
Qed.

Lemma existsb_eqb_In (a : ascii) getopt :
  existsb (fun c => Ascii.eqb c a) getopt = true <-> In a getopt.
Proof.
  rewrite existsb_exists. split.
  - intros (c & Hc & E). apply Ascii.eqb_eq in E. congruence.
  - intros Hin. exists a. split; [exact Hin|apply Ascii.eqb_refl].
Qed.

(** X16.  Options that do not end the run only set flags, and a flag is set
    exactly when its option occurs: the order of the options and their
    repetition make no difference, no option clears what another has set,
    and the option loop prints nothing and makes no call.  The mode is
    DETECT when the detect option occurs and GET otherwise; [amount] and
    [brightness] are 0 and the list of files is empty when the loop over
    the parameters starts. *)
Theorem options_set_flags :
  forall (db : Database) (getopt : list ascii) (w : World K),
    Forall (fun c => ends_run c = false) getopt ->
    exists s',
      parse_options db getopt Settings.initial w = (Normal s', w)
      /\ (Settings.brief s' = true <-> In "b"%char getopt)
      /\ (Settings.silent s' = true <-> In "s"%char getopt)
      /\ (Settings.force s' = true <-> In "f"%char getopt)
      /\ (Settings.mode s' = DETECT <-> In "d"%char getopt)
      /\ (Settings.mode s' = GET <-> ~ In "d"%char getopt)
      /\ Settings.amount s' = 0
      /\ Settings.brightness s' = 0
      /\ Settings.files s' = [].
Proof.
  intros db getopt w Hg.
  exists (fold_left apply_option getopt Settings.initial).
  split; [apply parse_options_run, Hg|].
  destruct (apply_options_fields getopt Settings.initial)
    as (Eb & Es & Ef & Em & Ea & Er & Efi).
  cbv zeta in *. rewrite Eb, Es, Ef, Em, Ea, Er, Efi.
  rewrite <- !existsb_eqb_In. cbn [Settings.brief Settings.silent Settings.force
    Settings.mode Settings.amount Settings.brightness Settings.files
    Settings.initial orb].
  destruct (existsb (fun c => Ascii.eqb c "d") getopt);
    repeat split; intros; try reflexivity; try tauto; try discriminate.
Qed.

(* --------------------------------------------------------------------- *)
(** *** From the command line to the device *)

Lemma session_sends db s version device_info (k : K) :
  Forall (sent_as_designed s)
    (calls (snd (session db s version device_info (start k)))).
Proof.
  destruct (Settings.files s) as [|it files] eqn:Ef.
  - unfold session. rewrite Ef. cbn. constructor.
  - rewrite session_run by congruence.
    match goal with
    | |- context [device_loop ?a ?b ?c ?d ?e ?f] =>
        pose proof (device_loop_invariant a b c
                      (fun l w => Forall (sent_as_designed s) (calls w)
                                  /\ (Settings.mode s = SET ->
                                      Loop.brightness l = Settings.brightness s))
                      (fun _ w => Forall (sent_as_designed s) (calls w))) as Hloop;
        specialize (Hloop
                      (fun it l w Hw =>
                         process_device_sends a b c it l w (proj1 Hw) (proj2 Hw))
                      d e f (conj (Forall_nil _) (fun _ => eq_refl)));
        destruct (device_loop a b c d e f) as [[l'|code] w']
    end; cbn [snd]; [apply Hloop|exact Hloop].
Qed.

Lemma sent_values_in_set_mode s cs :
  Settings.mode s = SET ->
  Forall (sent_as_designed s) cs ->
  Forall (fun v => v = Settings.brightness s) (sent_values cs).
Proof.
  intros Hmode. apply Z.eqb_eq in Hmode.
  induction 1 as [|c cs Hc _ IH]; cbn; [constructor|].
  destruct c; try exact IH. cbn in Hc. rewrite Hmode in Hc.
  constructor; assumption.
Qed.

(** X17.  From the command line to the driver, for an absolute value:
    when the options neither end the run nor ask for detection and the
    last brightness parameter [p] starts with a digit, every value the run
    hands to set-usage, on every device of the command line, is [atoi p],
    as it is (also when it is above 255). *)
Theorem absolute_value_reaches_every_device :
  forall (getopt : list ascii) (pre : list string) (p : string)
         (post : list string) (version : Z) (device_info : hiddev_devinfo.t)
         (k : K),
    Forall (fun c => ends_run c = false) getopt ->
    ~ In "d"%char getopt ->
    number (Some p) = true ->
    relative p = false ->
    Forall (fun q => number (Some q) = false) post ->
    Forall (fun v => v = atoi p)
      (sent_values
         (calls (snd (main getopt (pre ++ p :: post) version device_info
                        (start k))))).
Proof.
  intros getopt pre p post version device_info k Hg Hd Hp Hrel Hpost.
  rewrite main_run by exact Hg.
  set (s0 := fold_left apply_option getopt Settings.initial).
  assert (Hm0 : Settings.mode s0 <> DETECT).
  { destruct (apply_options_fields getopt Settings.initial) as (_ & _ & _ & Em & _).
    cbv zeta in Em. fold s0 in Em. rewrite Em.
    destruct (existsb (fun c => Ascii.eqb c "d") getopt) eqn:E.
    - apply existsb_eqb_In in E. contradiction.
    - discriminate. }
  set (s := parse_params (pre ++ p :: post) s0).
  assert (Hs : Settings.mode s = SET /\ Settings.brightness s = atoi p).
  { subst s. rewrite parse_params_app, parse_params_step.
    pose proof (parse_params_not_detect pre s0 Hm0) as Hpre.
    apply Z.eqb_neq in Hpre. rewrite Hpre, Hp, Hrel. cbn [negb andb].
    match goal with
    | |- context [parse_params post ?t] =>
        destruct (parse_params_plain post t Hpost) as (Em & _ & Eb)
    end.
    rewrite Em, Eb. cbn. auto. }
  destruct Hs as [Hmode Hb]. rewrite <- Hb.
  apply sent_values_in_set_mode; [exact Hmode|]. apply session_sends.
Qed.

Lemma no_ending_option getopt :
  first_ending getopt = None -> Forall (fun c => ends_run c = false) getopt.
Proof.
  unfold first_ending. intros Hn. apply Forall_forall. intros c Hc.
  apply (find_none ends_run getopt Hn c Hc).
Qed.

(** X19.  Whatever the command line and whatever the driver does, the
    process ends, and its exit status is 0, 1, 2 or 3. *)
Theorem exit_status_is_at_most_3 :
  forall (getopt : list ascii) (params : list string) (version : Z)
         (device_info : hiddev_devinfo.t) (k : K),
    0 <= exit_status (fst (main getopt params version device_info (start k))) <= 3.
Proof.
  intros getopt params version device_info k.
  destruct (first_ending getopt) as [c|] eqn:Ec.
  - destruct (parse_options_ending (init_device_database empty_database) getopt
                Settings.initial (start k) c Ec) as (w' & E & _).
    unfold main, bind. rewrite E. cbn [fst exit_status]. unfold ending_code.
    destruct (_ || _); lia.
  - rewrite main_run by (apply no_ending_option, Ec).
    match goal with
    | |- context [session ?db ?s _ _ _] =>
        pose proof (session_ends db s version device_info k) as Hend;
        cbv zeta in Hend;
        destruct (Settings.files s)
    end.
    + destruct Hend as [-> _]. cbn. lia.
    + destruct Hend as (c & rest & _ & _ & ->).
      match goal with
      | |- context [fatal ?db ?s c] =>
          destruct (fatal_cases db s c) as (_ & _ & _ & _ & Hrange);
          destruct (fatal db s c) as [code|]
      end; cbn [exit_status]; [specialize (Hrange code eq_refl); lia|lia].
Qed.

(* --------------------------------------------------------------------- *)
(** *** Nothing is exchanged with a device that is no monitor *)

Lemma is_usb_monitor_from_found n appl_num fd (w : World K) :
  exists k' new b,
    is_usb_monitor_from n appl_num fd w =
      (Normal b, mkWorld k' (new ++ calls w) (output w))
    /\ Forall (application_call_on fd) new
    /\ (b = true -> forall cs, monitor_found (new ++ cs) = true).
Proof.
  revert appl_num w. induction n as [|n IH]; intros appl_num w.
  - exists (kernel w), [], false. destruct w; cbn.
    split; [reflexivity|]. split; [constructor|discriminate].
  - cbn [is_usb_monitor_from]. unfold bind, ioctl_HIDIOCAPPLICATION.
    destruct (sys_HIDIOCAPPLICATION fd appl_num (kernel w)) as [r k1].
    destruct (Z.land (Z.shiftr r 16) 255 =? 128) eqn:Er.
    + exists k1, [call_HIDIOCAPPLICATION fd appl_num r], true.
      split; [reflexivity|]. split; [repeat constructor|].
      intros _ cs. exact Er.
    + destruct (IH (to_int (appl_num + 1))
                  (record (call_HIDIOCAPPLICATION fd appl_num r) k1 w))
        as (k' & new & b & E & Hnew & Hfound).
      rewrite E. cbn [record kernel calls output].
      exists k', (new ++ [call_HIDIOCAPPLICATION fd appl_num r])%list, b.
      rewrite <- app_assoc. split; [reflexivity|].
      split; [apply Forall_app; split; [exact Hnew|repeat constructor]|].
      intros Hb cs. rewrite <- app_assoc. apply Hfound, Hb.
Qed.

Lemma guarded_app fd new cs :
  Forall (application_call_on fd) new -> guarded cs -> guarded (new ++ cs).
Proof.
  induction 1 as [|c new Hc _ IH]; intros Hcs; cbn; [exact Hcs|].
  destruct c; try contradiction. split; [exact I|apply IH, Hcs].
Qed.

(** One step of the program, keeping what the monitor check found. *)
Ltac exec_step_found :=
  lazymatch goal with
  | |- context [match ?t with _ => _ end] =>
      let x := scrutinee t in
      lazymatch x with
      | is_usb_monitor_from ?n ?i ?fd ?w =>
          let k := fresh "k" in
          let new := fresh "new" in
          let b := fresh "b" in
          let E := fresh "E" in
          let Hnew := fresh "Hnew" in
          let Hfound := fresh "Hfound" in
          destruct (is_usb_monitor_from_found n i fd w)
            as (k & new & b & E & Hnew & Hfound);
          rewrite E; clear E; destruct b;
          [specialize (Hfound eq_refl)|clear Hfound];
          cbn [negb]
      | _ => destruct x eqn:?
      end; reduce
  end.

Lemma process_device_guarded db s open_mode it l (w : World K) :
  guarded (calls w) ->
  guarded (calls (snd (process_device db s open_mode it l w))).
Proof.
  intros Hw. reduce. repeat exec_step_found.
  all: cbn [snd calls].
  all: repeat first
         [ assumption
         | exact I
         | reflexivity
         | split
         | match goal with
           | Hfound : forall cs, monitor_found (_ ++ cs) = true |- _ =>
               rewrite Hfound
           | Hnew : Forall (application_call_on _) ?new |- guarded (?new ++ ?cs) =>
               apply (guarded_app _ new cs Hnew)
           end
         | progress (cbn [guarded ready negb andb]; use_eqns) ].
Qed.

(** X20.  The brightness exchange is only ever held with a device the
    monitor check has accepted: in every run, an init-report comes right
    after an application reply on the monitor page, and every get-usage,
    set-usage, get-report and set-report comes after that init-report has
    succeeded, with nothing in between but calls of the exchange that
    succeeded.  So nothing is read from or written to a device that is no
    USB monitor, forced or not. *)
Theorem exchange_only_with_a_monitor :
  forall (db : Database) (s : Settings.t) (version : Z)
         (device_info : hiddev_devinfo.t) (k : K),
    guarded (calls (snd (session db s version device_info (start k)))).
Proof.
  intros db s version device_info k.
  apply (session_keeps db s version device_info k (fun w => guarded (calls w))).
  - intros _. exact I.
  - exact I.
  - intros it l w _ Hw. apply process_device_guarded, Hw.
Qed.

(* --------------------------------------------------------------------- *)
(** *** The driver version line *)

Lemma process_device_version_lines db s open_mode it l (w : World K) :
  match process_device db s open_mode it l w with
  | (Normal l', w') =>
      (version_lines (output w') <= S (version_lines (output w)))%nat
      /\ (Loop.first_device l = false ->
          version_lines (output w') = version_lines (output w)
          /\ Loop.first_device l' = false)
  | (Exit _, w') =>
      (version_lines (output w') <= S (version_lines (output w)))%nat
      /\ (Loop.first_device l = false ->
          version_lines (output w') = version_lines (output w))
  end.
Proof.
  reduce. repeat exec_step.
  all: cbn [version_lines fst snd output].
  all: split; [lia|]; intros Hf;
    try (rewrite Hf, andb_false_r in *; discriminate);
    repeat split; try reflexivity; try exact Hf.
Qed.

Lemma process_device_clears_first_device db s open_mode it l (w : World K) :
  match process_device db s open_mode it l w with
  | (Normal l', w') => closed_last (calls w') = true -> Loop.first_device l' = false
  | (Exit _, _) => True
  end.
Proof.
  reduce. repeat exec_step.
  all: cbn [calls Loop.first_device closed_last];
    try exact I; try discriminate; try reflexivity.
  all: destruct new as [|q new']; cbn [app closed_last]; [discriminate|];
    destruct q; try discriminate;
    inversion Hnew as [|? ? Hq]; contradiction.
Qed.

(** X22.  The driver version line is printed at most once in a round of
    the loop, so at most once per file; a round that gets to close its
    descriptor clears [first_device]; and once the flag is cleared no
    later round prints the line and nothing sets the flag again. *)
Theorem version_line_after_first_device :
  forall (db : Database) (s : Settings.t) (open_mode : OpenMode)
         (files : list string) (l : Loop.t) (w : World K),
    let w' := snd (device_loop db s open_mode files l w) in
    (version_lines (output w') <= version_lines (output w) + List.length files)%nat
    /\ (Loop.first_device l = false ->
        version_lines (output w') = version_lines (output w)
        /\ forall l', fst (device_loop db s open_mode files l w) = Normal l' ->
                      Loop.first_device l' = false)
    /\ (forall it l1 w1 fd rest,
          process_device db s open_mode it l w = (Normal l1, w1) ->
          calls w1 = call_close fd :: rest ->
          Loop.first_device l1 = false).
Proof.
  intros db s open_mode files l w w'.
  assert (Hloop : forall files l w,
             let w' := snd (device_loop db s open_mode files l w) in
             (version_lines (output w')
              <= version_lines (output w) + List.length files)%nat
             /\ (Loop.first_device l = false ->
                 version_lines (output w') = version_lines (output w)
                 /\ forall l', fst (device_loop db s open_mode files l w) = Normal l' ->
                               Loop.first_device l' = false)).
  { clear. intros files. induction files as [|it files IH]; intros l w w'.
    - subst w'. cbn. split; [lia|]. intros Hf. split; [reflexivity|].
      intros l' E. injection E as <-. exact Hf.
    - subst w'. cbn [device_loop List.length]. unfold bind.
      pose proof (process_device_version_lines db s open_mode it l w) as Hstep.
      destruct (process_device db s open_mode it l w) as [[l1|code] w1].
      + destruct Hstep as [Hle Hclear].
        destruct (IH l1 w1) as [Hle' Hclear']. cbv zeta in *.
        split; [lia|]. intros Hf. destruct (Hclear Hf) as [E1 Hf1].
        destruct (Hclear' Hf1) as [E2 Hl]. split; [congruence|exact Hl].
      + cbn [fst snd]. destruct Hstep as [Hle Hclear].
        split; [lia|]. intros Hf. split; [apply Hclear, Hf|discriminate]. }
  destruct (Hloop files l w) as [Hle Hclear].
  split; [exact Hle|]. split; [exact Hclear|].
  intros it l1 w1 fd rest E Ec.
  pose proof (process_device_clears_first_device db s open_mode it l w) as Hc.
  rewrite E, Ec in Hc. apply Hc. reflexivity.
Qed.

End MoreRuns.

(** X18.  In detection the loop over the parameters takes every parameter
    for a device path, also one that looks like a number or a relative
    change: the files are the parameters in the order given, and the mode,
    [amount], [brightness] and the flags stay as the options left them. *)
Theorem detection_takes_every_parameter_for_a_path :
  forall (params : list string) (s : Settings.t),
    Settings.mode s = DETECT ->
    parse_params params s =
    Settings.mk (Settings.brief s) (Settings.silent s) (Settings.force s) DETECT
      (Settings.amount s) (Settings.brightness s)
      (Settings.files s ++ params).
Proof.
  induction params as [|p params IH]; intros s Hs.
  - cbn. rewrite app_nil_r. rewrite <- Hs. destruct s; reflexivity.
  - rewrite parse_params_step, Hs. change (DETECT =? DETECT) with true.
    cbn [negb andb]. rewrite IH by exact Hs. cbn.
    rewrite <- app_assoc. reflexivity.
Qed.

(* ===================================================================== *)
(** ** Further concrete runs *)

(** [acdcontrol -s /dev/hiddev0] on a display. *)
Lemma silent_suppresses_notice_and_version_witness :
  Forall (fun o => ~ chatter o)
    (output
       (snd (session registry
               (Settings.push_back (Settings.set_silent Settings.initial)
                  "/dev/hiddev0")
               Mock.junk_version Mock.junk_info (start [Runs.cinema 160])))).
Proof.
  apply (silent_suppresses_notice_and_version registry
           (Settings.push_back (Settings.set_silent Settings.initial) "/dev/hiddev0")
           Mock.junk_version Mock.junk_info [Runs.cinema 160]).
  reflexivity.
Defined.

(** The scan on a display with one application. *)
Lemma monitor_scan_stops_at_the_first_match_witness :
  (scan_length (application_replies 1 0 3 [Runs.cinema 160]) <= 1)%nat.
Proof.
  assert (Hn : hiddev_devinfo.num_applications (Mock.info (Runs.cinema 160))
               <= 2 ^ 31) by (vm_compute; discriminate).
  exact (proj1 (monitor_scan_stops_at_the_first_match
                  (Mock.info (Runs.cinema 160)) 3 (start [Runs.cinema 160]) Hn)).
Defined.

(** A query on a display at 160. *)
Lemma query_exchange_witness :
  output (snd (transaction Settings.initial "/dev/hiddev0" 3 0
                 (start [Runs.cinema 160])))
  = [out_brightness (Some "/dev/hiddev0") 160].
Proof.
  assert (H1 : Settings.mode Settings.initial <> SET) by (vm_compute; discriminate).
  assert (H2 : Settings.mode Settings.initial <> SETREL) by (vm_compute; discriminate).
  pose proof (query_exchange Settings.initial "/dev/hiddev0" 3 0
                (start [Runs.cinema 160]) H1 H2) as Hq.
  cbv zeta in Hq.
  destruct (transaction Settings.initial "/dev/hiddev0" 3 0
              (start [Runs.cinema 160])) as [[b|code] w'] eqn:E;
    vm_compute in E; [|discriminate].
  injection E as <- <-.
  destruct Hq as (r1 & read & r2 & _ & _ & Ec & Eo & _).
  cbn [calls] in Ec. injection Ec as _ _ <-. exact Eo.
Defined.

(** An absolute set of 200 on a display at 160. *)
Lemma absolute_set_exchange_witness :
  sent_values
    (calls (snd (transaction (Settings.set_absolute Settings.initial 200)
                   "/dev/hiddev0" 3 200 (start [Runs.cinema 160]))))
  = [200]
  /\ output (snd (transaction (Settings.set_absolute Settings.initial 200)
                    "/dev/hiddev0" 3 200 (start [Runs.cinema 160]))) = [].
Proof.
  pose proof (absolute_set_exchange (Settings.set_absolute Settings.initial 200)
                "/dev/hiddev0" 3 200 (start [Runs.cinema 160]) eq_refl) as Hq.
  cbv zeta in Hq.
  destruct (transaction (Settings.set_absolute Settings.initial 200)
              "/dev/hiddev0" 3 200 (start [Runs.cinema 160]))
    as [[b|code] w'] eqn:E; vm_compute in E; [|discriminate].
  injection E as <- <-.
  destruct Hq as (r1 & r2 & _ & _ & Ec & Eo & _).
  split; [cbn [snd]; rewrite Ec; reflexivity|exact Eo].
Defined.

(** [acdcontrol -s -h -x /dev/hiddev0]: help, exit 0, no call. *)
Lemma ending_option_touches_no_device_witness :
  fst (Mock.run [Runs.cinema 160] ["s"; "h"; "x"]%char ["/dev/hiddev0"]) = Exit 0
  /\ calls (snd (Mock.run [Runs.cinema 160] ["s"; "h"; "x"]%char ["/dev/hiddev0"]))
     = [].
Proof.
  destruct (ending_option_touches_no_device ["s"; "h"; "x"]%char ["/dev/hiddev0"]
              Mock.junk_version Mock.junk_info [Runs.cinema 160] "h"%char eq_refl)
    as (E & Ec & _).
  split; [exact E|exact Ec].
Defined.

(** [acdcontrol --force -b --force]: force and brief, not silent. *)
Lemma options_set_flags_witness :
  exists s',
    parse_options registry ["f"; "b"; "f"]%char Settings.initial
      (start [Runs.cinema 160]) = (Normal s', start [Runs.cinema 160])
    /\ Settings.force s' = true
    /\ Settings.brief s' = true
    /\ Settings.silent s' <> true.
Proof.
  assert (Hg : Forall (fun c => ends_run c = false) ["f"; "b"; "f"]%char)
    by (repeat constructor).
  destruct (options_set_flags registry ["f"; "b"; "f"]%char
              (start [Runs.cinema 160]) Hg)
    as (s' & E & Hb & Hs & Hf & _).
  exists s'. split; [exact E|].
  split; [apply Hf; left; reflexivity|].
  split; [apply Hb; right; left; reflexivity|].
  intros Hx. apply Hs in Hx. cbn in Hx. intuition discriminate.
Defined.

(** [acdcontrol /dev/hiddev0 300 /dev/hiddev1] with two displays. *)
Lemma absolute_value_reaches_every_device_witness :
  Forall (fun v => v = atoi "300")
    (sent_values
       (calls (snd (main [] (["/dev/hiddev0"] ++ "300" :: ["/dev/hiddev1"])
                      Mock.junk_version Mock.junk_info
                      (start [Runs.cinema 160; Runs.studio 90]))))).
Proof.
  apply (absolute_value_reaches_every_device [] ["/dev/hiddev0"] "300"
           ["/dev/hiddev1"] Mock.junk_version Mock.junk_info
           [Runs.cinema 160; Runs.studio 90]).
  - constructor.
  - intros [].
  - reflexivity.
  - reflexivity.
  - repeat constructor.
Defined.

(** [acdcontrol -d 100 +5 /dev/hiddev0]: three files. *)
Lemma detection_takes_every_parameter_for_a_path_witness :
  Settings.files
    (parse_params ["100"; "+5"; "/dev/hiddev0"]
       (Settings.set_mode Settings.initial DETECT))
  = ["100"; "+5"; "/dev/hiddev0"].
Proof.
  rewrite (detection_takes_every_parameter_for_a_path
             ["100"; "+5"; "/dev/hiddev0"]
             (Settings.set_mode Settings.initial DETECT) eq_refl).
  reflexivity.
Defined.

(** A relative change of +10 on a display at 250. *)
Lemma relative_adjust_exchange_witness :
  sent_values
    (calls (snd (transaction (Settings.set_relative Settings.initial 10)
                   "/dev/hiddev0" 3 0 (start [Runs.cinema 250]))))
  = [255].
Proof.
  pose proof (relative_adjust_exchange (Settings.set_relative Settings.initial 10)
                "/dev/hiddev0" 3 0 (start [Runs.cinema 250]) eq_refl) as Hq.
  cbv zeta in Hq.
  destruct (transaction (Settings.set_relative Settings.initial 10)
              "/dev/hiddev0" 3 0 (start [Runs.cinema 250]))
    as [[b|code] w'] eqn:E; vm_compute in E; [|discriminate].
  injection E as <- <-.
  destruct Hq as (r1 & read & r2 & r3 & r4 & r5 & readback & r6 & Ec & _).
  cbn [calls] in Ec. injection Ec as _ _ _ _ _ _ _ _ <-.
  reflexivity.
Defined.
